(** * A multi-agent task-dispatch network: broker, agents, coordinator

    Shallow embedding of [src/communication/message_types.py],
    [src/communication/broker.py], [src/agents/agent.py] and
    [src/coordinator.py], followed by the properties established about them.

    Conventions of the embedding.
    - Python [float]s (wall-clock readings, bid values) are rationals [Q];
      Python [int]s are [Z]; [str] is [string]; [set] is [gset]; [dict]
      used as a map is [gmap].
    - A method of a class becomes a computation in the monad [M] below,
      whose state is the object ([self]).  The monad also records what the
      method sends to its collaborators (publications, thread starts) and
      how it ends: normally, with an exception, or blocked for ever.
    - [time.time()], [uuid.uuid4()] and [random.uniform] are read from an
      [Oracle] handed to each operation. *)

From Stdlib Require Import QArith ZArith Ascii String List Sorted.
From stdpp Require Import base gmap sets list strings pretty.

Local Open Scope Z_scope.
Local Open Scope string_scope.
Local Open Scope list_scope.

(** ** The effect monad *)

Inductive exn :=
| KeyError (key : string)
| IndexError (what : string)
| TypeError (what : string)
| ConnectionError.

(** How a call ends.  [Blocked] is a call that never returns because it
    waits for a mutex that will not be released. *)
Inductive outcome (A : Type) :=
| Ret (a : A)
| Raised (e : exn)
| Blocked.
Arguments Ret {A} a.
Arguments Raised {A} e.
Arguments Blocked {A}.

Definition M (St Ev A : Type) : Type := St -> outcome A * St * list Ev.

Definition M_ret {St Ev A} (x : A) : M St Ev A := fun s => (Ret x, s, []).

(** Sequencing: state changes made before an exception stay, as in Python. *)
Definition M_bind {St Ev A B} (f : A -> M St Ev B) (m : M St Ev A) : M St Ev B :=
  fun s =>
    match m s with
    | (Ret x, s1, ev1) => let '(r, s2, ev2) := f x s1 in (r, s2, ev1 ++ ev2)
    | (Raised e, s1, ev1) => (Raised e, s1, ev1)
    | (Blocked, s1, ev1) => (Blocked, s1, ev1)
    end.

#[export] Instance M_mret St Ev : MRet (M St Ev) := fun A => M_ret.
#[export] Instance M_mbind St Ev : MBind (M St Ev) := fun A B => M_bind.

Definition get {St Ev} : M St Ev St := fun s => (Ret s, s, []).
Definition modify {St Ev} (f : St -> St) : M St Ev unit := fun s => (Ret tt, f s, []).
Definition emit {St Ev} (e : Ev) : M St Ev unit := fun s => (Ret tt, s, [e]).
Definition raise {St Ev A} (e : exn) : M St Ev A := fun s => (Raised e, s, []).
Definition block {St Ev A} : M St Ev A := fun s => (Blocked, s, []).

(** [if c: body] with no [else]. *)
Definition when {St Ev} (c : bool) (body : M St Ev unit) : M St Ev unit :=
  if c then body else mret tt.

(** [try: body / except Exception: handler] *)
Definition try_except {St Ev} (body handler : M St Ev unit) : M St Ev unit :=
  fun s =>
    match body s with
    | (Raised _, s1, ev1) => let '(r, s2, ev2) := handler s1 in (r, s2, ev1 ++ ev2)
    | r => r
    end.

(** [d[key]] on a key that may be absent. *)
Definition subscript {St Ev A} (key : string) (v : option A) : M St Ev A :=
  match v with
  | Some x => mret x
  | None => raise (KeyError key)
  end.

(** [l[i]] on a list. *)
Definition index {St Ev A} (what : string) (l : list A) (i : nat) : M St Ev A :=
  match l !! i with
  | Some x => mret x
  | None => raise (IndexError what)
  end.

Definition state_of {St Ev A} (r : outcome A * St * list Ev) : St := snd (fst r).
Definition events_of {St Ev A} (r : outcome A * St * list Ev) : list Ev := snd r.
Definition outcome_of {St Ev A} (r : outcome A * St * list Ev) : outcome A := fst (fst r).

(** Float comparisons. *)
Definition Qgtb (x y : Q) : bool := negb (Qle_bool x y).
Definition Qltb (x y : Q) : bool := negb (Qle_bool y x).

(** [int(x)] on a float: truncation towards zero. *)
Definition int_of_float (x : Q) : Z := Z.quot (Qnum x) (Zpos (Qden x)).

(** Python truthiness of an optional string: [None] and [""] are falsy. *)
Definition truthy (s : option string) : bool :=
  match s with
  | Some x => negb (String.eqb x "")
  | None => false
  end.

(** [x in ids] for an [x] that may be [None]. *)
Definition in_ids (x : option string) (ids : gset string) : bool :=
  match x with
  | Some m => bool_decide (m ∈ ids)
  | None => false
  end.

(** [ids.add(x)] *)
Definition add_id (x : option string) (ids : gset string) : gset string :=
  match x with
  | Some m => {[ m ]} ∪ ids
  | None => ids
  end.

(** ** message_types.py *)

Inductive MessageType :=
| TASK_BROADCAST
| BID
| TASK_ALLOCATION
| ACK
| HEARTBEAT
| AGENT_EVENT.

Definition value (t : MessageType) : string :=
  match t with
  | TASK_BROADCAST => "task_broadcast"
  | BID => "bid"
  | TASK_ALLOCATION => "task_allocation"
  | ACK => "acknowledgment"
  | HEARTBEAT => "heartbeat"
  | AGENT_EVENT => "agent_event"
  end.

Module Task.
Record t := mk {
  task_id : string;
  priority : Z;
  estimated_time : Q;
  description : string;
  created_at : Q
}.
End Task.

Module Bid.
Record t := mk {
  agent_id : string;
  task_id : string;
  bid_value : Q;
  current_load : Z;
  estimated_completion_time : Q
}.
End Bid.

Module Heartbeat.
Record t := mk {
  agent_id : string;
  timestamp : Q;
  status : string;
  current_load : Z;
  max_load : Z
}.
End Heartbeat.

(** The [data] dictionary of an agent event, one shape per event. *)
Inductive EventData :=
| data_empty
| data_task_cancelled (task_id : string) (elapsed : option Q)
| data_task_completed (task_id : string) (execution_time : Q)
| data_task_failed (task_id : string) (error : string)
| data_agent_crashed (crash_time : option Q) (active_running_tasks : list string)
| data_agent_recovered (recovered_at : Q).

(** The [payload] dictionary of a message; a key that is absent is [None]. *)
Module Payload.
Record t := mk {
  task : option Task.t;
  agent_id : option string;
  winning_bid : option Bid.t;
  bid : option Bid.t;
  heartbeat : option Heartbeat.t;
  event_type : option string;
  data : option EventData
}.
Definition empty : t := mk None None None None None None None.
End Payload.

(** A message as it travels: the dictionary made by [Message.to_dict], or
    the hand-built dictionary of an acknowledgment.  [msg_id] and [ack_for]
    are [None] when the key is absent; [requires_ack] is [false] when the
    key is absent or falsy. *)
Module MessageData.
Record t := mk {
  msg_id : option string;
  msg_type : string;
  sender_id : string;
  payload : Payload.t;
  timestamp : Q;
  requires_ack : bool;
  ack_for : option string
}.
End MessageData.

(** [Message(msg_id, msg_type, sender_id, payload, requires_ack=...).to_dict()];
    [__post_init__] stamps the message with the current time. *)
Definition Message_to_dict (now : Q) (msg_id : string) (msg_type : MessageType)
    (sender_id : string) (payload : Payload.t) (requires_ack : bool) : MessageData.t :=
  {| MessageData.msg_id := Some msg_id;
     MessageData.msg_type := value msg_type;
     MessageData.sender_id := sender_id;
     MessageData.payload := payload;
     MessageData.timestamp := now;
     MessageData.requires_ack := requires_ack;
     MessageData.ack_for := None |}.

(** What a component asks of its collaborators. *)
Inductive ThreadTarget :=
| execute_task_thread (task : Task.t)
| allocate_after_delay_thread (task_id : string).

Inductive Effect :=
| Publish (channel : string) (message : MessageData.t) (reliable : bool)
| ThreadStart (target : ThreadTarget).

(** The readings of the outside world during one operation: the clock, the
    identifiers drawn (the k-th draw is [uuid4 k]) and the random draw. *)
Record Oracle := {
  time_time : Q;
  uuid4 : nat -> string;
  random_uniform : Q -> Q -> Q
}.

(** ** agents/agent.py *)

Module Agent.

(** An entry of [running_tasks]; [stop_flag] is the state of the
    [threading.Event]. *)
Record RunningTask := {
  start_time : Q;
  stop_flag : bool
}.

(** The fields of an [Agent] object.  The broker handle, the mutex and the
    thread handles are left out: a method is one step of the model, so the
    mutex, which no method takes twice, is never contended. *)
Record t := mk {
  agent_id : string;
  current_load : Z;
  max_load : Z;
  assigned_tasks : list Task.t;
  completed_tasks : list Task.t;
  running_tasks : gmap string RunningTask;
  allocated_task_ids : gset string;
  processed_message_ids : gset string;
  bid_task_ids : gset string;
  is_alive : bool;
  is_crashed : bool;
  auto_recover_enabled : bool;
  auto_recover_delay : Q;
  crash_time : option Q;
  last_heartbeat : Q;
  heartbeat_interval : Q;
  stream_interval : Q;
  total_cpu_time : Q;
  total_memory_used : Q
}.

Definition set_current_load (v : Z) (self : t) : t :=
  {| agent_id := agent_id self; current_load := v; max_load := max_load self; assigned_tasks :=
     assigned_tasks self; completed_tasks := completed_tasks self; running_tasks :=
     running_tasks self; allocated_task_ids := allocated_task_ids self; processed_message_ids :=
     processed_message_ids self; bid_task_ids := bid_task_ids self; is_alive := is_alive self;
     is_crashed := is_crashed self; auto_recover_enabled := auto_recover_enabled self;
     auto_recover_delay := auto_recover_delay self; crash_time := crash_time self;
     last_heartbeat := last_heartbeat self; heartbeat_interval := heartbeat_interval self;
     stream_interval := stream_interval self; total_cpu_time := total_cpu_time self;
     total_memory_used := total_memory_used self |}.

Definition set_assigned_tasks (v : list Task.t) (self : t) : t :=
  {| agent_id := agent_id self; current_load := current_load self; max_load := max_load self;
     assigned_tasks := v; completed_tasks := completed_tasks self; running_tasks :=
     running_tasks self; allocated_task_ids := allocated_task_ids self; processed_message_ids :=
     processed_message_ids self; bid_task_ids := bid_task_ids self; is_alive := is_alive self;
     is_crashed := is_crashed self; auto_recover_enabled := auto_recover_enabled self;
     auto_recover_delay := auto_recover_delay self; crash_time := crash_time self;
     last_heartbeat := last_heartbeat self; heartbeat_interval := heartbeat_interval self;
     stream_interval := stream_interval self; total_cpu_time := total_cpu_time self;
     total_memory_used := total_memory_used self |}.

Definition set_completed_tasks (v : list Task.t) (self : t) : t :=
  {| agent_id := agent_id self; current_load := current_load self; max_load := max_load self;
     assigned_tasks := assigned_tasks self; completed_tasks := v; running_tasks := running_tasks
     self; allocated_task_ids := allocated_task_ids self; processed_message_ids :=
     processed_message_ids self; bid_task_ids := bid_task_ids self; is_alive := is_alive self;
     is_crashed := is_crashed self; auto_recover_enabled := auto_recover_enabled self;
     auto_recover_delay := auto_recover_delay self; crash_time := crash_time self;
     last_heartbeat := last_heartbeat self; heartbeat_interval := heartbeat_interval self;
     stream_interval := stream_interval self; total_cpu_time := total_cpu_time self;
     total_memory_used := total_memory_used self |}.

Definition set_running_tasks (v : gmap string RunningTask) (self : t) : t :=
  {| agent_id := agent_id self; current_load := current_load self; max_load := max_load self;
     assigned_tasks := assigned_tasks self; completed_tasks := completed_tasks self;
     running_tasks := v; allocated_task_ids := allocated_task_ids self; processed_message_ids :=
     processed_message_ids self; bid_task_ids := bid_task_ids self; is_alive := is_alive self;
     is_crashed := is_crashed self; auto_recover_enabled := auto_recover_enabled self;
     auto_recover_delay := auto_recover_delay self; crash_time := crash_time self;
     last_heartbeat := last_heartbeat self; heartbeat_interval := heartbeat_interval self;
     stream_interval := stream_interval self; total_cpu_time := total_cpu_time self;
     total_memory_used := total_memory_used self |}.

Definition set_allocated_task_ids (v : gset string) (self : t) : t :=
  {| agent_id := agent_id self; current_load := current_load self; max_load := max_load self;
     assigned_tasks := assigned_tasks self; completed_tasks := completed_tasks self;
     running_tasks := running_tasks self; allocated_task_ids := v; processed_message_ids :=
     processed_message_ids self; bid_task_ids := bid_task_ids self; is_alive := is_alive self;
     is_crashed := is_crashed self; auto_recover_enabled := auto_recover_enabled self;
     auto_recover_delay := auto_recover_delay self; crash_time := crash_time self;
     last_heartbeat := last_heartbeat self; heartbeat_interval := heartbeat_interval self;
     stream_interval := stream_interval self; total_cpu_time := total_cpu_time self;
     total_memory_used := total_memory_used self |}.

Definition set_processed_message_ids (v : gset string) (self : t) : t :=
  {| agent_id := agent_id self; current_load := current_load self; max_load := max_load self;
     assigned_tasks := assigned_tasks self; completed_tasks := completed_tasks self;
     running_tasks := running_tasks self; allocated_task_ids := allocated_task_ids self;
     processed_message_ids := v; bid_task_ids := bid_task_ids self; is_alive := is_alive self;
     is_crashed := is_crashed self; auto_recover_enabled := auto_recover_enabled self;
     auto_recover_delay := auto_recover_delay self; crash_time := crash_time self;
     last_heartbeat := last_heartbeat self; heartbeat_interval := heartbeat_interval self;
     stream_interval := stream_interval self; total_cpu_time := total_cpu_time self;
     total_memory_used := total_memory_used self |}.

Definition set_bid_task_ids (v : gset string) (self : t) : t :=
  {| agent_id := agent_id self; current_load := current_load self; max_load := max_load self;
     assigned_tasks := assigned_tasks self; completed_tasks := completed_tasks self;
     running_tasks := running_tasks self; allocated_task_ids := allocated_task_ids self;
     processed_message_ids := processed_message_ids self; bid_task_ids := v; is_alive :=
     is_alive self; is_crashed := is_crashed self; auto_recover_enabled := auto_recover_enabled
     self; auto_recover_delay := auto_recover_delay self; crash_time := crash_time self;
     last_heartbeat := last_heartbeat self; heartbeat_interval := heartbeat_interval self;
     stream_interval := stream_interval self; total_cpu_time := total_cpu_time self;
     total_memory_used := total_memory_used self |}.

Definition set_is_alive (v : bool) (self : t) : t :=
  {| agent_id := agent_id self; current_load := current_load self; max_load := max_load self;
     assigned_tasks := assigned_tasks self; completed_tasks := completed_tasks self;
     running_tasks := running_tasks self; allocated_task_ids := allocated_task_ids self;
     processed_message_ids := processed_message_ids self; bid_task_ids := bid_task_ids self;
     is_alive := v; is_crashed := is_crashed self; auto_recover_enabled := auto_recover_enabled
     self; auto_recover_delay := auto_recover_delay self; crash_time := crash_time self;
     last_heartbeat := last_heartbeat self; heartbeat_interval := heartbeat_interval self;
     stream_interval := stream_interval self; total_cpu_time := total_cpu_time self;
     total_memory_used := total_memory_used self |}.

Definition set_is_crashed (v : bool) (self : t) : t :=
  {| agent_id := agent_id self; current_load := current_load self; max_load := max_load self;
     assigned_tasks := assigned_tasks self; completed_tasks := completed_tasks self;
     running_tasks := running_tasks self; allocated_task_ids := allocated_task_ids self;
     processed_message_ids := processed_message_ids self; bid_task_ids := bid_task_ids self;
     is_alive := is_alive self; is_crashed := v; auto_recover_enabled := auto_recover_enabled
     self; auto_recover_delay := auto_recover_delay self; crash_time := crash_time self;
     last_heartbeat := last_heartbeat self; heartbeat_interval := heartbeat_interval self;
     stream_interval := stream_interval self; total_cpu_time := total_cpu_time self;
     total_memory_used := total_memory_used self |}.

Definition set_auto_recover_enabled (v : bool) (self : t) : t :=
  {| agent_id := agent_id self; current_load := current_load self; max_load := max_load self;
     assigned_tasks := assigned_tasks self; completed_tasks := completed_tasks self;
     running_tasks := running_tasks self; allocated_task_ids := allocated_task_ids self;
     processed_message_ids := processed_message_ids self; bid_task_ids := bid_task_ids self;
     is_alive := is_alive self; is_crashed := is_crashed self; auto_recover_enabled := v;
     auto_recover_delay := auto_recover_delay self; crash_time := crash_time self;
     last_heartbeat := last_heartbeat self; heartbeat_interval := heartbeat_interval self;
     stream_interval := stream_interval self; total_cpu_time := total_cpu_time self;
     total_memory_used := total_memory_used self |}.

Definition set_auto_recover_delay (v : Q) (self : t) : t :=
  {| agent_id := agent_id self; current_load := current_load self; max_load := max_load self;
     assigned_tasks := assigned_tasks self; completed_tasks := completed_tasks self;
     running_tasks := running_tasks self; allocated_task_ids := allocated_task_ids self;
     processed_message_ids := processed_message_ids self; bid_task_ids := bid_task_ids self;
     is_alive := is_alive self; is_crashed := is_crashed self; auto_recover_enabled :=
     auto_recover_enabled self; auto_recover_delay := v; crash_time := crash_time self;
     last_heartbeat := last_heartbeat self; heartbeat_interval := heartbeat_interval self;
     stream_interval := stream_interval self; total_cpu_time := total_cpu_time self;
     total_memory_used := total_memory_used self |}.

Definition set_crash_time (v : option Q) (self : t) : t :=
  {| agent_id := agent_id self; current_load := current_load self; max_load := max_load self;
     assigned_tasks := assigned_tasks self; completed_tasks := completed_tasks self;
     running_tasks := running_tasks self; allocated_task_ids := allocated_task_ids self;
     processed_message_ids := processed_message_ids self; bid_task_ids := bid_task_ids self;
     is_alive := is_alive self; is_crashed := is_crashed self; auto_recover_enabled :=
     auto_recover_enabled self; auto_recover_delay := auto_recover_delay self; crash_time := v;
     last_heartbeat := last_heartbeat self; heartbeat_interval := heartbeat_interval self;
     stream_interval := stream_interval self; total_cpu_time := total_cpu_time self;
     total_memory_used := total_memory_used self |}.

Definition set_last_heartbeat (v : Q) (self : t) : t :=
  {| agent_id := agent_id self; current_load := current_load self; max_load := max_load self;
     assigned_tasks := assigned_tasks self; completed_tasks := completed_tasks self;
     running_tasks := running_tasks self; allocated_task_ids := allocated_task_ids self;
     processed_message_ids := processed_message_ids self; bid_task_ids := bid_task_ids self;
     is_alive := is_alive self; is_crashed := is_crashed self; auto_recover_enabled :=
     auto_recover_enabled self; auto_recover_delay := auto_recover_delay self; crash_time :=
     crash_time self; last_heartbeat := v; heartbeat_interval := heartbeat_interval self;
     stream_interval := stream_interval self; total_cpu_time := total_cpu_time self;
     total_memory_used := total_memory_used self |}.

Definition set_total_cpu_time (v : Q) (self : t) : t :=
  {| agent_id := agent_id self; current_load := current_load self; max_load := max_load self;
     assigned_tasks := assigned_tasks self; completed_tasks := completed_tasks self;
     running_tasks := running_tasks self; allocated_task_ids := allocated_task_ids self;
     processed_message_ids := processed_message_ids self; bid_task_ids := bid_task_ids self;
     is_alive := is_alive self; is_crashed := is_crashed self; auto_recover_enabled :=
     auto_recover_enabled self; auto_recover_delay := auto_recover_delay self; crash_time :=
     crash_time self; last_heartbeat := last_heartbeat self; heartbeat_interval :=
     heartbeat_interval self; stream_interval := stream_interval self; total_cpu_time := v;
     total_memory_used := total_memory_used self |}.

(** The state built by [__init__]. *)
Definition init (o : Oracle) (agent_id : string) : t :=
  {| agent_id := agent_id;
     current_load := 0;
     max_load := 5;
     assigned_tasks := [];
     completed_tasks := [];
     running_tasks := ∅;
     allocated_task_ids := ∅;
     processed_message_ids := ∅;
     bid_task_ids := ∅;
     is_alive := true;
     is_crashed := false;
     auto_recover_enabled := true;
     auto_recover_delay := 10;
     crash_time := None;
     last_heartbeat := time_time o;
     heartbeat_interval := 2;
     stream_interval := 1;
     total_cpu_time := 0;
     total_memory_used := 0 |}.

(** [self.broker.publish(channel, message)] *)
Definition broker_publish (channel : string) (message : MessageData.t) (reliable : bool)
    : M t Effect unit :=
  emit (Publish channel message reliable).

(** [emit_event]: the k-th identifier of the operation names the message. *)
Definition emit_event (o : Oracle) (k : nat) (event_type : string) (payload : EventData)
    : M t Effect unit :=
  self ← get;
  let message :=
    Message_to_dict (time_time o) (uuid4 o k) AGENT_EVENT (agent_id self)
      {| Payload.task := None; Payload.agent_id := None; Payload.winning_bid := None;
         Payload.bid := None; Payload.heartbeat := None;
         Payload.event_type := Some event_type; Payload.data := Some payload |}
      false in
  broker_publish "agent_events" message false.

Definition send_ack (o : Oracle) (msg_id : option string) : M t Effect unit :=
  self ← get;
  let ack_message :=
    {| MessageData.msg_id := None;
       MessageData.msg_type := "acknowledgment";
       MessageData.sender_id := agent_id self;
       MessageData.payload := Payload.empty;
       MessageData.timestamp := time_time o;
       MessageData.requires_ack := false;
       MessageData.ack_for := msg_id |} in
  broker_publish "acks" ack_message false.

Definition send_bid (o : Oracle) (task : Task.t) : M t Effect unit :=
  self ← get;
  let base_bid := current_load self * 10 in
  let random_factor := random_uniform o 0 5 in
  let bid_value := (inject_Z base_bid + random_factor)%Q in
  let bid :=
    {| Bid.agent_id := agent_id self;
       Bid.task_id := Task.task_id task;
       Bid.bid_value := bid_value;
       Bid.current_load := current_load self;
       Bid.estimated_completion_time := Task.estimated_time task |} in
  let message :=
    Message_to_dict (time_time o) (uuid4 o 0) BID (agent_id self)
      {| Payload.task := None; Payload.agent_id := None; Payload.winning_bid := None;
         Payload.bid := Some bid; Payload.heartbeat := None;
         Payload.event_type := None; Payload.data := None |}
      false in
  broker_publish "bids" message false.

(** [self.send_ack(message_data['msg_id'])] under
    [if message_data.get('requires_ack')]: the subscript fails when the key
    is absent. *)
Definition ack_if_required (o : Oracle) (message_data : MessageData.t) : M t Effect unit :=
  when (MessageData.requires_ack message_data)
    (msg_id ← subscript "msg_id" (MessageData.msg_id message_data);
     send_ack o (Some msg_id)).

Definition handle_task_broadcast (o : Oracle) (message_data : MessageData.t)
    : M t Effect unit :=
  if negb (String.eqb (MessageData.msg_type message_data) (value TASK_BROADCAST))
  then mret tt else
  let msg_id := MessageData.msg_id message_data in
  self ← get;
  if truthy msg_id && in_ids msg_id (processed_message_ids self) then mret tt else
  when (truthy msg_id)
    (modify (fun self => set_processed_message_ids
                           (add_id msg_id (processed_message_ids self)) self));;
  self ← get;
  if is_crashed self then ack_if_required o message_data else
  task ← subscript "task" (Payload.task (MessageData.payload message_data));
  let task_id := Task.task_id task in
  self ← get;
  if bool_decide (task_id ∈ bid_task_ids self)
     || bool_decide (task_id ∈ allocated_task_ids self)
  then ack_if_required o message_data else
  modify (fun self => set_bid_task_ids ({[ task_id ]} ∪ bid_task_ids self) self);;
  ack_if_required o message_data;;
  self ← get;
  if (current_load self <? max_load self)%Z then send_bid o task else mret tt.

Definition handle_task_allocation (o : Oracle) (message_data : MessageData.t)
    : M t Effect unit :=
  if negb (String.eqb (MessageData.msg_type message_data) (value TASK_ALLOCATION))
  then mret tt else
  allocated_agent ← subscript "agent_id" (Payload.agent_id (MessageData.payload message_data));
  self ← get;
  if negb (String.eqb allocated_agent (agent_id self)) then mret tt else
  let msg_id := MessageData.msg_id message_data in
  if truthy msg_id && in_ids msg_id (processed_message_ids self) then mret tt else
  task ← subscript "task" (Payload.task (MessageData.payload message_data));
  let task_id := Task.task_id task in
  if bool_decide (task_id ∈ allocated_task_ids self)
  then when (MessageData.requires_ack message_data) (send_ack o msg_id) else
  when (truthy msg_id)
    (modify (fun self => set_processed_message_ids
                           (add_id msg_id (processed_message_ids self)) self));;
  modify (fun self => set_allocated_task_ids ({[ task_id ]} ∪ allocated_task_ids self) self);;
  modify (fun self => set_assigned_tasks (assigned_tasks self ++ [task]) self);;
  modify (fun self => set_current_load (current_load self + 1) self);;
  self ← get;
  if is_crashed self then
    modify (fun self => set_allocated_task_ids (allocated_task_ids self ∖ {[ task_id ]}) self);;
    modify (fun self => set_current_load (current_load self - 1) self);;
    when (MessageData.requires_ack message_data) (send_ack o msg_id)
  else
  when (MessageData.requires_ack message_data) (send_ack o msg_id);;
  emit (ThreadStart (execute_task_thread task)).

(** *** execute_task

    [execute_task] runs in a thread of its own and touches the agent when
    it registers the task, at the check that opens each 100 ms slice, and
    after the last slice, where it first reads [is_crashed], without the
    lock, then completes the task under the lock, and at last runs its
    [finally] clause under the lock again.  These are the steps below; the
    values the thread keeps in local variables ([start_time], [elapsed])
    are their arguments.  Other threads can run between two steps.  The
    [except] clause is not modelled: nothing in the [try] body of the model
    raises. *)

(** The [finally] clause. *)
Definition execute_task_finally (task : Task.t) : M t Effect unit :=
  modify (fun self => set_running_tasks (delete (Task.task_id task) (running_tasks self)) self);;
  self ← get;
  when (negb (is_crashed self))
    (modify (fun self => set_allocated_task_ids
                           (allocated_task_ids self ∖ {[ Task.task_id task ]}) self)).

(** The cancellation branch, shared by the slice check and the final check. *)
Definition execute_task_cancel (o : Oracle) (task : Task.t) (elapsed : option Q)
    : M t Effect unit :=
  let task_id := Task.task_id task in
  modify (fun self => set_current_load (current_load self - 1) self);;
  modify (fun self => set_running_tasks (delete task_id (running_tasks self)) self);;
  modify (fun self => set_allocated_task_ids (allocated_task_ids self ∖ {[ task_id ]}) self);;
  modify (fun self => set_bid_task_ids (bid_task_ids self ∖ {[ task_id ]}) self);;
  emit_event o 0 "task_cancelled" (data_task_cancelled task_id elapsed);;
  execute_task_finally task.

Definition execute_task_begin (o : Oracle) (task : Task.t) : M t Effect unit :=
  modify (fun self =>
    set_running_tasks
      (<[ Task.task_id task := {| start_time := time_time o; stop_flag := false |} ]>
         (running_tasks self)) self).

(** The event of the task, read through its [running_tasks] entry. *)
Definition stop_flag_is_set (task : Task.t) (self : t) : bool :=
  match running_tasks self !! Task.task_id task with
  | Some r => stop_flag r
  | None => false
  end.

(** One turn of the [while] loop; answers whether the task was cancelled. *)
Definition execute_task_slice (o : Oracle) (task : Task.t) (elapsed : Q) : M t Effect bool :=
  self ← get;
  if stop_flag_is_set task self || is_crashed self
  then execute_task_cancel o task (Some elapsed);; mret true
  else mret false.

(** The check after the loop, [if self.is_crashed:]; answers whether the
    task was cancelled. *)
Definition execute_task_final_check (o : Oracle) (task : Task.t) : M t Effect bool :=
  self ← get;
  if is_crashed self then execute_task_cancel o task None;; mret true else mret false.

(** The completion that follows a check that found the agent running; it
    does not read [is_crashed] again. *)
Definition execute_task_complete (o : Oracle) (task : Task.t) (start_time : Q)
    : M t Effect unit :=
  modify (fun self => set_current_load (current_load self - 1) self);;
  modify (fun self => set_completed_tasks (completed_tasks self ++ [task]) self);;
  let execution_time := (time_time o - start_time)%Q in
  modify (fun self => set_total_cpu_time (total_cpu_time self + execution_time)%Q self);;
  emit_event o 0 "task_completed" (data_task_completed (Task.task_id task) execution_time).

(** After the loop, when no other thread runs between the check, the
    completion and the [finally] clause. *)
Definition execute_task_end (o : Oracle) (task : Task.t) (start_time : Q) : M t Effect unit :=
  cancelled ← execute_task_final_check o task;
  when (negb cancelled)
    (execute_task_complete o task start_time;;
     execute_task_finally task).

(** *** Heartbeats, crash and recovery *)

Definition send_heartbeat (o : Oracle) (k : nat) : M t Effect unit :=
  self ← get;
  let status :=
    if (current_load self =? 0)%Z then "idle"
    else if (current_load self <? max_load self)%Z then "busy"
    else "overloaded" in
  let heartbeat :=
    {| Heartbeat.agent_id := agent_id self;
       Heartbeat.timestamp := time_time o;
       Heartbeat.status := status;
       Heartbeat.current_load := current_load self;
       Heartbeat.max_load := max_load self |} in
  let message :=
    Message_to_dict (time_time o) (uuid4 o k) HEARTBEAT (agent_id self)
      {| Payload.task := None; Payload.agent_id := None; Payload.winning_bid := None;
         Payload.bid := None; Payload.heartbeat := Some heartbeat;
         Payload.event_type := None; Payload.data := None |}
      false in
  broker_publish "heartbeats" message false;;
  modify (set_last_heartbeat (time_time o)).

Definition handle_heartbeat_request (o : Oracle) (message_data : MessageData.t)
    : M t Effect unit :=
  when (String.eqb (MessageData.msg_type message_data) "heartbeat_request")
    (send_heartbeat o 0).

(** [crash]: the keys of [running_tasks] are listed in the order of the map. *)
Definition crash (o : Oracle) (auto_recover_after : option Q) : M t Effect unit :=
  modify (set_is_crashed true);;
  modify (set_crash_time (Some (time_time o)));;
  self ← get;
  let running_tasks_copy := (map_to_list (running_tasks self)).*1 in
  modify (fun self =>
    set_running_tasks
      ((fun task_info => {| start_time := start_time task_info; stop_flag := true |})
         <$> running_tasks self) self);;
  match auto_recover_after with
  | Some delay =>
      if Qeq_bool delay 0
      then modify (set_auto_recover_enabled false)
      else modify (set_auto_recover_delay delay)
  | None => mret tt
  end;;
  self ← get;
  emit_event o 0 "agent_crashed" (data_agent_crashed (crash_time self) running_tasks_copy).

Definition recover (o : Oracle) : M t Effect bool :=
  self ← get;
  if is_crashed self then
    modify (set_is_crashed false);;
    modify (set_crash_time None);;
    modify (set_last_heartbeat (time_time o));;
    modify (set_bid_task_ids ∅);;
    emit_event o 0 "agent_recovered" (data_agent_recovered (time_time o));;
    send_heartbeat o 1;;
    mret true
  else mret false.

(** One turn of [_heartbeat_loop]; [self.crash_time] is falsy when it is
    [None] or zero. *)
Definition heartbeat_loop_iteration (o : Oracle) : M t Effect unit :=
  self ← get;
  match crash_time self with
  | Some since =>
      when (is_crashed self && auto_recover_enabled self && negb (Qeq_bool since 0)
            && Qle_bool (auto_recover_delay self) (time_time o - since))
        (recover o;; mret tt)
  | None => mret tt
  end;;
  self ← get;
  when (negb (is_crashed self)) (send_heartbeat o 2).

Definition stop : M t Effect unit :=
  modify (set_is_alive false);;
  modify (set_is_crashed false).

(** *** Runs of an agent *)

(** The operations that change an agent, with the readings of the outside
    world each one makes.  The end of [execute_task] is there as a whole
    and step by step, for the runs in which another operation falls between
    its steps. *)
Inductive Op :=
| op_handle_task_broadcast (o : Oracle) (message_data : MessageData.t)
| op_handle_task_allocation (o : Oracle) (message_data : MessageData.t)
| op_handle_heartbeat_request (o : Oracle) (message_data : MessageData.t)
| op_execute_task_begin (o : Oracle) (task : Task.t)
| op_execute_task_slice (o : Oracle) (task : Task.t) (elapsed : Q)
| op_execute_task_end (o : Oracle) (task : Task.t) (start_time : Q)
| op_execute_task_final_check (o : Oracle) (task : Task.t)
| op_execute_task_complete (o : Oracle) (task : Task.t) (start_time : Q)
| op_execute_task_finally (task : Task.t)
| op_heartbeat_loop_iteration (o : Oracle)
| op_crash (o : Oracle) (auto_recover_after : option Q)
| op_recover (o : Oracle)
| op_stop.

Definition discard {A} (m : M t Effect A) : M t Effect unit := m;; mret tt.

Definition perform (op : Op) : M t Effect unit :=
  match op with
  | op_handle_task_broadcast o message_data => handle_task_broadcast o message_data
  | op_handle_task_allocation o message_data => handle_task_allocation o message_data
  | op_handle_heartbeat_request o message_data => handle_heartbeat_request o message_data
  | op_execute_task_begin o task => execute_task_begin o task
  | op_execute_task_slice o task elapsed => discard (execute_task_slice o task elapsed)
  | op_execute_task_end o task start_time => execute_task_end o task start_time
  | op_execute_task_final_check o task => discard (execute_task_final_check o task)
  | op_execute_task_complete o task start_time => execute_task_complete o task start_time
  | op_execute_task_finally task => execute_task_finally task
  | op_heartbeat_loop_iteration o => heartbeat_loop_iteration o
  | op_crash o auto_recover_after => crash o auto_recover_after
  | op_recover o => discard (recover o)
  | op_stop => stop
  end.

(** The agent after a sequence of operations; an operation that raises
    keeps the changes it made before raising. *)
Definition run (ops : list Op) (self : t) : t :=
  fold_left (fun self op => state_of (perform op self)) ops self.

(** What the agent published and started during a run. *)
Fixpoint run_effects (ops : list Op) (self : t) : list Effect :=
  match ops with
  | [] => []
  | op :: ops' => events_of (perform op self) ++ run_effects ops' (state_of (perform op self))
  end.

(** The states an agent named [agent_id] can be in. *)
Definition reachable (self : t) : Prop :=
  exists o agent_id ops, self = run ops (init o agent_id).

End Agent.

(** ** coordinator.py *)

(** [sorted(bids, key=lambda x: x['bid_value'])]: Python's sort is stable,
    and a stable sort has one possible result, the one computed here by
    insertion from the right. *)
Fixpoint insert_by_bid_value (b : Bid.t) (l : list Bid.t) : list Bid.t :=
  match l with
  | [] => [b]
  | c :: l' =>
      if Qle_bool (Bid.bid_value b) (Bid.bid_value c)
      then b :: c :: l'
      else c :: insert_by_bid_value b l'
  end.

Fixpoint sorted_by_bid_value (l : list Bid.t) : list Bid.t :=
  match l with
  | [] => []
  | b :: l' => insert_by_bid_value b (sorted_by_bid_value l')
  end.

Module Coordinator.

(** An entry of [pending_tasks]. *)
Record PendingTask := {
  task : Task.t;
  bids : list Bid.t;
  broadcast_at : Q
}.

(** An entry of [allocated_tasks]. *)
Record Allocation := {
  alloc_task : Task.t;
  agent : string;
  bid_value : Q;
  allocated_at : Q
}.

(** An entry of [agent_streams]. *)
Record StreamSample := {
  stream_running_tasks : list string;
  stream_timestamp : Q;
  stream_type : string
}.

(** The entries of [activity_log] written by the operations modelled here;
    the constructor is the entry's ['type']. *)
Inductive Activity :=
| task_broadcast (task_id : string) (priority : Z) (description : string) (timestamp : Q)
| bid (agent_id task_id : string) (bid_value : Q) (timestamp : Q)
| allocation (task_id agent_id : string) (bid_value : Q) (total_bids : nat) (timestamp : Q)
| agent_recovery (agent_id : string) (timestamp : Q)
| agent_event (event_type : option string) (agent_id : string) (timestamp : Q)
    (data : option EventData).

(** The fields of a [Coordinator] object (without the broker handle, the
    mutex of the activity log and the monitor thread). *)
Record t := mk {
  tasks : list Task.t;
  pending_tasks : gmap string PendingTask;
  allocated_tasks : list Allocation;
  agent_tasks : gmap string (list string);
  agent_heartbeats : gmap string Q;
  agent_streams : gmap string StreamSample;
  failed_agents : gset string;
  heartbeat_timeout : Q;
  monitoring_active : bool;
  activity_log : list Activity;
  max_activity_log : nat;
  processed_events : gset string;
  task_bids : gmap string (list Bid.t);
  completed_task_ids : gset string;
  cancelled_task_ids : gset string
}.

Definition set_processed_events (v : gset string) (self : t) : t :=
  {| tasks := tasks self; pending_tasks := pending_tasks self; allocated_tasks :=
     allocated_tasks self; agent_tasks := agent_tasks self; agent_heartbeats := agent_heartbeats
     self; agent_streams := agent_streams self; failed_agents := failed_agents self;
     heartbeat_timeout := heartbeat_timeout self; monitoring_active := monitoring_active self;
     activity_log := activity_log self; max_activity_log := max_activity_log self;
     processed_events := v; task_bids := task_bids self; completed_task_ids :=
     completed_task_ids self; cancelled_task_ids := cancelled_task_ids self |}.

Definition set_completed_task_ids (v : gset string) (self : t) : t :=
  {| tasks := tasks self; pending_tasks := pending_tasks self; allocated_tasks :=
     allocated_tasks self; agent_tasks := agent_tasks self; agent_heartbeats := agent_heartbeats
     self; agent_streams := agent_streams self; failed_agents := failed_agents self;
     heartbeat_timeout := heartbeat_timeout self; monitoring_active := monitoring_active self;
     activity_log := activity_log self; max_activity_log := max_activity_log self;
     processed_events := processed_events self; task_bids := task_bids self; completed_task_ids
     := v; cancelled_task_ids := cancelled_task_ids self |}.

Definition set_cancelled_task_ids (v : gset string) (self : t) : t :=
  {| tasks := tasks self; pending_tasks := pending_tasks self; allocated_tasks :=
     allocated_tasks self; agent_tasks := agent_tasks self; agent_heartbeats := agent_heartbeats
     self; agent_streams := agent_streams self; failed_agents := failed_agents self;
     heartbeat_timeout := heartbeat_timeout self; monitoring_active := monitoring_active self;
     activity_log := activity_log self; max_activity_log := max_activity_log self;
     processed_events := processed_events self; task_bids := task_bids self; completed_task_ids
     := completed_task_ids self; cancelled_task_ids := v |}.

Definition set_tasks (v : list Task.t) (self : t) : t :=
  {| tasks := v; pending_tasks := pending_tasks self; allocated_tasks := allocated_tasks self;
     agent_tasks := agent_tasks self; agent_heartbeats := agent_heartbeats self; agent_streams
     := agent_streams self; failed_agents := failed_agents self; heartbeat_timeout :=
     heartbeat_timeout self; monitoring_active := monitoring_active self; activity_log :=
     activity_log self; max_activity_log := max_activity_log self; processed_events :=
     processed_events self; task_bids := task_bids self; completed_task_ids :=
     completed_task_ids self; cancelled_task_ids := cancelled_task_ids self |}.

Definition set_pending_tasks (v : gmap string PendingTask) (self : t) : t :=
  {| tasks := tasks self; pending_tasks := v; allocated_tasks := allocated_tasks self;
     agent_tasks := agent_tasks self; agent_heartbeats := agent_heartbeats self; agent_streams
     := agent_streams self; failed_agents := failed_agents self; heartbeat_timeout :=
     heartbeat_timeout self; monitoring_active := monitoring_active self; activity_log :=
     activity_log self; max_activity_log := max_activity_log self; processed_events :=
     processed_events self; task_bids := task_bids self; completed_task_ids :=
     completed_task_ids self; cancelled_task_ids := cancelled_task_ids self |}.

Definition set_allocated_tasks (v : list Allocation) (self : t) : t :=
  {| tasks := tasks self; pending_tasks := pending_tasks self; allocated_tasks := v; agent_tasks
     := agent_tasks self; agent_heartbeats := agent_heartbeats self; agent_streams :=
     agent_streams self; failed_agents := failed_agents self; heartbeat_timeout :=
     heartbeat_timeout self; monitoring_active := monitoring_active self; activity_log :=
     activity_log self; max_activity_log := max_activity_log self; processed_events :=
     processed_events self; task_bids := task_bids self; completed_task_ids :=
     completed_task_ids self; cancelled_task_ids := cancelled_task_ids self |}.

Definition set_agent_tasks (v : gmap string (list string)) (self : t) : t :=
  {| tasks := tasks self; pending_tasks := pending_tasks self; allocated_tasks :=
     allocated_tasks self; agent_tasks := v; agent_heartbeats := agent_heartbeats self;
     agent_streams := agent_streams self; failed_agents := failed_agents self; heartbeat_timeout
     := heartbeat_timeout self; monitoring_active := monitoring_active self; activity_log :=
     activity_log self; max_activity_log := max_activity_log self; processed_events :=
     processed_events self; task_bids := task_bids self; completed_task_ids :=
     completed_task_ids self; cancelled_task_ids := cancelled_task_ids self |}.

Definition set_activity_log (v : list Activity) (self : t) : t :=
  {| tasks := tasks self; pending_tasks := pending_tasks self; allocated_tasks :=
     allocated_tasks self; agent_tasks := agent_tasks self; agent_heartbeats := agent_heartbeats
     self; agent_streams := agent_streams self; failed_agents := failed_agents self;
     heartbeat_timeout := heartbeat_timeout self; monitoring_active := monitoring_active self;
     activity_log := v; max_activity_log := max_activity_log self; processed_events :=
     processed_events self; task_bids := task_bids self; completed_task_ids :=
     completed_task_ids self; cancelled_task_ids := cancelled_task_ids self |}.

Definition set_task_bids (v : gmap string (list Bid.t)) (self : t) : t :=
  {| tasks := tasks self; pending_tasks := pending_tasks self; allocated_tasks :=
     allocated_tasks self; agent_tasks := agent_tasks self; agent_heartbeats := agent_heartbeats
     self; agent_streams := agent_streams self; failed_agents := failed_agents self;
     heartbeat_timeout := heartbeat_timeout self; monitoring_active := monitoring_active self;
     activity_log := activity_log self; max_activity_log := max_activity_log self;
     processed_events := processed_events self; task_bids := v; completed_task_ids :=
     completed_task_ids self; cancelled_task_ids := cancelled_task_ids self |}.

Definition set_agent_heartbeats (v : gmap string Q) (self : t) : t :=
  {| tasks := tasks self; pending_tasks := pending_tasks self; allocated_tasks :=
     allocated_tasks self; agent_tasks := agent_tasks self; agent_heartbeats := v;
     agent_streams := agent_streams self; failed_agents := failed_agents self;
     heartbeat_timeout := heartbeat_timeout self; monitoring_active := monitoring_active self;
     activity_log := activity_log self; max_activity_log := max_activity_log self;
     processed_events := processed_events self; task_bids := task_bids self;
     completed_task_ids := completed_task_ids self; cancelled_task_ids :=
     cancelled_task_ids self |}.

Definition set_failed_agents (v : gset string) (self : t) : t :=
  {| tasks := tasks self; pending_tasks := pending_tasks self; allocated_tasks :=
     allocated_tasks self; agent_tasks := agent_tasks self; agent_heartbeats :=
     agent_heartbeats self; agent_streams := agent_streams self; failed_agents := v;
     heartbeat_timeout := heartbeat_timeout self; monitoring_active := monitoring_active self;
     activity_log := activity_log self; max_activity_log := max_activity_log self;
     processed_events := processed_events self; task_bids := task_bids self;
     completed_task_ids := completed_task_ids self; cancelled_task_ids :=
     cancelled_task_ids self |}.

(** The state built by [__init__]. *)
Definition init : t :=
  {| tasks := [];
     pending_tasks := ∅;
     allocated_tasks := [];
     agent_tasks := ∅;
     agent_heartbeats := ∅;
     agent_streams := ∅;
     failed_agents := ∅;
     heartbeat_timeout := 6;
     monitoring_active := true;
     activity_log := [];
     max_activity_log := 100;
     processed_events := ∅;
     task_bids := ∅;
     completed_task_ids := ∅;
     cancelled_task_ids := ∅ |}.

(** [_log_activity]: append, and drop the oldest entry above the bound. *)
Definition _log_activity (activity : Activity) : M t Effect unit :=
  modify (fun self => set_activity_log (activity_log self ++ [activity]) self);;
  self ← get;
  when (max_activity_log self <? length (activity_log self))%nat
    (modify (fun self => set_activity_log (tail (activity_log self)) self)).

Definition broadcast_task (o : Oracle) (new_task : Task.t) (reliable : bool)
    : M t Effect unit :=
  let message :=
    Message_to_dict (time_time o) (uuid4 o 0) TASK_BROADCAST "coordinator"
      {| Payload.task := Some new_task; Payload.agent_id := None;
         Payload.winning_bid := None; Payload.bid := None; Payload.heartbeat := None;
         Payload.event_type := None; Payload.data := None |}
      reliable in
  modify (fun self => set_tasks (tasks self ++ [new_task]) self);;
  modify (fun self =>
    set_pending_tasks
      (<[ Task.task_id new_task :=
            {| task := new_task; bids := []; broadcast_at := time_time o |} ]>
         (pending_tasks self)) self);;
  emit (Publish "tasks" message reliable);;
  _log_activity (task_broadcast (Task.task_id new_task) (Task.priority new_task)
                   (Task.description new_task) (time_time o));;
  emit (ThreadStart (allocate_after_delay_thread (Task.task_id new_task))).

Definition handle_bid (o : Oracle) (message_data : MessageData.t) : M t Effect unit :=
  if negb (String.eqb (MessageData.msg_type message_data) (value BID)) then mret tt else
  bid_data ← subscript "bid" (Payload.bid (MessageData.payload message_data));
  let agent_id := Bid.agent_id bid_data in
  let task_id := Bid.task_id bid_data in
  self ← get;
  match pending_tasks self !! task_id with
  | Some task_info =>
      let existing_bids :=
        filter (fun b => Bid.agent_id b = agent_id) (bids task_info) in
      if negb (bool_decide (existing_bids = [])) then mret tt else
      modify (fun self =>
        set_pending_tasks
          (<[ task_id := {| task := task task_info;
                            bids := bids task_info ++ [bid_data];
                            broadcast_at := broadcast_at task_info |} ]>
             (pending_tasks self)) self);;
      _log_activity (bid agent_id task_id (Bid.bid_value bid_data) (time_time o))
  | None => mret tt
  end.

Definition _send_allocation (o : Oracle) (for_task : Task.t) (agent_id : string)
    (winning_bid : Bid.t) (total_bids : nat) : M t Effect unit :=
  let message :=
    Message_to_dict (time_time o) (uuid4 o 0) TASK_ALLOCATION "coordinator"
      {| Payload.task := Some for_task; Payload.agent_id := Some agent_id;
         Payload.winning_bid := Some winning_bid; Payload.bid := None;
         Payload.heartbeat := None; Payload.event_type := None; Payload.data := None |}
      true in
  emit (Publish "allocations" message true);;
  modify (fun self =>
    set_allocated_tasks
      (allocated_tasks self ++
         [{| alloc_task := for_task; agent := agent_id;
             bid_value := Bid.bid_value winning_bid; allocated_at := time_time o |}]) self);;
  modify (fun self =>
    set_agent_tasks
      (<[ agent_id := default [] (agent_tasks self !! agent_id) ++ [Task.task_id for_task] ]>
         (agent_tasks self)) self);;
  _log_activity (allocation (Task.task_id for_task) agent_id (Bid.bid_value winning_bid)
                   total_bids (time_time o)).

(** The bids whose bidder is not in [failed_agents]. *)
Definition valid_bids_of (self : t) (all_bids : list Bid.t) : list Bid.t :=
  filter (fun b => Bid.agent_id b ∉ failed_agents self) all_bids.

Definition allocate_task (o : Oracle) (task_id : string) : M t Effect unit :=
  self ← get;
  match pending_tasks self !! task_id with
  | None => mret tt
  | Some task_info =>
      if bool_decide (task_id ∈ completed_task_ids self) then
        modify (fun self => set_pending_tasks (delete task_id (pending_tasks self)) self)
      else if bool_decide (task_id ∈ cancelled_task_ids self) then
        modify (fun self => set_pending_tasks (delete task_id (pending_tasks self)) self)
      else
      let all_bids := bids task_info in
      let valid_bids := valid_bids_of self all_bids in
      if bool_decide (valid_bids = []) then
        (if negb (bool_decide (all_bids = [])) then mret tt else mret tt)
      else
      let sorted_bids := sorted_by_bid_value valid_bids in
      modify (fun self => set_task_bids (<[ task_id := sorted_bids ]> (task_bids self)) self);;
      winning_bid ← index "sorted_bids" sorted_bids 0;
      let winner_id := Bid.agent_id winning_bid in
      _send_allocation o (task task_info) winner_id winning_bid (length all_bids);;
      modify (fun self => set_pending_tasks (delete task_id (pending_tasks self)) self)
  end.

Definition handle_heartbeat (o : Oracle) (message_data : MessageData.t) : M t Effect unit :=
  if negb (String.eqb (MessageData.msg_type message_data) (value HEARTBEAT)) then mret tt else
  match Payload.heartbeat (MessageData.payload message_data) with
  | None => mret tt
  | Some heartbeat_data =>
      let agent_id := Heartbeat.agent_id heartbeat_data in
      when (truthy (Some agent_id))
        (modify (fun self =>
           set_agent_heartbeats (<[ agent_id := time_time o ]> (agent_heartbeats self)) self);;
         self ← get;
         when (bool_decide (agent_id ∈ failed_agents self))
           (modify (fun self => set_failed_agents (failed_agents self ∖ {[ agent_id ]}) self);;
            _log_activity (agent_recovery agent_id (time_time o))))
  end.

(** [data.get('task_id')] *)
Definition data_task_id (data : option EventData) : option string :=
  match data with
  | Some (data_task_cancelled task_id _) => Some task_id
  | Some (data_task_completed task_id _) => Some task_id
  | Some (data_task_failed task_id _) => Some task_id
  | _ => None
  end.

(** The key that deduplicates agent events:
    [f"{agent_id}_{event_type}_{data.get('task_id', '')}_{int(timestamp * 1000)}"]. *)
Definition event_id (agent_id : string) (event_type : option string)
    (data : option EventData) (timestamp : Q) : string :=
  agent_id +:+ "_" +:+ default "None" event_type +:+ "_"
  +:+ default "" (data_task_id data) +:+ "_" +:+ pretty (int_of_float (timestamp * 1000)).

(** [handle_agent_event]; the [try] around its body only logs, and nothing
    in the body of the model raises. *)
Definition handle_agent_event (o : Oracle) (message_data : MessageData.t) : M t Effect unit :=
  let payload := MessageData.payload message_data in
  let event_type := Payload.event_type payload in
  let data := Payload.data payload in
  let agent_id := MessageData.sender_id message_data in
  let timestamp := time_time o in
  (if bool_decide (event_type = Some "task_completed") then
     let task_id := data_task_id data in
     when (truthy task_id)
       (modify (fun self =>
          set_completed_task_ids (add_id task_id (completed_task_ids self)) self);;
        modify (fun self =>
          set_task_bids (delete (default "" task_id) (task_bids self)) self))
   else if bool_decide (event_type = Some "task_cancelled") then
     let task_id := data_task_id data in
     when (truthy task_id)
       (modify (fun self =>
          set_cancelled_task_ids (add_id task_id (cancelled_task_ids self)) self))
   else mret tt);;
  let event_id := event_id agent_id event_type data timestamp in
  self ← get;
  if bool_decide (event_id ∈ processed_events self) then mret tt else
  modify (fun self => set_processed_events ({[ event_id ]} ∪ processed_events self) self);;
  self ← get;
  when (1000 <? size (processed_events self))%nat
    (modify (set_processed_events ∅));;
  let activity := agent_event event_type agent_id timestamp data in
  when (negb (bool_decide (event_type = Some "task_received")
              || bool_decide (event_type = Some "bid_skipped")))
    (_log_activity activity).

(** [_find_task]: the first task of [tasks] with that id. *)
Definition _find_task (task_id : string) (self : t) : option Task.t :=
  List.find (fun known => String.eqb (Task.task_id known) task_id) (tasks self).

(** [l[start:]], Python's slice with a start that may be negative. *)
Definition slice_from {A} (start : Z) (l : list A) : list A :=
  if (start <? 0)%Z
  then drop (Z.to_nat (Z.max (Z.of_nat (length l) + start) 0)) l
  else drop (Z.to_nat start) l.

(** [get_recent_activity]: [self.activity_log[-limit:] if self.activity_log else []]. *)
Definition get_recent_activity (limit : Z) (self : t) : list Activity :=
  if bool_decide (activity_log self = []) then [] else slice_from (- limit) (activity_log self).

(** *** Runs of a coordinator *)

(** The operations modelled above, with the readings of the outside world
    each one makes. *)
Inductive Op :=
| op_broadcast_task (o : Oracle) (new_task : Task.t) (reliable : bool)
| op_handle_bid (o : Oracle) (message_data : MessageData.t)
| op_allocate_task (o : Oracle) (task_id : string)
| op_handle_heartbeat (o : Oracle) (message_data : MessageData.t)
| op_handle_agent_event (o : Oracle) (message_data : MessageData.t).

Definition perform (op : Op) : M t Effect unit :=
  match op with
  | op_broadcast_task o new_task reliable => broadcast_task o new_task reliable
  | op_handle_bid o message_data => handle_bid o message_data
  | op_allocate_task o task_id => allocate_task o task_id
  | op_handle_heartbeat o message_data => handle_heartbeat o message_data
  | op_handle_agent_event o message_data => handle_agent_event o message_data
  end.

(** The coordinator after a sequence of operations. *)
Definition run (ops : list Op) (self : t) : t :=
  fold_left (fun self op => state_of (perform op self)) ops self.

End Coordinator.

(** ** communication/broker.py *)

(** [msg_id[:8]], which fails on [None]. *)
Definition slice8 {St Ev} (msg_id : option string) : M St Ev string :=
  match msg_id with
  | Some m => mret (substring 0 8 m)
  | None => raise (TypeError "'NoneType' object is not subscriptable")
  end.

(** [for x in l: body] *)
Fixpoint for_each {St Ev A} (l : list A) (body : A -> M St Ev unit) : M St Ev unit :=
  match l with
  | [] => mret tt
  | x :: l' => body x;; for_each l' body
  end.

Module InMemoryBroker.

(** An entry of a channel queue.  [data] is the message itself:
    [json.dumps] on the way in and [json.loads] on the way out cancel. *)
Record QueueItem := {
  item_type : string;
  item_channel : string;
  data : MessageData.t
}.

(** An entry of [pending_acks]. *)
Record PendingAck := {
  channel : string;
  message : MessageData.t;
  sent_at : Q;
  retries : Z
}.

Inductive LogRecord :=
| sent_reliable (msg_id8 channel : string)
| subscribed (channel : string)
| added_subscriber (channel : string) (total : nat)
| received_ack (msg_id8 : string)
| timeout_retransmitting (msg_id8 : string) (retry : Z)
| error_retransmitting
| failed_after_retries (msg_id8 : string) (max_retries : Z).

Inductive Event :=
| Log (record : LogRecord)
| ThreadStart (listen_channel : string)
| Call (callback : string) (data : MessageData.t).

(** The fields of an [InMemoryBroker].  A subscriber is known by the name
    of its callback.  [lock] tells whether [self.lock], a
    [threading.Lock], is held.  The keys of [pending_acks] are what
    [message.get('msg_id')] returns, [None] included. *)
Record t := mk {
  subscribers : gmap string (list string);
  message_queues : gmap string (list QueueItem);
  pending_acks : gmap (option string) PendingAck;
  ack_timeout : Q;
  max_retries : Z;
  running : bool;
  lock : bool
}.

Definition set_subscribers (v : gmap string (list string)) (self : t) : t :=
  {| subscribers := v; message_queues := message_queues self; pending_acks := pending_acks self;
     ack_timeout := ack_timeout self; max_retries := max_retries self; running := running self;
     lock := lock self |}.

Definition set_message_queues (v : gmap string (list QueueItem)) (self : t) : t :=
  {| subscribers := subscribers self; message_queues := v; pending_acks := pending_acks self;
     ack_timeout := ack_timeout self; max_retries := max_retries self; running := running self;
     lock := lock self |}.

Definition set_pending_acks (v : gmap (option string) PendingAck) (self : t) : t :=
  {| subscribers := subscribers self; message_queues := message_queues self; pending_acks := v;
     ack_timeout := ack_timeout self; max_retries := max_retries self; running := running self;
     lock := lock self |}.

Definition set_running (v : bool) (self : t) : t :=
  {| subscribers := subscribers self; message_queues := message_queues self; pending_acks :=
     pending_acks self; ack_timeout := ack_timeout self; max_retries := max_retries self;
     running := v; lock := lock self |}.

Definition set_lock (v : bool) (self : t) : t :=
  {| subscribers := subscribers self; message_queues := message_queues self; pending_acks :=
     pending_acks self; ack_timeout := ack_timeout self; max_retries := max_retries self;
     running := running self; lock := v |}.

(** The state built by [__init__]. *)
Definition init : t :=
  {| subscribers := ∅;
     message_queues := ∅;
     pending_acks := ∅;
     ack_timeout := 5;
     max_retries := 3;
     running := false;
     lock := false |}.

(** [with self.lock: body].  A [threading.Lock] is not re-entrant: taking
    it while it is held waits until it is released, and a caller that
    holds it itself waits for ever.  Leaving the block, normally or by an
    exception, releases it. *)
Definition with_lock {A} (body : M t Event A) : M t Event A :=
  fun self =>
    if lock self then (Blocked, self, [])
    else
      match body (set_lock true self) with
      | (Blocked, self', ev) => (Blocked, self', ev)
      | (r, self', ev) => (r, set_lock false self', ev)
      end.

Definition publish (o : Oracle) (to_channel : string) (msg : MessageData.t) (reliable : bool)
    : M t Event unit :=
  self ← get;
  if negb (running self) then mret tt else
  when (reliable && MessageData.requires_ack msg)
    (let msg_id := MessageData.msg_id msg in
     with_lock
       (modify (fun self =>
          set_pending_acks
            (<[ msg_id := {| channel := to_channel; message := msg;
                             sent_at := time_time o; retries := 0 |} ]>
               (pending_acks self)) self));;
     msg_id8 ← slice8 msg_id;
     emit (Log (sent_reliable msg_id8 to_channel)));;
  modify (fun self =>
    set_message_queues
      (<[ to_channel :=
            default [] (message_queues self !! to_channel)
            ++ [{| item_type := "message"; item_channel := to_channel; data := msg |}] ]>
         (message_queues self)) self).

Definition subscribe (to_channel : string) (callback : string) : M t Event unit :=
  with_lock
    (self ← get;
     when (bool_decide (subscribers self !! to_channel = None))
       (modify (fun self =>
          set_subscribers (<[ to_channel := [] ]> (subscribers self)) self);;
        emit (Log (subscribed to_channel));;
        emit (ThreadStart to_channel));;
     modify (fun self =>
       set_subscribers
         (<[ to_channel := default [] (subscribers self !! to_channel) ++ [callback] ]>
            (subscribers self)) self);;
     self ← get;
     emit (Log (added_subscriber to_channel
                  (length (default [] (subscribers self !! to_channel)))))).

Definition handle_ack (msg_id : option string) : M t Event unit :=
  with_lock
    (self ← get;
     when (bool_decide (is_Some (pending_acks self !! msg_id)))
       (msg_id8 ← slice8 msg_id;
        emit (Log (received_ack msg_id8));;
        modify (fun self => set_pending_acks (delete msg_id (pending_acks self)) self))).

(** The body of the loop of [check_timeouts] for one entry of the snapshot
    [list(self.pending_acks.items())].  [info] is the dictionary stored in
    the table under [msg_id], so its update is an update of that entry. *)
Definition check_timeout_of (o : Oracle) (entry : option string * PendingAck)
    : M t Event unit :=
  let current_time := time_time o in
  let '(msg_id, info) := entry in
  self ← get;
  when (Qgtb (current_time - sent_at info) (ack_timeout self))
    (if (retries info <? max_retries self)%Z then
       msg_id8 ← slice8 msg_id;
       emit (Log (timeout_retransmitting msg_id8 (retries info + 1)));;
       try_except
         (publish o (channel info) (message info) true;;
          modify (fun self =>
            set_pending_acks
              (alter (fun info => {| channel := channel info; message := message info;
                                     sent_at := current_time;
                                     retries := retries info + 1 |})
                 msg_id (pending_acks self)) self))
         (emit (Log error_retransmitting))
     else
       msg_id8 ← slice8 msg_id;
       emit (Log (failed_after_retries msg_id8 (max_retries self)));;
       modify (fun self => set_pending_acks (delete msg_id (pending_acks self)) self)).

Definition check_timeouts (o : Oracle) : M t Event unit :=
  self ← get;
  if negb (running self) then mret tt else
  with_lock
    (self ← get;
     for_each (map_to_list (pending_acks self)) (check_timeout_of o)).

(** One turn of the loop of [_listen_channel]: take the next message of
    the queue, if there is one, and hand it on.  The bare [except] around
    the turn swallows every exception. *)
Definition listen_channel_iteration (of_channel : string) : M t Event unit :=
  self ← get;
  match default [] (message_queues self !! of_channel) with
  | [] => mret tt
  | item :: rest =>
      modify (fun self =>
        set_message_queues (<[ of_channel := rest ]> (message_queues self)) self);;
      try_except
        (when (String.eqb (item_type item) "message")
           (let data := data item in
            if String.eqb of_channel "acks"
               || String.eqb (MessageData.msg_type data) "acknowledgment"
            then
              when (String.eqb (MessageData.msg_type data) "acknowledgment")
                (handle_ack (MessageData.ack_for data))
            else
              callbacks ← with_lock
                (self ← get; mret (default [] (subscribers self !! of_channel)));
              for_each callbacks (fun callback => emit (Call callback data))))
        (mret tt)
  end.

Definition listen : M t Event unit :=
  modify (set_running true).

Definition stop : M t Event unit :=
  self ← get;
  if negb (running self) then mret tt else
  modify (set_running false).

End InMemoryBroker.

(** [ReliableBroker]: the broker the agents and the coordinator hold.  With
    [use_redis] it keeps its own table of pending acknowledgments and sends
    through the Redis client; without, it hands every call to the
    [InMemoryBroker] it owns. *)
Module ReliableBroker.

Inductive Event :=
| RedisPublish (channel : string) (data : MessageData.t)
| Log (record : InMemoryBroker.LogRecord)
| InMemory (event : InMemoryBroker.Event).

(** The fields of a [ReliableBroker]; those of the branch not taken keep
    their initial value. *)
Record t := mk {
  use_redis : bool;
  subscribers : gmap string (list string);
  pending_acks : gmap (option string) InMemoryBroker.PendingAck;
  ack_timeout : Q;
  max_retries : Z;
  running : bool;
  broker : InMemoryBroker.t
}.

Definition set_subscribers (v : gmap string (list string)) (self : t) : t :=
  {| use_redis := use_redis self; subscribers := v; pending_acks := pending_acks self;
     ack_timeout := ack_timeout self; max_retries := max_retries self; running := running self;
     broker := broker self |}.

Definition set_pending_acks (v : gmap (option string) InMemoryBroker.PendingAck) (self : t) : t :=
  {| use_redis := use_redis self; subscribers := subscribers self; pending_acks := v;
     ack_timeout := ack_timeout self; max_retries := max_retries self; running := running self;
     broker := broker self |}.

Definition set_running (v : bool) (self : t) : t :=
  {| use_redis := use_redis self; subscribers := subscribers self; pending_acks := pending_acks
     self; ack_timeout := ack_timeout self; max_retries := max_retries self; running := v;
     broker := broker self |}.

Definition set_broker (v : InMemoryBroker.t) (self : t) : t :=
  {| use_redis := use_redis self; subscribers := subscribers self; pending_acks := pending_acks
     self; ack_timeout := ack_timeout self; max_retries := max_retries self; running := running
     self; broker := v |}.

(** The state built by [__init__], once the backend has been chosen. *)
Definition init (use_redis : bool) : t :=
  {| use_redis := use_redis;
     subscribers := ∅;
     pending_acks := ∅;
     ack_timeout := 5;
     max_retries := 3;
     running := false;
     broker := InMemoryBroker.init |}.

(** [self.broker.method(...)] *)
Definition delegate {A} (m : M InMemoryBroker.t InMemoryBroker.Event A) : M t Event A :=
  fun self =>
    let '(r, broker', ev) := m (broker self) in
    (r, set_broker broker' self, map InMemory ev).

(** [self.redis_client.publish(channel, data)], which raises when the
    connection is down. *)
Definition redis_client_publish (redis_up : bool) (to_channel : string) (msg : MessageData.t)
    : M t Event unit :=
  if redis_up then emit (RedisPublish to_channel msg) else raise ConnectionError.

Definition publish (o : Oracle) (redis_up : bool) (to_channel : string) (msg : MessageData.t)
    (reliable : bool) : M t Event unit :=
  self ← get;
  if use_redis self then
    if negb (running self) then mret tt else
    when (reliable && MessageData.requires_ack msg)
      (let msg_id := MessageData.msg_id msg in
       modify (fun self =>
         set_pending_acks
           (<[ msg_id := {| InMemoryBroker.channel := to_channel;
                            InMemoryBroker.message := msg;
                            InMemoryBroker.sent_at := time_time o;
                            InMemoryBroker.retries := 0 |} ]>
              (pending_acks self)) self);;
       msg_id8 ← slice8 msg_id;
       emit (Log (InMemoryBroker.sent_reliable msg_id8 to_channel)));;
    try_except (redis_client_publish redis_up to_channel msg)
      (emit (Log InMemoryBroker.error_retransmitting))
  else delegate (InMemoryBroker.publish o to_channel msg reliable).

Definition handle_ack (msg_id : option string) : M t Event unit :=
  self ← get;
  if use_redis self then
    when (bool_decide (is_Some (pending_acks self !! msg_id)))
      (msg_id8 ← slice8 msg_id;
       emit (Log (InMemoryBroker.received_ack msg_id8));;
       modify (fun self => set_pending_acks (delete msg_id (pending_acks self)) self))
  else delegate (InMemoryBroker.handle_ack msg_id).

(** The body of the loop of the Redis branch of [check_timeouts]: the
    message goes straight to the Redis client, and [info], which is still
    the entry of the table, is updated in place. *)
Definition check_timeout_of (o : Oracle) (redis_up : bool)
    (entry : option string * InMemoryBroker.PendingAck) : M t Event unit :=
  let current_time := time_time o in
  let '(msg_id, info) := entry in
  self ← get;
  when (Qgtb (current_time - InMemoryBroker.sent_at info) (ack_timeout self))
    (if (InMemoryBroker.retries info <? max_retries self)%Z then
       msg_id8 ← slice8 msg_id;
       emit (Log (InMemoryBroker.timeout_retransmitting msg_id8
                    (InMemoryBroker.retries info + 1)));;
       try_except
         (redis_client_publish redis_up (InMemoryBroker.channel info)
            (InMemoryBroker.message info);;
          modify (fun self =>
            set_pending_acks
              (alter (fun info =>
                        {| InMemoryBroker.channel := InMemoryBroker.channel info;
                           InMemoryBroker.message := InMemoryBroker.message info;
                           InMemoryBroker.sent_at := current_time;
                           InMemoryBroker.retries := InMemoryBroker.retries info + 1 |})
                 msg_id (pending_acks self)) self))
         (emit (Log InMemoryBroker.error_retransmitting))
     else
       msg_id8 ← slice8 msg_id;
       emit (Log (InMemoryBroker.failed_after_retries msg_id8 (max_retries self)));;
       modify (fun self => set_pending_acks (delete msg_id (pending_acks self)) self)).

Definition check_timeouts (o : Oracle) (redis_up : bool) : M t Event unit :=
  self ← get;
  if use_redis self then
    if negb (running self) then mret tt else
    for_each (map_to_list (pending_acks self)) (check_timeout_of o redis_up)
  else delegate (InMemoryBroker.check_timeouts o).

(** [listen], as far as the state goes: both branches set [running]. *)
Definition listen : M t Event unit :=
  self ← get;
  if use_redis self then modify (set_running true)
  else delegate InMemoryBroker.listen.

End ReliableBroker.

(** ** Vocabulary of the properties *)

(** No empty id among the processed message ids.  Both handlers record a
    [msg_id] under [if msg_id:] only, so every agent the program builds is
    such an agent. *)
Definition agent_wf (self : Agent.t) : Prop := "" ∉ Agent.processed_message_ids self.

(** A task broadcast that carries an id. *)
Definition broadcast_with_id (message_data : MessageData.t) : Prop :=
  MessageData.msg_type message_data = value TASK_BROADCAST
  /\ truthy (MessageData.msg_id message_data) = true.

(** The ids of a list of messages. *)
Definition msg_ids (l : list MessageData.t) : list string := omap MessageData.msg_id l.

(** Delivering a list of messages to [handle_task_broadcast], one after the other. *)
Definition deliver_broadcasts (o : Oracle) (l : list MessageData.t) : list Agent.Op :=
  map (Agent.op_handle_task_broadcast o) l.

Definition deliver_allocations (o : Oracle) (l : list MessageData.t) : list Agent.Op :=
  map (Agent.op_handle_task_allocation o) l.

(** ** Concrete scenarios *)

Definition noon : Oracle :=
  {| time_time := 0; uuid4 := fun k => "uuid"; random_uniform := fun a b => 1%Q |}.

Definition sample_task (task_id : string) : Task.t :=
  {| Task.task_id := task_id; Task.priority := 5; Task.estimated_time := 1;
     Task.description := "Process data batch"; Task.created_at := 0 |}.

(** The message [Coordinator.broadcast_task] publishes for a task. *)
Definition task_broadcast_message (msg_id task_id : string) : MessageData.t :=
  Message_to_dict 0 msg_id TASK_BROADCAST "coordinator"
    {| Payload.task := Some (sample_task task_id); Payload.agent_id := None;
       Payload.winning_bid := None; Payload.bid := None; Payload.heartbeat := None;
       Payload.event_type := None; Payload.data := None |}
    true.

(** The message [Coordinator._send_allocation] publishes for a task and a winner. *)
Definition task_allocation_message (msg_id task_id agent_id : string) (winning_bid : Bid.t)
    : MessageData.t :=
  Message_to_dict 0 msg_id TASK_ALLOCATION "coordinator"
    {| Payload.task := Some (sample_task task_id); Payload.agent_id := Some agent_id;
       Payload.winning_bid := Some winning_bid; Payload.bid := None;
       Payload.heartbeat := None; Payload.event_type := None; Payload.data := None |}
    true.

Definition sample_bid (agent_id task_id : string) (bid_value : Q) : Bid.t :=
  {| Bid.agent_id := agent_id; Bid.task_id := task_id; Bid.bid_value := bid_value;
     Bid.current_load := 0; Bid.estimated_completion_time := 1 |}.

(** Pairwise distinct, non-empty names: [numbered n] has [n + 1] characters. *)
Fixpoint numbered (n : nat) : string :=
  match n with
  | O => "m"
  | S k => String "x"%char (numbered k)
  end.

(** [n] task broadcasts with the ids [numbered 0], ..., [numbered (n - 1)]. *)
Definition numbered_broadcasts (n : nat) : list MessageData.t :=
  map (fun k => task_broadcast_message (numbered k) (numbered k)) (seq 0 n).

(** Six tasks are announced to a fresh agent, which bids for each of them
    at load 0; the six allocations then arrive before any task has ended. *)
Definition six_tasks : list string := ["t1"; "t2"; "t3"; "t4"; "t5"; "t6"].

Definition overload_run : list Agent.Op :=
  deliver_broadcasts noon (map (fun t => task_broadcast_message (String.append "b-" t) t) six_tasks)
  ++ deliver_allocations noon
       (map (fun t => task_allocation_message (String.append "a-" t) t "agent_1"
                        (sample_bid "agent_1" t 1)) six_tasks).

(** The bids among the effects of a run. *)
Definition published_bids (l : list Effect) : list Bid.t :=
  omap (fun e => match e with
                 | Publish "bids" message _ => Payload.bid (MessageData.payload message)
                 | _ => None
                 end) l.

Definition fresh_agent : Agent.t := Agent.init noon "agent_1".

(** The agent after [crash()]. *)
Definition crashed_agent : Agent.t := Agent.run [Agent.op_crash noon None] fresh_agent.

(** The agent after the first delivery of the broadcast ["b-t1"]. *)
Definition agent_after_broadcast : Agent.t :=
  Agent.run [Agent.op_handle_task_broadcast noon (task_broadcast_message "b-t1" "t1")]
    fresh_agent.

(** The order of the bids and the bids of a given value. *)
Definition bid_le (b c : Bid.t) : Prop := (Bid.bid_value b <= Bid.bid_value c)%Q.

Definition has_bid_value (v : Q) (b : Bid.t) : bool := Qeq_bool (Bid.bid_value b) v.

(** The message [Agent.send_bid] publishes. *)
Definition bid_message (agent_id task_id : string) (bid_value : Q) : MessageData.t :=
  Message_to_dict 0 "bid-id" BID agent_id
    {| Payload.task := None; Payload.agent_id := None; Payload.winning_bid := None;
       Payload.bid := Some (sample_bid agent_id task_id bid_value);
       Payload.heartbeat := None; Payload.event_type := None; Payload.data := None |}
    false.

(** The message an agent publishes when it has completed a task. *)
Definition task_completed_message (agent_id task_id : string) : MessageData.t :=
  Message_to_dict 0 "event-id" AGENT_EVENT agent_id
    {| Payload.task := None; Payload.agent_id := None; Payload.winning_bid := None;
       Payload.bid := None; Payload.heartbeat := None;
       Payload.event_type := Some "task_completed";
       Payload.data := Some (data_task_completed task_id 1) |}
    false.

(** A coordinator that has broadcast ["t1"] and received no bid. *)
Definition coordinator_without_bids : Coordinator.t :=
  state_of (Coordinator.broadcast_task noon (sample_task "t1") true Coordinator.init).

(** The same coordinator after a bid of ["agent_1"] for ["t1"]. *)
Definition coordinator_with_bid : Coordinator.t :=
  state_of (Coordinator.handle_bid noon (bid_message "agent_1" "t1" 1)
              coordinator_without_bids).

(** ["t1"] is reported completed by another agent while it is pending with
    that bid (the task had been announced again). *)
Definition coordinator_task_completed : Coordinator.t :=
  state_of (Coordinator.handle_agent_event noon (task_completed_message "agent_2" "t1")
              coordinator_with_bid).

(** The coordinator with that bid once the monitor has put the bidder in
    [failed_agents]. *)
Definition coordinator_bidder_failed : Coordinator.t :=
  Coordinator.set_failed_agents {[ "agent_1" ]} coordinator_with_bid.

(** ["t1"] with three bids, two of them equal. *)
Definition coordinator_with_three_bids : Coordinator.t :=
  state_of (Coordinator.handle_bid noon (bid_message "agent_3" "t1" 3)
    (state_of (Coordinator.handle_bid noon (bid_message "agent_2" "t1" 3)
       (state_of (Coordinator.handle_bid noon (bid_message "agent_1" "t1" 12)
          coordinator_without_bids))))).

(** A reliable entry that [check_timeouts] has to send again at the time of
    [o]: it has waited longer than [ack_timeout], has retries left, and its
    message asks for an acknowledgment (as every message that [publish]
    records does). *)
Definition due_for_retransmission (o : Oracle) (self : InMemoryBroker.t)
    (info : InMemoryBroker.PendingAck) : Prop :=
  Qgtb (time_time o - InMemoryBroker.sent_at info) (InMemoryBroker.ack_timeout self) = true
  /\ (InMemoryBroker.retries info <? InMemoryBroker.max_retries self)%Z = true
  /\ MessageData.requires_ack (InMemoryBroker.message info) = true.

(** The keys of the table are message ids. *)
Definition keys_are_ids (self : InMemoryBroker.t) : Prop :=
  forall k, is_Some (InMemoryBroker.pending_acks self !! k) -> is_Some k.

Definition six_seconds_later : Oracle :=
  {| time_time := 6; uuid4 := fun k => "uuid"; random_uniform := fun a b => 1%Q |}.

Definition allocation_a_t1 : MessageData.t :=
  task_allocation_message "a-t1" "t1" "agent_1" (sample_bid "agent_1" "t1" 1).

(** A listening broker on which the allocation ["a-t1"] has been published
    reliably at time 0. *)
Definition broker_with_pending : InMemoryBroker.t :=
  state_of (InMemoryBroker.publish noon "allocations" allocation_a_t1 true
              (state_of (InMemoryBroker.listen InMemoryBroker.init))).

(** What stays true of the broker while the loop of [check_timeouts] runs. *)
Definition inside_check_timeouts (self0 self : InMemoryBroker.t) : Prop :=
  InMemoryBroker.lock self = true
  /\ InMemoryBroker.running self = true
  /\ InMemoryBroker.ack_timeout self = InMemoryBroker.ack_timeout self0
  /\ InMemoryBroker.max_retries self = InMemoryBroker.max_retries self0.

(** The clock reading [n] seconds after the publication. *)
Definition seconds_later (n : Z) : Oracle :=
  {| time_time := inject_Z n; uuid4 := fun k => "uuid"; random_uniform := fun a b => 1%Q |}.

(** A listening [ReliableBroker], on Redis or in memory, on which the
    allocation ["a-t1"] has been published reliably at time 0. *)
Definition reliable_broker_with_pending (use_redis : bool) : ReliableBroker.t :=
  state_of (ReliableBroker.publish noon true "allocations" allocation_a_t1 true
              (state_of (ReliableBroker.listen (ReliableBroker.init use_redis)))).

(** The retransmissions of a message among the events of the Redis branch. *)
Definition redis_publications (l : list ReliableBroker.Event) : list MessageData.t :=
  omap (fun e => match e with
                 | ReliableBroker.RedisPublish _ data => Some data
                 | _ => None
                 end) l.

(** ** Vocabulary of the further properties *)

(** The types of the agent events among the effects of an operation. *)
Definition published_event_types (l : list Effect) : list string :=
  omap (fun e => match e with
                 | Publish "agent_events" message _ =>
                     Payload.event_type (MessageData.payload message)
                 | _ => None
                 end) l.

(** The messages published on a channel, in order. *)
Definition published_on (channel : string) (l : list Effect) : list MessageData.t :=
  omap (fun e => match e with
                 | Publish to_channel message _ =>
                     if String.eqb to_channel channel then Some message else None
                 | _ => None
                 end) l.


(** The acknowledgment [send_ack] builds. *)
Definition ack_message (o : Oracle) (self : Agent.t) (msg_id : option string) : MessageData.t :=
  {| MessageData.msg_id := None;
     MessageData.msg_type := "acknowledgment";
     MessageData.sender_id := Agent.agent_id self;
     MessageData.payload := Payload.empty;
     MessageData.timestamp := time_time o;
     MessageData.requires_ack := false;
     MessageData.ack_for := msg_id |}.

(** The acknowledgment a handler sends for [message_data], if it asks for one. *)
Definition acks_for (o : Oracle) (self : Agent.t) (message_data : MessageData.t)
    : list Effect :=
  if MessageData.requires_ack message_data
  then [Publish "acks" (ack_message o self (MessageData.msg_id message_data)) false]
  else [].

(** The operation is a call of [crash]. *)
Definition is_crash (op : Agent.Op) : bool :=
  match op with
  | Agent.op_crash _ _ => true
  | _ => false
  end.

(** The agent remembers its bid for a task and can keep remembering it: it
    is not crashed, the task is in [bid_task_ids], and no execution of the
    task has been told to stop. *)
Definition remembers_bid (task_id : string) (self : Agent.t) : Prop :=
  Agent.is_crashed self = false
  /\ task_id ∈ Agent.bid_task_ids self
  /\ forall info, Agent.running_tasks self !! task_id = Some info ->
                  Agent.stop_flag info = false.

(** The bids of the distinct agents: no agent twice in a list of bids. *)
Definition one_bid_per_agent (all_bids : list Bid.t) : Prop :=
  NoDup (Bid.agent_id <$> all_bids).

(** The bounds the coordinator keeps on its log and on its set of events. *)
Definition coordinator_bounded (self : Coordinator.t) : Prop :=
  (length (Coordinator.activity_log self) <= Coordinator.max_activity_log self)%nat
  /\ (size (Coordinator.processed_events self) <= 1000)%nat.

(** In every pending auction the bids are one per agent. *)
Definition auctions_one_bid_per_agent (self : Coordinator.t) : Prop :=
  forall task_id task_info,
    Coordinator.pending_tasks self !! task_id = Some task_info ->
    one_bid_per_agent (Coordinator.bids task_info).

(** *** Retransmission on the Redis branch *)

(** What a check at time [now] decides for an entry: leave it, send it
    again, or give it up. *)
Inductive Verdict := Wait | Resend | GiveUp.

Definition verdict_of (now timeout : Q) (max_retries : Z) (info : InMemoryBroker.PendingAck)
    : Verdict :=
  if Qgtb (now - InMemoryBroker.sent_at info) timeout
  then if (InMemoryBroker.retries info <? max_retries)%Z then Resend else GiveUp
  else Wait.

(** The entry after a retransmission: one more retry, sent at [now]. *)
Definition resent (now : Q) (info : InMemoryBroker.PendingAck) : InMemoryBroker.PendingAck :=
  {| InMemoryBroker.channel := InMemoryBroker.channel info;
     InMemoryBroker.message := InMemoryBroker.message info;
     InMemoryBroker.sent_at := now;
     InMemoryBroker.retries := InMemoryBroker.retries info + 1 |}.

(** What becomes of an entry of the table in one check; [redis_up] tells
    whether the Redis client accepts the publication. *)
Definition entry_after_check (now timeout : Q) (max_retries : Z) (redis_up : bool)
    (entry : option InMemoryBroker.PendingAck) : option InMemoryBroker.PendingAck :=
  match entry with
  | None => None
  | Some info =>
      match verdict_of now timeout max_retries info with
      | Wait => Some info
      | Resend => Some (if redis_up then resent now info else info)
      | GiveUp => None
      end
  end.

(** The keys of the table of a [ReliableBroker] are the ids of the messages
    it holds. *)
Definition redis_table_wf (self : ReliableBroker.t) : Prop :=
  forall k info,
    ReliableBroker.pending_acks self !! k = Some info ->
    MessageData.msg_id (InMemoryBroker.message info) = k /\ is_Some k.

(** How often the message with id [m] was handed to Redis. *)
Definition retransmissions_of (m : string) (events : list ReliableBroker.Event) : nat :=
  length (filter (fun data => MessageData.msg_id data = Some m) (redis_publications events)).

(** A series of checks, each at its own time and with the connection up or
    down: the broker after them and what they did. *)
Fixpoint check_timeouts_run (checks : list (Oracle * bool)) (self : ReliableBroker.t)
    : ReliableBroker.t * list ReliableBroker.Event :=
  match checks with
  | [] => (self, [])
  | (o, redis_up) :: later =>
      let r := ReliableBroker.check_timeouts o redis_up self in
      let '(self', events) := check_timeouts_run later (state_of r) in
      (self', events_of r ++ events)
  end.

(** The retries an entry has left. *)
Definition retries_left (m : string) (self : ReliableBroker.t) : nat :=
  match ReliableBroker.pending_acks self !! Some m with
  | Some info =>
      Z.to_nat (ReliableBroker.max_retries self - InMemoryBroker.retries info)
  | None => 0
  end.

(** What one turn of the loop of the Redis branch logs and sends for an
    entry. *)
Definition entry_events (now timeout : Q) (max_retries : Z) (redis_up : bool)
    (entry : option string * InMemoryBroker.PendingAck) : list ReliableBroker.Event :=
  match entry.1 with
  | None => []
  | Some m =>
      match verdict_of now timeout max_retries entry.2 with
      | Wait => []
      | Resend =>
          ReliableBroker.Log
            (InMemoryBroker.timeout_retransmitting (substring 0 8 m)
               (InMemoryBroker.retries entry.2 + 1))
          :: (if redis_up
              then [ReliableBroker.RedisPublish (InMemoryBroker.channel entry.2)
                      (InMemoryBroker.message entry.2)]
              else [ReliableBroker.Log InMemoryBroker.error_retransmitting])
      | GiveUp =>
          [ReliableBroker.Log
             (InMemoryBroker.failed_after_retries (substring 0 8 m) max_retries)]
      end
  end.

(** Two brokers that differ in their tables only. *)
Definition same_settings (self self' : ReliableBroker.t) : Prop :=
  ReliableBroker.use_redis self' = ReliableBroker.use_redis self
  /\ ReliableBroker.running self' = ReliableBroker.running self
  /\ ReliableBroker.ack_timeout self' = ReliableBroker.ack_timeout self
  /\ ReliableBroker.max_retries self' = ReliableBroker.max_retries self
  /\ ReliableBroker.subscribers self' = ReliableBroker.subscribers self
  /\ ReliableBroker.broker self' = ReliableBroker.broker self.

(** *** The in-memory broker at work *)

(** The entry of a queue for a message. *)
Definition queued (to_channel : string) (msg : MessageData.t) : InMemoryBroker.QueueItem :=
  {| InMemoryBroker.item_type := "message"; InMemoryBroker.item_channel := to_channel;
     InMemoryBroker.data := msg |}.

(** The queue of a channel, empty if the channel has none yet. *)
Definition queue_of (to_channel : string) (self : InMemoryBroker.t)
    : list InMemoryBroker.QueueItem :=
  default [] (InMemoryBroker.message_queues self !! to_channel).

(** The subscribers of a channel, in the order of their registration. *)
Definition subscribers_of (to_channel : string) (self : InMemoryBroker.t) : list string :=
  default [] (InMemoryBroker.subscribers self !! to_channel).

(** The callbacks called during an operation, with the message each got. *)
Definition calls (l : list InMemoryBroker.Event) : list (string * MessageData.t) :=
  omap (fun e => match e with
                 | InMemoryBroker.Call callback data => Some (callback, data)
                 | _ => None
                 end) l.

(** A message that the broker takes for an acknowledgment. *)
Definition is_acknowledgment (msg : MessageData.t) : bool :=
  String.eqb (MessageData.msg_type msg) "acknowledgment".

(** *** Concrete states for the further properties *)

(** A second broadcast of ["t1"], under another id. *)
Definition second_broadcast_t1 : MessageData.t := task_broadcast_message "b2-t1" "t1".

(** The agent once it has accepted ["t1"] and its thread has registered it. *)
Definition agent_running_t1 : Agent.t :=
  Agent.run [Agent.op_handle_task_allocation noon allocation_a_t1;
             Agent.op_execute_task_begin noon (sample_task "t1")] fresh_agent.



(** An agent that crashed one second after the start with the default
    recovery delay, and one that crashed with automatic recovery off. *)
Definition agent_crashed_at_one : Agent.t :=
  Agent.run [Agent.op_crash (seconds_later 1) None] fresh_agent.

Definition agent_crashed_for_good : Agent.t :=
  Agent.run [Agent.op_crash (seconds_later 1) (Some 0%Q)] fresh_agent.

(** The message [Agent.send_heartbeat] publishes. *)
Definition heartbeat_message (agent_id : string) : MessageData.t :=
  Message_to_dict 0 "heartbeat-id" HEARTBEAT agent_id
    {| Payload.task := None; Payload.agent_id := None; Payload.winning_bid := None;
       Payload.bid := None;
       Payload.heartbeat :=
         Some {| Heartbeat.agent_id := agent_id; Heartbeat.timestamp := 0;
                 Heartbeat.status := "idle"; Heartbeat.current_load := 0;
                 Heartbeat.max_load := 5 |};
       Payload.event_type := None; Payload.data := None |}
    false.

(** The operations that lead to [coordinator_with_three_bids]. *)
Definition three_bids_run : list Coordinator.Op :=
  [Coordinator.op_broadcast_task noon (sample_task "t1") true;
   Coordinator.op_handle_bid noon (bid_message "agent_1" "t1" 12);
   Coordinator.op_handle_bid noon (bid_message "agent_2" "t1" 3);
   Coordinator.op_handle_bid noon (bid_message "agent_3" "t1" 3)].

(** A listening broker with two subscribers on ["tasks"] and the broadcast
    of ["t1"], published without a request for acknowledgment, queued. *)
Definition plain_broadcast_t1 : MessageData.t :=
  Message_to_dict 0 "b-t1" TASK_BROADCAST "coordinator"
    {| Payload.task := Some (sample_task "t1"); Payload.agent_id := None;
       Payload.winning_bid := None; Payload.bid := None; Payload.heartbeat := None;
       Payload.event_type := None; Payload.data := None |}
    false.

Definition listening_broker : InMemoryBroker.t :=
  state_of (InMemoryBroker.subscribe "tasks" "agent_2.handle_task_broadcast"
    (state_of (InMemoryBroker.subscribe "tasks" "agent_1.handle_task_broadcast"
       (state_of (InMemoryBroker.listen InMemoryBroker.init))))).

Definition broker_with_queued_broadcast : InMemoryBroker.t :=
  state_of (InMemoryBroker.publish noon "tasks" plain_broadcast_t1 false listening_broker).

(** The broker that waits for the acknowledgment of ["a-t1"], with that
    acknowledgment queued on ["acks"]. *)
Definition ack_of_a_t1 : MessageData.t := ack_message noon fresh_agent (Some "a-t1").

Definition broker_with_queued_ack : InMemoryBroker.t :=
  state_of (InMemoryBroker.publish noon "acks" ack_of_a_t1 false broker_with_pending).

(** Checks of the Redis branch at 6, 12, 18, 24 and 30 seconds, the
    connection being down at the second one. *)
Definition five_checks : list (Oracle * bool) :=
  [(seconds_later 6, true); (seconds_later 12, false); (seconds_later 18, true);
   (seconds_later 24, true); (seconds_later 30, true)].

(** * Properties *)

(** ** Evaluating computations of the effect monad *)

Ltac mred :=
  cbv beta iota zeta delta
    [mbind mret M_mbind M_mret M_bind M_ret get modify emit raise block when subscript index
     state_of events_of outcome_of fst snd app].

Ltac mred_in H :=
  cbv beta iota zeta delta
    [mbind mret M_mbind M_mret M_bind M_ret get modify emit raise block when subscript index
     state_of events_of outcome_of fst snd app] in H.

(** Case analysis on the next test of a computation. *)
Ltac mcase :=
  match goal with
  | |- context [if ?c then _ else _] => destruct c eqn:?
  | |- context [match ?x with Some _ => _ | None => _ end] => destruct x eqn:?
  end.

Lemma truthy_Some (m : string) : truthy (Some m) = true <-> m ≠ "".
Proof.
  unfold truthy. destruct (String.eqb_spec m ""); simpl; split; congruence.
Qed.

Lemma truthy_is_Some (x : option string) : truthy x = true -> exists m, x = Some m /\ m ≠ "".
Proof.
  destruct x as [m|]; simpl; [|discriminate].
  intros H. exists m. split; [done|]. by apply truthy_Some.
Qed.

(** ** Agents *)

Section agent_properties.
Import Agent.

Ltac agent_unfold :=
  unfold handle_task_broadcast, handle_task_allocation, ack_if_required, send_ack, send_bid,
    emit_event, broker_publish.

(** The state an agent is left in by [handle_task_broadcast]. *)
Lemma handle_task_broadcast_state o message_data self :
  state_of (handle_task_broadcast o message_data self) =
    let msg_id := MessageData.msg_id message_data in
    if negb (String.eqb (MessageData.msg_type message_data) (value TASK_BROADCAST)) then self
    else if truthy msg_id && in_ids msg_id (processed_message_ids self) then self
    else
      let self1 :=
        if truthy msg_id
        then set_processed_message_ids (add_id msg_id (processed_message_ids self)) self
        else self in
      if is_crashed self then self1
      else
        match Payload.task (MessageData.payload message_data) with
        | None => self1
        | Some task =>
            if bool_decide (Task.task_id task ∈ bid_task_ids self)
               || bool_decide (Task.task_id task ∈ allocated_task_ids self)
            then self1
            else set_bid_task_ids ({[ Task.task_id task ]} ∪ bid_task_ids self) self1
        end.
Proof.
  agent_unfold. cbv zeta.
  destruct (negb (String.eqb _ _)); [reflexivity|].
  mred.
  destruct (truthy _ && in_ids _ _) eqn:Hseen; [reflexivity|].
  destruct (truthy (MessageData.msg_id message_data)) eqn:Ht; mred; cbn [is_crashed set_processed_message_ids];
  repeat (mcase; mred; cbn [is_crashed bid_task_ids allocated_task_ids current_load max_load set_processed_message_ids set_bid_task_ids] in *; try reflexivity; try discriminate).
Qed.

(** The state an agent is left in by [handle_task_allocation]. *)
Lemma handle_task_allocation_state o message_data self :
  state_of (handle_task_allocation o message_data self) =
    let msg_id := MessageData.msg_id message_data in
    if negb (String.eqb (MessageData.msg_type message_data) (value TASK_ALLOCATION)) then self
    else
      match Payload.agent_id (MessageData.payload message_data) with
      | None => self
      | Some allocated_agent =>
          if negb (String.eqb allocated_agent (agent_id self)) then self
          else if truthy msg_id && in_ids msg_id (processed_message_ids self) then self
          else
            match Payload.task (MessageData.payload message_data) with
            | None => self
            | Some task =>
                if bool_decide (Task.task_id task ∈ allocated_task_ids self) then self
                else
                  let self1 :=
                    if truthy msg_id
                    then set_processed_message_ids
                           (add_id msg_id (processed_message_ids self)) self
                    else self in
                  let self2 :=
                    set_current_load (current_load self + 1)
                      (set_assigned_tasks (assigned_tasks self ++ [task])
                         (set_allocated_task_ids
                            ({[ Task.task_id task ]} ∪ allocated_task_ids self) self1)) in
                  if is_crashed self
                  then set_current_load (current_load self + 1 - 1)
                         (set_allocated_task_ids
                            (({[ Task.task_id task ]} ∪ allocated_task_ids self)
                               ∖ {[ Task.task_id task ]}) self2)
                  else self2
            end
      end.
Proof.
  agent_unfold. cbv zeta.
  destruct (negb (String.eqb _ _)); [reflexivity|].
  mred.
  destruct (Payload.agent_id _) as [allocated_agent|]; [|reflexivity].
  destruct (negb (String.eqb allocated_agent _)); [reflexivity|].
  destruct (truthy _ && in_ids _ _) eqn:Hseen; [reflexivity|].
  destruct (Payload.task _) as [task|]; [|reflexivity].
  destruct (bool_decide (Task.task_id task ∈ _)); [destruct (MessageData.requires_ack _); reflexivity|].
  destruct (truthy (MessageData.msg_id message_data)) eqn:Ht; mred;
    cbn [is_crashed set_processed_message_ids set_allocated_task_ids set_assigned_tasks
         set_current_load];
    destruct (is_crashed self); destruct (MessageData.requires_ack message_data); reflexivity.
Qed.

Lemma in_ids_add_id (x : option string) (ids : gset string) :
  truthy x = true -> in_ids x (add_id x ids) = true.
Proof.
  destruct x as [m|]; simpl; [|discriminate].
  intros _. apply bool_decide_eq_true_2. set_solver.
Qed.

Lemma in_ids_truthy (x : option string) (self : Agent.t) :
  agent_wf self -> in_ids x (processed_message_ids self) = true -> truthy x = true.
Proof.
  unfold agent_wf. destruct x as [m|]; simpl; [|discriminate].
  intros Hwf Hin. apply bool_decide_eq_true_1 in Hin.
  apply truthy_Some. intros ->. done.
Qed.

(** A message already seen changes nothing, whichever handler gets it. *)
Lemma handle_task_broadcast_seen o message_data self :
  truthy (MessageData.msg_id message_data) = true ->
  in_ids (MessageData.msg_id message_data) (processed_message_ids self) = true ->
  handle_task_broadcast o message_data self = (Ret tt, self, []).
Proof.
  intros Ht Hin. unfold handle_task_broadcast.
  destruct (negb _); [reflexivity|].
  mred. rewrite Ht, Hin. reflexivity.
Qed.


(** After a delivery the agent either is as before or has recorded the
    message. *)
Lemma handle_task_broadcast_records o message_data self :
  truthy (MessageData.msg_id message_data) = true ->
  state_of (handle_task_broadcast o message_data self) = self
  \/ in_ids (MessageData.msg_id message_data)
       (processed_message_ids (state_of (handle_task_broadcast o message_data self))) = true.
Proof.
  intros Ht. rewrite handle_task_broadcast_state. cbv zeta. rewrite Ht.
  destruct (negb _); [by left|].
  destruct (true && _); [by left|].
  right.
  repeat (mcase; cbn [processed_message_ids set_processed_message_ids set_bid_task_ids];
          try by apply in_ids_add_id).
Qed.


(** The state a handler leaves does not depend on the clock, the
    identifiers or the random draw. *)
Lemma handle_task_broadcast_state_oracle o1 o2 message_data self :
  state_of (handle_task_broadcast o2 message_data self)
  = state_of (handle_task_broadcast o1 message_data self).
Proof. by rewrite !handle_task_broadcast_state. Qed.


(** C8: a task broadcast whose [msg_id] is already in
    [processed_message_ids] makes [handle_task_broadcast] return with the
    agent unchanged in every field and with nothing published: no bid and,
    whatever [requires_ack] says, no acknowledgment.  The agent is any
    agent whose set of processed ids holds no empty id, which is every
    agent the program can build ([reachable_agent_wf]). *)
Theorem duplicate_broadcast_is_silent o message_data self m :
  agent_wf self ->
  MessageData.msg_id message_data = Some m ->
  m ∈ processed_message_ids self ->
  handle_task_broadcast o message_data self = (Ret tt, self, []).
Proof.
  intros Hwf Hid Hin.
  assert (in_ids (MessageData.msg_id message_data) (processed_message_ids self) = true) as Hseen.
  { rewrite Hid. simpl. by apply bool_decide_eq_true_2. }
  apply handle_task_broadcast_seen; [|done].
  by apply (in_ids_truthy _ self).
Qed.


(** *** What the other operations do to the set of processed ids *)

Ltac agent_fields :=
  cbn [agent_id current_load max_load assigned_tasks completed_tasks running_tasks
       allocated_task_ids processed_message_ids bid_task_ids is_alive is_crashed
       auto_recover_enabled auto_recover_delay crash_time last_heartbeat heartbeat_interval
       stream_interval total_cpu_time total_memory_used
       set_current_load set_assigned_tasks set_completed_tasks set_running_tasks
       set_allocated_task_ids set_processed_message_ids set_bid_task_ids set_is_alive
       set_is_crashed set_auto_recover_enabled set_auto_recover_delay set_crash_time
       set_last_heartbeat set_total_cpu_time] in *.

Ltac agent_unfold_all :=
  unfold perform, discard, handle_heartbeat_request, execute_task_begin, execute_task_slice,
    execute_task_end, execute_task_final_check, execute_task_complete, execute_task_cancel,
    execute_task_finally, heartbeat_loop_iteration,
    crash, recover, stop, send_heartbeat, emit_event, broker_publish.

Lemma add_id_processed (x : option string) (ids : gset string) :
  truthy x = true -> "" ∉ ids -> "" ∉ add_id x ids.
Proof.
  intros Ht Hwf. apply truthy_is_Some in Ht as (m & -> & Hm). simpl.
  intros [Hin|Hin]%elem_of_union; [|done].
  apply elem_of_singleton in Hin. congruence.
Qed.

Lemma add_id_subseteq (x : option string) (ids : gset string) : ids ⊆ add_id x ids.
Proof. destruct x; simpl; set_solver. Qed.

(** Each operation leaves the set of processed ids as it is or adds to it
    the non-empty id of the message handled. *)
Lemma perform_processed_message_ids op self :
  processed_message_ids (state_of (perform op self)) = processed_message_ids self
  \/ exists x, truthy x = true
       /\ processed_message_ids (state_of (perform op self))
          = add_id x (processed_message_ids self).
Proof.
  destruct op as [o md|o md|o md|o task|o task elapsed|o task start|o task|o task start|task
                 |o|o after|o|].
  - cbn [perform]. rewrite handle_task_broadcast_state. cbv zeta.
    destruct (truthy (MessageData.msg_id md)) eqn:Ht;
      repeat (mcase; agent_fields; try (by left); try (right; by eexists)).
  - cbn [perform]. rewrite handle_task_allocation_state. cbv zeta.
    destruct (truthy (MessageData.msg_id md)) eqn:Ht;
      repeat (mcase; agent_fields; try (by left); try (right; by eexists)).
  - left. agent_unfold_all. mred. repeat (mcase; mred; agent_fields); reflexivity.
  - left. agent_unfold_all. mred. repeat (mcase; mred; agent_fields); reflexivity.
  - left. agent_unfold_all. mred. repeat (mcase; mred; agent_fields); reflexivity.
  - left. agent_unfold_all. mred. repeat (mcase; mred; agent_fields); reflexivity.
  - left. agent_unfold_all. mred. repeat (mcase; mred; agent_fields); reflexivity.
  - left. agent_unfold_all. mred. repeat (mcase; mred; agent_fields); reflexivity.
  - left. agent_unfold_all. mred. repeat (mcase; mred; agent_fields); reflexivity.
  - left. agent_unfold_all. mred. repeat (mcase; mred; agent_fields); reflexivity.
  - left. agent_unfold_all. mred. repeat (mcase; mred; agent_fields); reflexivity.
  - left. agent_unfold_all. mred. repeat (mcase; mred; agent_fields); reflexivity.
  - left. agent_unfold_all. mred. repeat (mcase; mred; agent_fields); reflexivity.
Qed.

Lemma perform_agent_wf op self : agent_wf self -> agent_wf (state_of (perform op self)).
Proof.
  unfold agent_wf. intros Hwf.
  destruct (perform_processed_message_ids op self) as [->|(x & Ht & ->)]; [done|].
  by apply add_id_processed.
Qed.

Lemma run_agent_wf ops self : agent_wf self -> agent_wf (run ops self).
Proof.
  revert self. induction ops as [|op ops IH]; intros self Hwf; [done|].
  simpl. apply IH. by apply perform_agent_wf.
Qed.

(** Every agent the program can build satisfies [agent_wf]. *)
Lemma reachable_agent_wf self : reachable self -> agent_wf self.
Proof.
  intros (o & name & ops & ->). apply run_agent_wf.
  unfold agent_wf. simpl. set_solver.
Qed.

Lemma run_processed_message_ids_mono ops self :
  processed_message_ids self ⊆ processed_message_ids (run ops self).
Proof.
  revert self. induction ops as [|op ops IH]; intros self; [done|].
  simpl. etrans; [|apply IH].
  destruct (perform_processed_message_ids op self) as [->|(x & _ & ->)]; [done|].
  apply add_id_subseteq.
Qed.

(** *** Deliveries of one envelope, at any distance *)







(** *** The set of processed ids grows with the traffic *)

Lemma handle_task_broadcast_adds_id o message_data self :
  broadcast_with_id message_data ->
  processed_message_ids (state_of (handle_task_broadcast o message_data self))
  = add_id (MessageData.msg_id message_data) (processed_message_ids self).
Proof.
  intros [Hty Ht]. rewrite handle_task_broadcast_state. cbv zeta.
  rewrite Hty, Ht. rewrite String.eqb_refl. cbn [negb andb].
  destruct (in_ids _ _) eqn:Hin.
  - apply truthy_is_Some in Ht as (m & Hm & _). rewrite Hm in *. simpl in *.
    apply bool_decide_eq_true_1 in Hin. symmetry.
    by apply subseteq_union_1_L, singleton_subseteq_l.
  - repeat (mcase; agent_fields; try reflexivity).
Qed.

Lemma msg_ids_cons message_data l m :
  MessageData.msg_id message_data = Some m -> msg_ids (message_data :: l) = m :: msg_ids l.
Proof. intros H. unfold msg_ids. simpl. by rewrite H. Qed.

Lemma deliver_broadcasts_size o l self :
  Forall broadcast_with_id l ->
  NoDup (msg_ids l) ->
  (forall m, m ∈ msg_ids l -> m ∉ processed_message_ids self) ->
  size (processed_message_ids (run (deliver_broadcasts o l) self))
  = (size (processed_message_ids self) + length l)%nat.
Proof.
  revert self. induction l as [|md l IH]; intros self Hall Hnd Hfresh.
  - simpl. lia.
  - apply Forall_cons in Hall as [Hmd Hall].
    destruct (truthy_is_Some _ (proj2 Hmd)) as (m & Hm & Hne).
    rewrite (msg_ids_cons _ _ _ Hm) in Hnd, Hfresh.
    apply NoDup_cons in Hnd as [Hnotin Hnd].
    cbn [deliver_broadcasts map run fold_left perform].
    change (fold_left _ (map _ l) ?s) with (run (deliver_broadcasts o l) s).
    rewrite IH; [|done|done|].
    + rewrite handle_task_broadcast_adds_id by done. rewrite Hm. simpl.
      rewrite size_union by (apply disjoint_singleton_l, Hfresh; left).
      rewrite size_singleton. lia.
    + intros m' Hin'. rewrite handle_task_broadcast_adds_id by done. rewrite Hm. simpl.
      intros [Heq|Hold]%elem_of_union.
      * apply elem_of_singleton in Heq. subst m'. done.
      * revert Hold. apply Hfresh. by right.
Qed.

(** C7 (as amended): [processed_message_ids] is not bounded.  No operation
    of an agent removes an id from it, and each task broadcast with a new,
    non-empty [msg_id] adds one: after the delivery of [n] broadcasts with
    distinct new ids the set has [n] more elements. *)
Theorem processed_message_ids_never_shrinks o ops l self :
  processed_message_ids self ⊆ processed_message_ids (run ops self)
  /\ (Forall broadcast_with_id l ->
      NoDup (msg_ids l) ->
      (forall m, m ∈ msg_ids l -> m ∉ processed_message_ids self) ->
      size (processed_message_ids (run (deliver_broadcasts o l) self))
      = (size (processed_message_ids self) + length l)%nat).
Proof.
  split; [apply run_processed_message_ids_mono|apply deliver_broadcasts_size].
Qed.

Lemma numbered_length n : String.length (numbered n) = S n.
Proof. induction n as [|n IH]; simpl; [done|by rewrite IH]. Qed.

Lemma numbered_inj n k : numbered n = numbered k -> n = k.
Proof.
  intros H. apply (f_equal String.length) in H. rewrite !numbered_length in H. lia.
Qed.

Lemma numbered_broadcasts_ids n : msg_ids (numbered_broadcasts n) = map numbered (seq 0 n).
Proof.
  unfold numbered_broadcasts. generalize 0%nat. induction n as [|n IH]; intros k; [done|].
  simpl. unfold msg_ids in *. simpl. f_equal. apply IH.
Qed.

Lemma numbered_broadcasts_with_id n : Forall broadcast_with_id (numbered_broadcasts n).
Proof.
  unfold numbered_broadcasts. apply Forall_map, Forall_forall. intros k _.
  split; [reflexivity|]. simpl. apply truthy_Some.
  intros H. apply (f_equal String.length) in H. rewrite numbered_length in H. done.
Qed.

Lemma numbered_broadcasts_size n :
  size (processed_message_ids
          (run (deliver_broadcasts noon (numbered_broadcasts n)) (init noon "agent_1")))
  = n.
Proof.
  rewrite deliver_broadcasts_size.
  - cbn [init processed_message_ids]. rewrite size_empty.
    unfold numbered_broadcasts. by rewrite length_map, length_seq.
  - apply numbered_broadcasts_with_id.
  - rewrite numbered_broadcasts_ids. apply NoDup_fmap_2; [|apply NoDup_seq].
    intros a b. apply numbered_inj.
  - intros m _. cbn [init processed_message_ids]. apply not_elem_of_empty.
Qed.

(** C7, as stated, fails: whatever the bound, a fresh agent that is
    delivered more task broadcasts with distinct ids than the bound holds
    more processed ids than the bound. *)
Lemma processed_message_ids_unbounded :
  ~ exists bound : nat, forall n,
      (size (processed_message_ids
               (run (deliver_broadcasts noon (numbered_broadcasts n)) (init noon "agent_1")))
       <= bound)%nat.
Proof.
  intros [bound Hbound]. specialize (Hbound (S bound)).
  rewrite numbered_broadcasts_size in Hbound. lia.
Qed.

(** C1 fails on the code.  A fresh agent bids for six tasks while its load
    is 0; the six allocations that follow are all accepted, and its
    [current_load] is 6 with [max_load] 5. *)
Theorem allocations_exceed_max_load :
  let self := run overload_run (init noon "agent_1") in
  length (published_bids (run_effects overload_run (init noon "agent_1"))) = 6%nat
  /\ is_crashed self = false
  /\ max_load self = 5
  /\ current_load self = 6
  /\ ~ (current_load self <= max_load self).
Proof.
  vm_compute. repeat split; try reflexivity. intros H. apply H. reflexivity.
Qed.


(** C10: [recover()] on an agent that is not crashed returns [False],
    changes no field and publishes nothing; on a crashed agent it clears
    [is_crashed] and [crash_time], empties [bid_task_ids], publishes the
    [agent_recovered] event and then a heartbeat, and returns [True]. *)
Theorem recover_only_when_crashed o self :
  (is_crashed self = false -> recover o self = (Ret false, self, []))
  /\ (is_crashed self = true ->
      exists event heartbeat,
        recover o self
        = (Ret true,
           set_last_heartbeat (time_time o)
             (set_bid_task_ids ∅ (set_crash_time None (set_is_crashed false self))),
           [Publish "agent_events" event false; Publish "heartbeats" heartbeat false])
        /\ MessageData.msg_type event = value AGENT_EVENT
        /\ Payload.event_type (MessageData.payload event) = Some "agent_recovered"
        /\ MessageData.msg_type heartbeat = value HEARTBEAT
        /\ is_Some (Payload.heartbeat (MessageData.payload heartbeat))).
Proof.
  split; intros Hc; unfold recover; mred; rewrite Hc.
  - reflexivity.
  - unfold emit_event, send_heartbeat, broker_publish. mred.
    eexists _, _. split; [reflexivity|].
    repeat split. by eexists.
Qed.

(** *** The theorems at concrete agents *)

Lemma duplicate_broadcast_is_silent_witness :
  handle_task_broadcast noon (task_broadcast_message "b-t1" "t1") agent_after_broadcast
  = (Ret tt, agent_after_broadcast, []).
Proof.
  apply (duplicate_broadcast_is_silent noon _ agent_after_broadcast "b-t1").
  - apply reachable_agent_wf. exists noon, "agent_1". eexists. reflexivity.
  - reflexivity.
  - refine (bool_decide_unpack _ _). vm_compute. exact I.
Defined.


Lemma processed_message_ids_never_shrinks_witness :
  size (processed_message_ids
          (run (deliver_broadcasts noon (numbered_broadcasts 3)) fresh_agent))
  = (size (processed_message_ids fresh_agent) + 3)%nat.
Proof.
  apply (processed_message_ids_never_shrinks noon [] (numbered_broadcasts 3) fresh_agent).
  - apply numbered_broadcasts_with_id.
  - refine (bool_decide_unpack _ _). vm_compute. exact I.
  - intros m _. apply not_elem_of_empty.
Defined.

Lemma recover_only_when_crashed_witness :
  recover noon fresh_agent = (Ret false, fresh_agent, [])
  /\ outcome_of (recover noon crashed_agent) = Ret true.
Proof.
  split.
  - apply (recover_only_when_crashed noon fresh_agent). reflexivity.
  - destruct (proj2 (recover_only_when_crashed noon crashed_agent) eq_refl)
      as (event & heartbeat & -> & _).
    reflexivity.
Defined.

End agent_properties.

(** ** The coordinator *)

Section coordinator_properties.
Import Coordinator.

Ltac coordinator_fields :=
  cbn [tasks pending_tasks allocated_tasks agent_tasks agent_heartbeats agent_streams
       failed_agents heartbeat_timeout monitoring_active activity_log max_activity_log
       processed_events task_bids completed_task_ids cancelled_task_ids
       set_tasks set_pending_tasks set_allocated_tasks set_agent_tasks set_activity_log
       set_task_bids set_processed_events set_completed_task_ids set_cancelled_task_ids
       set_agent_heartbeats set_failed_agents] in *.

(** *** The sort *)

Lemma insert_by_bid_value_perm b l : insert_by_bid_value b l ≡ₚ b :: l.
Proof.
  induction l as [|c l IH]; simpl; [done|].
  destruct (Qle_bool _ _); [done|].
  rewrite IH. apply Permutation_swap.
Qed.

Lemma sorted_by_bid_value_perm l : sorted_by_bid_value l ≡ₚ l.
Proof.
  induction l as [|b l IH]; simpl; [done|].
  rewrite insert_by_bid_value_perm. by rewrite IH.
Qed.

Lemma insert_by_bid_value_sorted b l :
  StronglySorted bid_le l -> StronglySorted bid_le (insert_by_bid_value b l).
Proof.
  induction l as [|c l IH]; intros Hs; simpl.
  - repeat constructor.
  - apply StronglySorted_inv in Hs as [Hs Hc].
    destruct (Qle_bool (Bid.bid_value b) (Bid.bid_value c)) eqn:Hle.
    + apply Qle_bool_iff in Hle.
      constructor; [by constructor|].
      constructor; [done|].
      eapply Forall_impl; [exact Hc|].
      intros d Hd. unfold bid_le in *. eapply Qle_trans; [exact Hle|exact Hd].
    + constructor; [by apply IH|].
      rewrite insert_by_bid_value_perm. constructor; [|done].
      unfold bid_le. apply Qlt_le_weak, Qnot_le_lt.
      intros Hle'. apply Qle_bool_iff in Hle'. congruence.
Qed.

Lemma sorted_by_bid_value_sorted l : StronglySorted bid_le (sorted_by_bid_value l).
Proof.
  induction l as [|b l IH]; simpl; [constructor|].
  by apply insert_by_bid_value_sorted.
Qed.

(** Bids of one value keep the order they had: the sort is stable. *)
Lemma insert_by_bid_value_stable v b l :
  List.filter (has_bid_value v) (insert_by_bid_value b l)
  = List.filter (has_bid_value v) (b :: l).
Proof.
  induction l as [|c l IH]; [done|].
  cbn [insert_by_bid_value].
  destruct (Qle_bool (Bid.bid_value b) (Bid.bid_value c)) eqn:Hle; [done|].
  cbn [List.filter] in *. rewrite IH.
  destruct (has_bid_value v b) eqn:Hb, (has_bid_value v c) eqn:Hc; try done.
  exfalso. unfold has_bid_value in *.
  apply Qeq_bool_iff in Hb, Hc.
  assert (Qle_bool (Bid.bid_value b) (Bid.bid_value c) = true); [|congruence].
  apply Qle_bool_iff. rewrite Hb, Hc. apply Qle_refl.
Qed.

Lemma sorted_by_bid_value_stable v l :
  List.filter (has_bid_value v) (sorted_by_bid_value l) = List.filter (has_bid_value v) l.
Proof.
  induction l as [|b l IH]; [done|].
  cbn [sorted_by_bid_value]. rewrite insert_by_bid_value_stable.
  cbn [List.filter]. by rewrite IH.
Qed.

(** *** The activity log and the allocation message *)

Lemma _log_activity_spec activity self :
  _log_activity activity self
  = (Ret tt,
     set_activity_log
       (if (max_activity_log self <? length (activity_log self ++ [activity]))%nat
        then tail (activity_log self ++ [activity])
        else activity_log self ++ [activity]) self,
     []).
Proof.
  unfold _log_activity. mred. coordinator_fields.
  by destruct (_ <? _)%nat.
Qed.

Lemma _send_allocation_spec o for_task agent_id winning_bid total_bids self :
  exists self',
    _send_allocation o for_task agent_id winning_bid total_bids self
    = (Ret tt, self',
       [Publish "allocations"
          (Message_to_dict (time_time o) (uuid4 o 0) TASK_ALLOCATION "coordinator"
             {| Payload.task := Some for_task; Payload.agent_id := Some agent_id;
                Payload.winning_bid := Some winning_bid; Payload.bid := None;
                Payload.heartbeat := None; Payload.event_type := None;
                Payload.data := None |} true)
          true])
    /\ pending_tasks self' = pending_tasks self
    /\ task_bids self' = task_bids self.
Proof.
  unfold _send_allocation. mred. rewrite _log_activity_spec. coordinator_fields.
  eexists. split; [reflexivity|]. by split.
Qed.

(** *** allocate_task and handle_bid *)

Lemma valid_bids_of_none self (all_bids : list Bid.t) :
  Forall (fun b => Bid.agent_id b ∈ failed_agents self) all_bids ->
  valid_bids_of self all_bids = [].
Proof.
  unfold valid_bids_of. induction 1 as [|b l Hb _ IH]; [done|].
  rewrite filter_cons_False; [done|]. by intros Hn.
Qed.

Lemma valid_bids_of_some self (all_bids : list Bid.t) b :
  b ∈ all_bids -> Bid.agent_id b ∉ failed_agents self -> valid_bids_of self all_bids ≠ [].
Proof.
  intros Hin Hok Hnil.
  assert (b ∈ valid_bids_of self all_bids) as Hb by (by apply list_elem_of_filter).
  rewrite Hnil in Hb. by apply not_elem_of_nil in Hb.
Qed.

(** C3 (as amended): for a pending task that is neither completed nor
    cancelled, [allocate_task] leaves the coordinator as it is, the entry of
    the task in [pending_tasks] included, and publishes nothing, both when
    the task has no bid at all and when it has bids but every bidder is in
    [failed_agents]. *)
Theorem allocate_task_without_valid_bid o task_id task_info self :
  pending_tasks self !! task_id = Some task_info ->
  task_id ∉ completed_task_ids self ->
  task_id ∉ cancelled_task_ids self ->
  (bids task_info = [] -> allocate_task o task_id self = (Ret tt, self, []))
  /\ (bids task_info ≠ [] ->
      Forall (fun b => Bid.agent_id b ∈ failed_agents self) (bids task_info) ->
      allocate_task o task_id self = (Ret tt, self, [])).
Proof.
  intros Hpending Hcompleted Hcancelled.
  assert (Forall (fun b => Bid.agent_id b ∈ failed_agents self) (bids task_info) ->
          allocate_task o task_id self = (Ret tt, self, [])) as Hnone.
  { intros Hfailed. unfold allocate_task. mred. rewrite Hpending.
    rewrite !bool_decide_eq_false_2 by done.
    rewrite (valid_bids_of_none _ _ Hfailed).
    rewrite bool_decide_eq_true_2 by done.
    by destruct (negb _). }
  split.
  - intros Hempty. apply Hnone. rewrite Hempty. constructor.
  - intros _. exact Hnone.
Qed.

(** C4 (as amended): for a pending task that is neither completed nor
    cancelled and has a bid from an agent that is not in [failed_agents],
    [allocate_task] stores in [task_bids] the bids of the agents that are
    not failed, sorted by ascending [bid_value] with equal values in their
    order of arrival, publishes one reliable allocation, addressed to the
    bidder at the head of that list, whose bid is a lowest one, and removes
    the task from [pending_tasks]. *)
Theorem allocate_task_lowest_bid o task_id task_info self :
  pending_tasks self !! task_id = Some task_info ->
  task_id ∉ completed_task_ids self ->
  task_id ∉ cancelled_task_ids self ->
  (exists b, b ∈ bids task_info /\ Bid.agent_id b ∉ failed_agents self) ->
  exists winning_bid others self',
    let valid_bids := valid_bids_of self (bids task_info) in
    let sorted_bids := winning_bid :: others in
    allocate_task o task_id self
    = (Ret tt, self',
       [Publish "allocations"
          (Message_to_dict (time_time o) (uuid4 o 0) TASK_ALLOCATION "coordinator"
             {| Payload.task := Some (task task_info);
                Payload.agent_id := Some (Bid.agent_id winning_bid);
                Payload.winning_bid := Some winning_bid; Payload.bid := None;
                Payload.heartbeat := None; Payload.event_type := None;
                Payload.data := None |} true)
          true])
    /\ task_bids self' !! task_id = Some sorted_bids
    /\ sorted_bids ≡ₚ valid_bids
    /\ StronglySorted bid_le sorted_bids
    /\ (forall v, List.filter (has_bid_value v) sorted_bids
                  = List.filter (has_bid_value v) valid_bids)
    /\ (forall b, b ∈ valid_bids -> bid_le winning_bid b)
    /\ pending_tasks self' = delete task_id (pending_tasks self).
Proof.
  intros Hpending Hcompleted Hcancelled (b & Hb & Hok).
  pose proof (valid_bids_of_some self _ b Hb Hok) as Hvalid.
  pose proof (sorted_by_bid_value_perm (valid_bids_of self (bids task_info))) as Hperm.
  pose proof (sorted_by_bid_value_sorted (valid_bids_of self (bids task_info))) as Hsorted.
  pose proof (fun v => sorted_by_bid_value_stable v (valid_bids_of self (bids task_info)))
    as Hstable.
  destruct (sorted_by_bid_value (valid_bids_of self (bids task_info)))
    as [|winning_bid others] eqn:Hsort.
  { by apply Permutation_nil in Hperm. }
  destruct (_send_allocation_spec o (task task_info) (Bid.agent_id winning_bid) winning_bid
              (length (bids task_info))
              (set_task_bids (<[ task_id := winning_bid :: others ]> (task_bids self)) self))
    as (self1 & Hsend & Hpending1 & Hbids1).
  exists winning_bid, others, (set_pending_tasks (delete task_id (pending_tasks self1)) self1).
  cbv zeta. split; [|split; [|split; [|split; [|split; [|split]]]]].
  - unfold allocate_task. mred. rewrite Hpending.
    rewrite !bool_decide_eq_false_2 by done.
    rewrite Hsort. cbn [lookup list_lookup]. mred. rewrite Hsend. reflexivity.
  - coordinator_fields. rewrite Hbids1. coordinator_fields. apply lookup_insert_eq.
  - exact Hperm.
  - exact Hsorted.
  - exact Hstable.
  - intros c Hc. rewrite <- Hperm in Hc.
    apply StronglySorted_inv in Hsorted as [_ Hall].
    apply elem_of_cons in Hc as [->|Hc]; [apply Qle_refl|].
    rewrite Forall_forall in Hall. by apply Hall.
  - coordinator_fields. by rewrite Hpending1.
Qed.

(** C9: a bid for a task that is not a key of [pending_tasks] leaves the
    whole coordinator as it is ([pending_tasks], [task_bids] and the
    activity log with it) and publishes nothing. *)
Theorem late_bid_is_dropped o message_data bid_data self :
  Payload.bid (MessageData.payload message_data) = Some bid_data ->
  pending_tasks self !! Bid.task_id bid_data = None ->
  handle_bid o message_data self = (Ret tt, self, []).
Proof.
  intros Hbid Hnone. unfold handle_bid.
  destruct (negb _); [reflexivity|].
  mred. rewrite Hbid. by rewrite Hnone.
Qed.

(** C3, as stated, fails when the task has no bid: the entry of the task
    stays in [pending_tasks]. *)
Lemma allocate_task_keeps_task_without_bids :
  let task_info := {| task := sample_task "t1"; bids := []; broadcast_at := 0 |} in
  pending_tasks coordinator_without_bids !! "t1" = Some task_info
  /\ ("t1" ∉ completed_task_ids coordinator_without_bids)
  /\ ("t1" ∉ cancelled_task_ids coordinator_without_bids)
  /\ pending_tasks (state_of (allocate_task noon "t1" coordinator_without_bids)) !! "t1"
     = Some task_info
  /\ pending_tasks (state_of (allocate_task noon "t1" coordinator_without_bids)) !! "t1"
     ≠ None.
Proof.
  cbv zeta. split; [reflexivity|].
  split; [refine (bool_decide_unpack _ _); vm_compute; exact I|].
  split; [refine (bool_decide_unpack _ _); vm_compute; exact I|].
  split; [reflexivity|].
  intros H. vm_compute in H. discriminate.
Qed.

(** C4, as stated, fails for a task that is already in
    [completed_task_ids] (or in [cancelled_task_ids]): its bid from an agent
    that is not failed is not sorted into [task_bids], and no allocation is
    published. *)
Lemma allocate_task_skips_completed_task :
  let b := sample_bid "agent_1" "t1" 1 in
  pending_tasks coordinator_task_completed !! "t1"
  = Some {| task := sample_task "t1"; bids := [b]; broadcast_at := 0 |}
  /\ (Bid.agent_id b ∉ failed_agents coordinator_task_completed)
  /\ events_of (allocate_task noon "t1" coordinator_task_completed) = []
  /\ task_bids (state_of (allocate_task noon "t1" coordinator_task_completed)) !! "t1" = None.
Proof.
  cbv zeta. split; [reflexivity|].
  split; [refine (bool_decide_unpack _ _); vm_compute; exact I|].
  split; reflexivity.
Qed.

(** With the bids 12, 3 and 3, the two bids of 3 come first, in their order
    of arrival, and the first of them wins. *)
Example allocate_task_three_bids :
  let after := allocate_task noon "t1" coordinator_with_three_bids in
  task_bids (state_of after) !! "t1"
  = Some [sample_bid "agent_2" "t1" 3; sample_bid "agent_3" "t1" 3;
          sample_bid "agent_1" "t1" 12]
  /\ events_of after
     = [Publish "allocations"
          (task_allocation_message "uuid" "t1" "agent_2" (sample_bid "agent_2" "t1" 3)) true].
Proof. split; reflexivity. Qed.

(** *** The theorems at concrete coordinators *)

Lemma allocate_task_without_valid_bid_witness :
  allocate_task noon "t1" coordinator_without_bids = (Ret tt, coordinator_without_bids, [])
  /\ allocate_task noon "t1" coordinator_bidder_failed
     = (Ret tt, coordinator_bidder_failed, []).
Proof.
  split.
  - refine (proj1 (allocate_task_without_valid_bid noon "t1"
                     {| task := sample_task "t1"; bids := []; broadcast_at := 0 |}
                     coordinator_without_bids _ _ _) _).
    + reflexivity.
    + refine (bool_decide_unpack _ _). vm_compute. exact I.
    + refine (bool_decide_unpack _ _). vm_compute. exact I.
    + reflexivity.
  - refine (proj2 (allocate_task_without_valid_bid noon "t1"
                     {| task := sample_task "t1"; bids := [sample_bid "agent_1" "t1" 1];
                        broadcast_at := 0 |}
                     coordinator_bidder_failed _ _ _) _ _).
    + reflexivity.
    + refine (bool_decide_unpack _ _). vm_compute. exact I.
    + refine (bool_decide_unpack _ _). vm_compute. exact I.
    + discriminate.
    + constructor; [|constructor].
      refine (bool_decide_unpack _ _). vm_compute. exact I.
Defined.

Lemma allocate_task_lowest_bid_witness :
  exists winning_bid others self',
    events_of (allocate_task noon "t1" coordinator_with_three_bids)
    = [Publish "allocations"
         (task_allocation_message "uuid" "t1" (Bid.agent_id winning_bid) winning_bid) true]
    /\ task_bids self' !! "t1" = Some (winning_bid :: others)
    /\ StronglySorted bid_le (winning_bid :: others).
Proof.
  destruct (allocate_task_lowest_bid noon "t1"
              {| task := sample_task "t1";
                 bids := [sample_bid "agent_1" "t1" 12; sample_bid "agent_2" "t1" 3;
                          sample_bid "agent_3" "t1" 3];
                 broadcast_at := 0 |}
              coordinator_with_three_bids)
    as (winning_bid & others & self' & Hrun & Hbids & _ & Hsorted & _).
  - reflexivity.
  - refine (bool_decide_unpack _ _). vm_compute. exact I.
  - refine (bool_decide_unpack _ _). vm_compute. exact I.
  - exists (sample_bid "agent_2" "t1" 3). split.
    + cbn [bids]. apply elem_of_cons. right. apply elem_of_cons. by left.
    + refine (bool_decide_unpack _ _). vm_compute. exact I.
  - exists winning_bid, others, self'. rewrite Hrun. by split.
Defined.

Lemma late_bid_is_dropped_witness :
  handle_bid noon (bid_message "agent_1" "t9" 1) coordinator_without_bids
  = (Ret tt, coordinator_without_bids, []).
Proof.
  apply (late_bid_is_dropped noon _ (sample_bid "agent_1" "t9" 1)); reflexivity.
Defined.

End coordinator_properties.

(** ** The in-memory broker *)

Section broker_properties.
Import InMemoryBroker.

Ltac broker_fields :=
  cbn [subscribers message_queues pending_acks ack_timeout max_retries running lock
       set_subscribers set_message_queues set_pending_acks set_running set_lock] in *.

Lemma unlock_locked self : lock self = false -> set_lock false (set_lock true self) = self.
Proof. destruct self. broker_fields. by intros ->. Qed.

Lemma unlock_set_pending_acks acks self :
  lock self = false ->
  set_lock false (set_pending_acks acks (set_lock true self)) = set_pending_acks acks self.
Proof. destruct self. broker_fields. by intros ->. Qed.

(** What [handle_ack] does when the mutex is free. *)
Lemma handle_ack_spec ack_for self :
  lock self = false ->
  handle_ack ack_for self
  = match pending_acks self !! ack_for, ack_for with
    | None, _ => (Ret tt, self, [])
    | Some _, Some m =>
        (Ret tt, set_pending_acks (delete ack_for (pending_acks self)) self,
         [Log (received_ack (substring 0 8 m))])
    | Some _, None =>
        (Raised (TypeError "'NoneType' object is not subscriptable"), self, [])
    end.
Proof.
  intros Hlock. unfold handle_ack, with_lock. rewrite Hlock. mred. broker_fields.
  destruct (pending_acks self !! ack_for) as [info|] eqn:Hlookup.
  - rewrite bool_decide_eq_true_2 by by eexists.
    destruct ack_for as [m|]; simpl; mred.
    + by rewrite unlock_set_pending_acks.
    + by rewrite unlock_locked.
  - rewrite bool_decide_eq_false_2 by (by intros [? ?]).
    by rewrite unlock_locked.
Qed.

(** C6: with the mutex of the broker free, an acknowledgment for
    [msg_id] returns without error and leaves the table without the entry
    of [msg_id] and with every other entry as it was; a second
    acknowledgment for [msg_id] changes nothing; and an acknowledgment whose
    [ack_for] is not in the table changes nothing.  None of them raises. *)
Theorem handle_ack_idempotent (msg_id : string) (ack_for : option string) self :
  lock self = false ->
  let acked := set_pending_acks (delete (Some msg_id) (pending_acks self)) self in
  (exists log, handle_ack (Some msg_id) self = (Ret tt, acked, log))
  /\ pending_acks acked !! Some msg_id = None
  /\ (forall k, k ≠ Some msg_id -> pending_acks acked !! k = pending_acks self !! k)
  /\ handle_ack (Some msg_id) acked = (Ret tt, acked, [])
  /\ (pending_acks self !! ack_for = None -> handle_ack ack_for self = (Ret tt, self, [])).
Proof.
  intros Hlock acked. subst acked. repeat split.
  - rewrite handle_ack_spec by done.
    destruct (pending_acks self !! Some msg_id) eqn:Hlookup; [by eexists|].
    exists []. rewrite delete_id by done. by destruct self.
  - broker_fields. apply lookup_delete_eq.
  - intros k Hk. broker_fields. by apply lookup_delete_ne.
  - rewrite handle_ack_spec by (by destruct self).
    broker_fields. by rewrite lookup_delete_eq.
  - intros Hnone. rewrite handle_ack_spec by done. by rewrite Hnone.
Qed.

Lemma handle_ack_idempotent_witness :
  exists log,
    handle_ack (Some "a-t1") broker_with_pending
    = (Ret tt, set_pending_acks (delete (Some "a-t1") (pending_acks broker_with_pending))
                 broker_with_pending, log).
Proof.
  apply (handle_ack_idempotent "a-t1" None broker_with_pending). reflexivity.
Defined.

(** *** check_timeouts holds the mutex that publish takes *)

(** [publish] of a message that asks for an acknowledgment, made while the
    mutex is held, never returns. *)
Lemma publish_reliable_while_locked o to_channel msg self :
  lock self = true ->
  running self = true ->
  MessageData.requires_ack msg = true ->
  publish o to_channel msg true self = (Blocked, self, []).
Proof.
  intros Hlock Hrun Hack. unfold publish, with_lock. mred.
  rewrite Hrun, Hack. cbn [negb andb]. by rewrite Hlock.
Qed.

(** An entry that is due blocks the loop. *)
Lemma check_timeout_of_due o self0 self m info :
  inside_check_timeouts self0 self ->
  due_for_retransmission o self0 info ->
  outcome_of (check_timeout_of o (Some m, info) self) = Blocked.
Proof.
  intros (Hlock & Hrun & Hto & Hmax) (Hlate & Hretries & Hack).
  unfold check_timeout_of, try_except. mred.
  rewrite Hto, Hlate, Hmax, Hretries. cbn [slice8]. mred.
  rewrite publish_reliable_while_locked by done. reflexivity.
Qed.

(** Any other entry lets the loop go on, or blocks it as well. *)
Lemma check_timeout_of_step o self0 self m info :
  inside_check_timeouts self0 self ->
  outcome_of (check_timeout_of o (Some m, info) self) = Blocked
  \/ exists self' log,
       check_timeout_of o (Some m, info) self = (Ret tt, self', log)
       /\ inside_check_timeouts self0 self'.
Proof.
  intros (Hlock & Hrun & Hto & Hmax).
  unfold check_timeout_of, try_except. mred.
  destruct (Qgtb _ _); [|right; by eexists _, _].
  destruct (_ <? _)%Z; cbn [slice8]; mred.
  - unfold publish. mred. rewrite Hrun. cbn [negb].
    destruct (MessageData.requires_ack (message info)); cbn [andb].
    + left. unfold with_lock. by rewrite Hlock.
    + right. mred. broker_fields. by eexists _, _.
  - right. broker_fields. by eexists _, _.
Qed.

Lemma for_each_check_timeout_of_blocks o self0 self entries m info :
  inside_check_timeouts self0 self ->
  Forall (fun entry => is_Some entry.1) entries ->
  (Some m, info) ∈ entries ->
  due_for_retransmission o self0 info ->
  outcome_of (for_each entries (check_timeout_of o) self) = Blocked.
Proof.
  intros Hinside Hkeys Hin Hdue. revert self Hinside.
  induction entries as [|[k info'] entries IH]; intros self Hinside.
  { by apply not_elem_of_nil in Hin. }
  apply Forall_cons in Hkeys as [[m' Hm'] Hkeys]. simpl in Hm'. subst k.
  cbn [for_each]. mred.
  apply elem_of_cons in Hin as [Hhead|Htail].
  - inversion Hhead; subst m' info'.
    pose proof (check_timeout_of_due o self0 self m info Hinside Hdue) as Hblocked.
    destruct (check_timeout_of o (Some m, info) self) as [[[]] log]; by inversion Hblocked.
  - destruct (check_timeout_of_step o self0 self m' info' Hinside)
      as [Hblocked|(self' & log & -> & Hinside')].
    + destruct (check_timeout_of o (Some m', info') self) as [[[]] log]; by inversion Hblocked.
    + specialize (IH Hkeys Htail self' Hinside').
      destruct (for_each entries (check_timeout_of o) self') as [[[]] log']; by inversion IH.
Qed.

(** Whenever a listening broker holds an entry that is due, [check_timeouts]
    does not return: it takes the mutex and calls [publish], which waits for
    the same mutex. *)
Lemma check_timeouts_blocks o self m info :
  running self = true ->
  lock self = false ->
  keys_are_ids self ->
  pending_acks self !! Some m = Some info ->
  due_for_retransmission o self info ->
  outcome_of (check_timeouts o self) = Blocked.
Proof.
  intros Hrun Hlock Hkeys Hlookup Hdue.
  unfold check_timeouts, with_lock. mred. rewrite Hrun. cbn [negb]. cbv beta.
  rewrite Hlock. broker_fields.
  assert (outcome_of (for_each (map_to_list (pending_acks self)) (check_timeout_of o)
                        (set_lock true self)) = Blocked) as Hloop.
  { apply (for_each_check_timeout_of_blocks o self _ _ m info).
    - by destruct self.
    - apply Forall_forall. intros [k info'] Hin. apply Hkeys.
      apply elem_of_map_to_list in Hin. by eexists.
    - by apply elem_of_map_to_list.
    - done. }
  destruct (for_each _ _ _) as [[r self'] log]. cbn in Hloop. by subst r.
Qed.

(** C2 fails on the code.  The allocation ["a-t1"] was published reliably at
    time 0 and has not been acknowledged.  At time 6 [check_timeouts] takes
    the mutex, finds the entry due and calls [publish], which waits for the
    mutex: the call never returns.  Nothing has been put on the queue, the
    entry is still in the table with [retries = 0], and the mutex stays
    held, so that the acknowledgment and every later [check_timeouts] wait
    for ever as well: the message is neither sent again nor dropped. *)
Theorem check_timeouts_never_retransmits :
  let stuck := check_timeouts six_seconds_later broker_with_pending in
  pending_acks broker_with_pending !! Some "a-t1"
  = Some {| channel := "allocations"; message := allocation_a_t1;
            sent_at := 0; retries := 0 |}
  /\ running broker_with_pending = true
  /\ lock broker_with_pending = false
  /\ outcome_of stuck = Blocked
  /\ lock (state_of stuck) = true
  /\ message_queues (state_of stuck) = message_queues broker_with_pending
  /\ pending_acks (state_of stuck) = pending_acks broker_with_pending
  /\ outcome_of (handle_ack (Some "a-t1") (state_of stuck)) = Blocked
  /\ outcome_of (check_timeouts (seconds_later 12) (state_of stuck)) = Blocked.
Proof. cbv zeta. repeat split; reflexivity. Qed.

(** The general lemma at that broker. *)
Example check_timeouts_blocks_at_six_seconds :
  outcome_of (check_timeouts six_seconds_later broker_with_pending) = Blocked.
Proof.
  apply (check_timeouts_blocks six_seconds_later broker_with_pending "a-t1"
           {| channel := "allocations"; message := allocation_a_t1;
              sent_at := 0; retries := 0 |}).
  - reflexivity.
  - reflexivity.
  - intros [m|] [info Hinfo]; [by eexists|]. vm_compute in Hinfo. discriminate.
  - reflexivity.
  - repeat split.
Qed.

End broker_properties.

(** ** The two branches of ReliableBroker *)

(** One step of the loop of the Redis branch of [check_timeouts], with the
    connection up: an entry that has waited longer than [ack_timeout] is
    sent again and counted while [retries < max_retries], and removed
    otherwise. *)
Lemma redis_check_timeout_of_spec o self m info :
  ReliableBroker.check_timeout_of o true (Some m, info) self
  = if Qgtb (time_time o - InMemoryBroker.sent_at info) (ReliableBroker.ack_timeout self)
    then
      if (InMemoryBroker.retries info <? ReliableBroker.max_retries self)%Z
      then
        (Ret tt,
         ReliableBroker.set_pending_acks
           (alter (fun info =>
                     {| InMemoryBroker.channel := InMemoryBroker.channel info;
                        InMemoryBroker.message := InMemoryBroker.message info;
                        InMemoryBroker.sent_at := time_time o;
                        InMemoryBroker.retries := InMemoryBroker.retries info + 1 |})
              (Some m) (ReliableBroker.pending_acks self)) self,
         [ReliableBroker.Log
            (InMemoryBroker.timeout_retransmitting (substring 0 8 m)
               (InMemoryBroker.retries info + 1));
          ReliableBroker.RedisPublish (InMemoryBroker.channel info)
            (InMemoryBroker.message info)])
      else
        (Ret tt,
         ReliableBroker.set_pending_acks
           (delete (Some m) (ReliableBroker.pending_acks self)) self,
         [ReliableBroker.Log
            (InMemoryBroker.failed_after_retries (substring 0 8 m)
               (ReliableBroker.max_retries self))])
    else (Ret tt, self, []).
Proof.
  unfold ReliableBroker.check_timeout_of, ReliableBroker.redis_client_publish, try_except.
  mred. destruct (Qgtb _ _); [|reflexivity].
  destruct (_ <? _)%Z; reflexivity.
Qed.

(** On Redis the same unacknowledged message is sent again at 6, 12 and
    18 seconds, with [retries] going from 0 to 3, and its entry is removed
    at 24 seconds; in memory the first check never returns. *)
Example reliable_broker_retransmissions :
  let tick n self := ReliableBroker.check_timeouts (seconds_later n) true self in
  let redis := reliable_broker_with_pending true in
  let at6 := tick 6 redis in
  let at12 := tick 12 (state_of at6) in
  let at18 := tick 18 (state_of at12) in
  let at24 := tick 24 (state_of at18) in
  redis_publications (events_of at6) = [allocation_a_t1]
  /\ redis_publications (events_of at12) = [allocation_a_t1]
  /\ redis_publications (events_of at18) = [allocation_a_t1]
  /\ redis_publications (events_of at24) = []
  /\ InMemoryBroker.retries <$> ReliableBroker.pending_acks (state_of at18) !! Some "a-t1"
     = Some 3
  /\ ReliableBroker.pending_acks (state_of at24) !! Some "a-t1" = None
  /\ outcome_of (tick 6 (reliable_broker_with_pending false)) = Blocked.
Proof. cbv zeta. repeat split; reflexivity. Qed.

(** * Further properties *)

(** ** Agents: bidding *)

Ltac agent_fields' :=
  cbn [Agent.agent_id Agent.current_load Agent.max_load Agent.assigned_tasks
       Agent.completed_tasks Agent.running_tasks Agent.allocated_task_ids
       Agent.processed_message_ids Agent.bid_task_ids Agent.is_alive Agent.is_crashed
       Agent.auto_recover_enabled Agent.auto_recover_delay Agent.crash_time
       Agent.last_heartbeat Agent.heartbeat_interval Agent.stream_interval
       Agent.total_cpu_time Agent.total_memory_used
       Agent.set_current_load Agent.set_assigned_tasks Agent.set_completed_tasks
       Agent.set_running_tasks Agent.set_allocated_task_ids Agent.set_processed_message_ids
       Agent.set_bid_task_ids Agent.set_is_alive Agent.set_is_crashed
       Agent.set_auto_recover_enabled Agent.set_auto_recover_delay Agent.set_crash_time
       Agent.set_last_heartbeat Agent.set_total_cpu_time] in *.

Ltac agent_handlers :=
  unfold Agent.handle_task_broadcast, Agent.handle_task_allocation, Agent.ack_if_required,
    Agent.send_ack, Agent.send_bid, Agent.emit_event, Agent.broker_publish.

Ltac agent_cases := repeat (mcase; mred; agent_fields').

Section agent_bidding.
Import Agent.

(** X1: an agent that is crashed, or whose load has reached [max_load]
    (with [max_load = 0]: always), publishes no bid, whatever it is sent. *)
Theorem no_bid_when_crashed_or_full o message_data self :
  is_crashed self = true \/ (max_load self <= current_load self)%Z ->
  published_bids (events_of (handle_task_broadcast o message_data self)) = [].
Proof.
  intros Hbusy. agent_handlers. mred. agent_cases; try reflexivity.
  all: exfalso; destruct Hbusy as [Hc|Hfull]; [congruence|].
  all: match goal with H : (_ <? _)%Z = true |- _ => apply Z.ltb_lt in H; lia end.
Qed.

Lemma no_bid_for_known_task o message_data task self :
  Payload.task (MessageData.payload message_data) = Some task ->
  Task.task_id task ∈ bid_task_ids self ∪ allocated_task_ids self ->
  published_bids (events_of (handle_task_broadcast o message_data self)) = [].
Proof.
  intros Htask Hknown.
  assert (bool_decide (Task.task_id task ∈ bid_task_ids self)
          || bool_decide (Task.task_id task ∈ allocated_task_ids self) = true) as Hb.
  { apply elem_of_union in Hknown as [H|H].
    - by rewrite (bool_decide_eq_true_2 _ H).
    - rewrite (bool_decide_eq_true_2 _ H). apply orb_true_r. }
  agent_handlers. mred. rewrite Htask.
  destruct (negb _); [reflexivity|]. mred.
  destruct (truthy _ && in_ids _ _); [reflexivity|].
  destruct (truthy (MessageData.msg_id message_data)); mred; agent_fields';
    (destruct (is_crashed self); [agent_cases; reflexivity|]);
    mred; agent_fields'; rewrite Hb; agent_cases; reflexivity.
Qed.

(** X3: a new broadcast for a new task, received by an agent that is not
    crashed and has spare capacity, is answered by the acknowledgment, if
    one is asked for, and then by exactly one bid, of value
    [current_load * 10] plus the random draw, that carries the agent, the
    task, the load and the estimated time of the task; the task is recorded
    in [bid_task_ids] and the message in [processed_message_ids]. *)
Theorem bid_for_new_task o message_data task self :
  MessageData.msg_type message_data = value TASK_BROADCAST ->
  Payload.task (MessageData.payload message_data) = Some task ->
  truthy (MessageData.msg_id message_data) = true ->
  in_ids (MessageData.msg_id message_data) (processed_message_ids self) = false ->
  is_crashed self = false ->
  Task.task_id task ∉ bid_task_ids self ->
  Task.task_id task ∉ allocated_task_ids self ->
  (current_load self < max_load self)%Z ->
  handle_task_broadcast o message_data self
  = (Ret tt,
     set_bid_task_ids ({[ Task.task_id task ]} ∪ bid_task_ids self)
       (set_processed_message_ids
          (add_id (MessageData.msg_id message_data) (processed_message_ids self)) self),
     acks_for o self message_data
     ++ [Publish "bids"
           (Message_to_dict (time_time o) (uuid4 o 0) BID (agent_id self)
              {| Payload.task := None; Payload.agent_id := None;
                 Payload.winning_bid := None;
                 Payload.bid :=
                   Some {| Bid.agent_id := agent_id self;
                           Bid.task_id := Task.task_id task;
                           Bid.bid_value :=
                             (inject_Z (current_load self * 10) + random_uniform o 0 5)%Q;
                           Bid.current_load := current_load self;
                           Bid.estimated_completion_time := Task.estimated_time task |};
                 Payload.heartbeat := None; Payload.event_type := None;
                 Payload.data := None |} false)
           false]).
Proof.
  intros Hty Htask Ht Hnew Hcrashed Hbid Halloc Hload.
  apply Z.ltb_lt in Hload.
  destruct (truthy_is_Some _ Ht) as (m & Hm & _).
  agent_handlers. unfold acks_for, ack_message. mred.
  rewrite Hty, String.eqb_refl. cbn [negb]. mred.
  rewrite Ht, Hnew, Htask. cbn [andb]. mred. agent_fields'.
  rewrite Hcrashed. mred. agent_fields'.
  rewrite !bool_decide_eq_false_2 by done. cbn [orb]. mred. agent_fields'.
  destruct (MessageData.requires_ack message_data); rewrite ?Hm; mred; agent_fields';
    rewrite Hload; reflexivity.
Qed.

(** A task broadcast whose payload has no task makes the handler of an
    agent that is not crashed raise [KeyError], but only after the message
    has been recorded as processed, so that when the same message is
    delivered again it is dropped without any effect. *)
Lemma broadcast_without_task_is_recorded o1 o2 message_data self :
  MessageData.msg_type message_data = value TASK_BROADCAST ->
  Payload.task (MessageData.payload message_data) = None ->
  truthy (MessageData.msg_id message_data) = true ->
  in_ids (MessageData.msg_id message_data) (processed_message_ids self) = false ->
  is_crashed self = false ->
  let recorded :=
    set_processed_message_ids
      (add_id (MessageData.msg_id message_data) (processed_message_ids self)) self in
  handle_task_broadcast o1 message_data self = (Raised (KeyError "task"), recorded, [])
  /\ handle_task_broadcast o2 message_data recorded = (Ret tt, recorded, []).
Proof.
  intros Hty Htask Ht Hnew Hcrashed recorded. split.
  - agent_handlers. mred.
    rewrite Hty, String.eqb_refl. cbn [negb]. mred.
  rewrite Ht, Hnew, Htask. cbn [andb]. mred. agent_fields'.
    by rewrite Hcrashed.
  - apply handle_task_broadcast_seen; [done|].
    subst recorded. agent_fields'. by apply in_ids_add_id.
Qed.

End agent_bidding.

(** ** Agents: allocations *)

Section agent_allocations.
Import Agent.

(** An allocation addressed to another agent is ignored altogether: no
    field changes and nothing is published, not even the acknowledgment. *)
Lemma allocation_for_another_agent o message_data other self :
  Payload.agent_id (MessageData.payload message_data) = Some other ->
  other ≠ agent_id self ->
  handle_task_allocation o message_data self = (Ret tt, self, []).
Proof.
  intros Hagent Hother. agent_handlers. mred. rewrite Hagent.
  destruct (negb _); [reflexivity|]. mred.
  by destruct (String.eqb_spec other (agent_id self)).
Qed.

(** X4: an agent that is not crashed accepts a new allocation addressed to
    it for a task it does not hold: the load grows by one, the task enters
    [allocated_task_ids] and the end of [assigned_tasks], the message is
    recorded, the acknowledgment is sent if asked for and the execution
    thread is started. *)
Theorem allocation_accepted o message_data task self :
  MessageData.msg_type message_data = value TASK_ALLOCATION ->
  Payload.agent_id (MessageData.payload message_data) = Some (agent_id self) ->
  Payload.task (MessageData.payload message_data) = Some task ->
  truthy (MessageData.msg_id message_data) = true ->
  in_ids (MessageData.msg_id message_data) (processed_message_ids self) = false ->
  Task.task_id task ∉ allocated_task_ids self ->
  is_crashed self = false ->
  handle_task_allocation o message_data self
  = (Ret tt,
     set_current_load (current_load self + 1)
       (set_assigned_tasks (assigned_tasks self ++ [task])
          (set_allocated_task_ids ({[ Task.task_id task ]} ∪ allocated_task_ids self)
             (set_processed_message_ids
                (add_id (MessageData.msg_id message_data) (processed_message_ids self))
                self))),
     acks_for o self message_data ++ [ThreadStart (execute_task_thread task)]).
Proof.
  intros Hty Hagent Htask Ht Hnew Halloc Hcrashed.
  agent_handlers. unfold acks_for, ack_message. mred.
  rewrite Hty, String.eqb_refl, Hagent. cbn [negb]. mred.
  rewrite String.eqb_refl, Ht, Hnew, Htask. cbn [negb andb]. mred.
  rewrite bool_decide_eq_false_2 by done. mred. agent_fields'. rewrite Hcrashed.
  destruct (MessageData.requires_ack message_data); reflexivity.
Qed.

Lemma discard_added (x : string) (ids : gset string) :
  x ∉ ids -> ({[ x ]} ∪ ids) ∖ {[ x ]} = ids.
Proof.
  intros Hx. apply set_eq. intros y.
  rewrite elem_of_difference, elem_of_union, elem_of_singleton. split.
  - by intros [[->|Hy] Hne].
  - intros Hy. split; [by right|]. by intros ->.
Qed.

(** X5: a crashed agent refuses such an allocation: its load and
    [allocated_task_ids] end as they were, no thread is started and the
    acknowledgment is still sent if asked for; but the task stays appended
    to [assigned_tasks] and the message stays recorded as processed. *)
Theorem allocation_refused_when_crashed o message_data task self :
  MessageData.msg_type message_data = value TASK_ALLOCATION ->
  Payload.agent_id (MessageData.payload message_data) = Some (agent_id self) ->
  Payload.task (MessageData.payload message_data) = Some task ->
  truthy (MessageData.msg_id message_data) = true ->
  in_ids (MessageData.msg_id message_data) (processed_message_ids self) = false ->
  Task.task_id task ∉ allocated_task_ids self ->
  is_crashed self = true ->
  exists self',
    handle_task_allocation o message_data self = (Ret tt, self', acks_for o self message_data)
    /\ current_load self' = current_load self
    /\ allocated_task_ids self' = allocated_task_ids self
    /\ bid_task_ids self' = bid_task_ids self
    /\ running_tasks self' = running_tasks self
    /\ assigned_tasks self' = assigned_tasks self ++ [task]
    /\ processed_message_ids self'
       = add_id (MessageData.msg_id message_data) (processed_message_ids self)
    /\ is_crashed self' = true.
Proof.
  intros Hty Hagent Htask Ht Hnew Halloc Hcrashed.
  eexists. split.
  - agent_handlers. unfold acks_for, ack_message. mred.
    rewrite Hty, String.eqb_refl, Hagent. cbn [negb]. mred.
    rewrite String.eqb_refl, Ht, Hnew, Htask. cbn [negb andb]. mred.
    rewrite bool_decide_eq_false_2 by done. mred. agent_fields'. rewrite Hcrashed.
    destruct (MessageData.requires_ack message_data); reflexivity.
  - agent_fields'. split; [lia|]. split; [by apply discard_added|done].
Qed.

(** An allocation for a task that is already in [allocated_task_ids]
    changes nothing, whatever its [msg_id], which is not even recorded; the
    acknowledgment is sent if asked for and no second thread is started. *)
Lemma allocation_of_held_task o message_data task self :
  MessageData.msg_type message_data = value TASK_ALLOCATION ->
  Payload.agent_id (MessageData.payload message_data) = Some (agent_id self) ->
  Payload.task (MessageData.payload message_data) = Some task ->
  in_ids (MessageData.msg_id message_data) (processed_message_ids self) = false ->
  Task.task_id task ∈ allocated_task_ids self ->
  handle_task_allocation o message_data self = (Ret tt, self, acks_for o self message_data).
Proof.
  intros Hty Hagent Htask Hnew Halloc.
  agent_handlers. unfold acks_for, ack_message. mred.
  rewrite Hty, String.eqb_refl, Hagent. cbn [negb]. mred.
  rewrite String.eqb_refl, Hnew, Htask, andb_false_r. cbn [negb]. mred.
  rewrite bool_decide_eq_true_2 by done.
  destruct (MessageData.requires_ack message_data); reflexivity.
Qed.

End agent_allocations.

(** ** Agents: execution, crash and recovery *)

Ltac agent_lifecycle :=
  unfold Agent.perform, Agent.discard, Agent.handle_heartbeat_request,
    Agent.execute_task_begin, Agent.execute_task_slice, Agent.execute_task_end,
    Agent.execute_task_final_check, Agent.execute_task_complete,
    Agent.execute_task_cancel, Agent.execute_task_finally, Agent.heartbeat_loop_iteration,
    Agent.crash, Agent.recover, Agent.stop, Agent.send_heartbeat, Agent.emit_event,
    Agent.broker_publish, Agent.stop_flag_is_set.

Section agent_lifecycle.
Import Agent.

(** X6: a task that an agent accepts and runs to its end without a crash
    leaves the load as it was before the allocation; the task is then the
    last of [completed_tasks], out of [allocated_task_ids] and out of
    [running_tasks], and one [task_completed] event has been published. *)
Theorem accepted_task_runs_to_completion o message_data task start self :
  MessageData.msg_type message_data = value TASK_ALLOCATION ->
  Payload.agent_id (MessageData.payload message_data) = Some (agent_id self) ->
  Payload.task (MessageData.payload message_data) = Some task ->
  truthy (MessageData.msg_id message_data) = true ->
  in_ids (MessageData.msg_id message_data) (processed_message_ids self) = false ->
  Task.task_id task ∉ allocated_task_ids self ->
  is_crashed self = false ->
  let life :=
    [op_handle_task_allocation o message_data; op_execute_task_begin o task;
     op_execute_task_slice o task 0; op_execute_task_end o task start] in
  let after := run life self in
  current_load after = current_load self
  /\ completed_tasks after = completed_tasks self ++ [task]
  /\ assigned_tasks after = assigned_tasks self ++ [task]
  /\ allocated_task_ids after = allocated_task_ids self
  /\ running_tasks after = delete (Task.task_id task) (running_tasks self)
  /\ published_event_types (run_effects life self) = ["task_completed"].
Proof.
  intros Hty Hagent Htask Ht Hnew Halloc Hcrashed life after. subst life after.
  cbn [run run_effects fold_left perform].
  rewrite (allocation_accepted o message_data task self) by done.
  unfold acks_for. agent_lifecycle. mred. agent_fields'.
  rewrite Hcrashed, lookup_insert_eq. cbn [stop_flag orb]. mred. agent_fields'.
  rewrite Hcrashed. mred. cbn [negb]. mred. agent_fields'.
  rewrite Hcrashed. cbn [negb]. mred. agent_fields'.
  split; [lia|]. split; [done|]. split; [done|].
  split; [by apply discard_added|].
  split; [by rewrite delete_insert_eq|].
  destruct (MessageData.requires_ack message_data); reflexivity.
Qed.

(** X7: [execute_task] cancels the task of an agent that is crashed when
    it looks.  At the check of a slice and at the check after the last
    slice alike the task is cancelled, the load gives the task back,
    [completed_tasks] is as it was and the event published is
    [task_cancelled].  But the check after the last slice and the
    completion are two steps, and the completion does not look again: when
    the agent crashes between the two, the task is completed all the same,
    [task_completed] is published by an agent that is crashed, and the
    [finally] clause then leaves the task in [allocated_task_ids]. *)
Theorem crash_is_tested_before_completion o o1 o2 after_delay task start elapsed self :
  (is_crashed self = true ->
   let at_slice := execute_task_slice o task elapsed self in
   let at_check := execute_task_final_check o task self in
   outcome_of at_slice = Ret true
   /\ outcome_of at_check = Ret true
   /\ published_event_types (events_of at_slice) = ["task_cancelled"]
   /\ published_event_types (events_of at_check) = ["task_cancelled"]
   /\ state_of at_slice = state_of at_check
   /\ completed_tasks (state_of at_check) = completed_tasks self
   /\ current_load (state_of at_check) = (current_load self - 1)%Z
   /\ running_tasks (state_of at_check) !! Task.task_id task = None
   /\ (Task.task_id task ∉ allocated_task_ids (state_of at_check))
   /\ (Task.task_id task ∉ bid_task_ids (state_of at_check))
   /\ execute_task_end o task start self = (Ret tt, state_of at_check, events_of at_check))
  /\ (is_crashed self = false ->
      let crashed := state_of (crash o1 after_delay self) in
      let completion := execute_task_complete o2 task start crashed in
      let finished := state_of (execute_task_finally task (state_of completion)) in
      execute_task_final_check o task self = (Ret false, self, [])
      /\ outcome_of completion = Ret tt
      /\ published_event_types (events_of completion) = ["task_completed"]
      /\ is_crashed (state_of completion) = true
      /\ completed_tasks (state_of completion) = completed_tasks self ++ [task]
      /\ current_load (state_of completion) = (current_load self - 1)%Z
      /\ is_crashed finished = true
      /\ completed_tasks finished = completed_tasks self ++ [task]
      /\ allocated_task_ids finished = allocated_task_ids self
      /\ running_tasks finished !! Task.task_id task = None).
Proof.
  split; intros Hcrashed; cbv zeta.
  - agent_lifecycle. mred. agent_fields'.
    rewrite Hcrashed, orb_true_r. mred. agent_fields'. rewrite Hcrashed. cbn [negb]. mred.
    agent_fields'.
    repeat split; try reflexivity.
    + by rewrite delete_delete_eq, lookup_delete_eq.
    + intros [_ Hne]%elem_of_difference. apply Hne. by apply elem_of_singleton.
    + intros [_ Hne]%elem_of_difference. apply Hne. by apply elem_of_singleton.
  - agent_lifecycle. mred. agent_fields'. rewrite Hcrashed.
    destruct after_delay as [delay|]; [destruct (Qeq_bool delay 0)|];
      mred; agent_fields'; cbn [negb]; mred; agent_fields';
      repeat split; try reflexivity; by rewrite lookup_delete_eq.
Qed.

(** X8: [crash] sets the stop flag of every running task and [recover]
    does not clear it: a task that was running when the agent crashed is
    cancelled at its next slice even if the agent has recovered in
    between. *)
Theorem running_task_is_cancelled_after_recovery o1 o2 o3 after_delay task elapsed info self :
  running_tasks self !! Task.task_id task = Some info ->
  let recovered := state_of (recover o2 (state_of (crash o1 after_delay self))) in
  is_crashed recovered = false
  /\ outcome_of (execute_task_slice o3 task elapsed recovered) = Ret true
  /\ published_event_types (events_of (execute_task_slice o3 task elapsed recovered))
     = ["task_cancelled"].
Proof.
  intros Hrunning. cbv zeta. agent_lifecycle. mred. agent_fields'.
  destruct after_delay as [delay|]; [destruct (Qeq_bool delay 0)|];
    mred; agent_fields'; rewrite lookup_fmap, Hrunning; cbn [fmap option_fmap option_map
      stop_flag orb]; mred; agent_fields'; repeat split; reflexivity.
Qed.


(** X10: while an agent is crashed and its recovery is not due (automatic
    recovery is off, or the delay has not passed), a turn of the heartbeat
    loop changes nothing and sends no heartbeat. *)
Theorem no_heartbeat_while_crashed o self :
  is_crashed self = true ->
  (forall since,
     crash_time self = Some since ->
     auto_recover_enabled self = true ->
     Qle_bool (auto_recover_delay self) (time_time o - since) = false) ->
  heartbeat_loop_iteration o self = (Ret tt, self, []).
Proof.
  intros Hcrashed Hnotdue. agent_lifecycle. mred. rewrite Hcrashed.
  destruct (crash_time self) as [since|] eqn:Hsince; mred; [|by rewrite Hcrashed].
  destruct (auto_recover_enabled self) eqn:Hauto; cbn [andb]; mred;
    [|by rewrite Hcrashed].
  rewrite (Hnotdue since) by done. rewrite andb_false_r. mred. by rewrite Hcrashed.
Qed.

(** X11: once the delay has passed, a turn of the heartbeat loop recovers a
    crashed agent whose automatic recovery is on: the crash state and
    [bid_task_ids] are cleared, [agent_recovered] is published, and two
    heartbeats are sent, one by [recover] and one by the loop. *)
Theorem auto_recovery_when_due o since self :
  is_crashed self = true ->
  auto_recover_enabled self = true ->
  crash_time self = Some since ->
  Qeq_bool since 0 = false ->
  Qle_bool (auto_recover_delay self) (time_time o - since) = true ->
  exists self' events,
    heartbeat_loop_iteration o self = (Ret tt, self', events)
    /\ is_crashed self' = false
    /\ crash_time self' = None
    /\ bid_task_ids self' = ∅
    /\ current_load self' = current_load self
    /\ published_event_types events = ["agent_recovered"]
    /\ length (published_on "heartbeats" events) = 2%nat.
Proof.
  intros Hcrashed Hauto Hsince Hepoch Hdue. agent_lifecycle. mred.
  rewrite Hcrashed, Hsince, Hauto, Hepoch, Hdue. cbn [andb negb]. mred.
  rewrite Hcrashed. mred. agent_fields'. cbn [negb]. mred. agent_fields'.
  eexists _, _. split; [reflexivity|]. repeat split.
Qed.

(** *** The memory of a bid *)

(** Every operation but [crash] leaves an agent that remembers its bid for
    a task such an agent. *)
Lemma perform_remembers_bid task_id op self :
  is_crash op = false ->
  remembers_bid task_id self -> remembers_bid task_id (state_of (perform op self)).
Proof.
  intros Hop (Hcrashed & Hbid & Hflag). unfold remembers_bid.
  destruct op as [o md|o md|o md|o task|o task elapsed|o task start|o task|o task start|task
                 |o|o after|o|]; try discriminate Hop; cbn [perform].
  - rewrite handle_task_broadcast_state. cbv zeta. rewrite Hcrashed.
    repeat (mcase; agent_fields'); (split; [done|split; [set_solver|done]]).
  - rewrite handle_task_allocation_state. cbv zeta. rewrite Hcrashed.
    repeat (mcase; agent_fields'); (split; [done|split; [set_solver|done]]).
  - agent_lifecycle. mred. agent_cases; done.
  - agent_lifecycle. mred. agent_fields'. split; [done|]. split; [done|].
    intros info. destruct (decide (Task.task_id task = task_id)) as [->|Hne].
    + rewrite lookup_insert_eq. by intros [= <-].
    + rewrite lookup_insert_ne by done. apply Hflag.
  - agent_lifecycle. mred. rewrite Hcrashed, orb_false_r.
    destruct (decide (Task.task_id task = task_id)) as [Heq|Hne].
    + rewrite Heq. destruct (running_tasks self !! task_id) as [info|] eqn:Hinfo.
      * rewrite (Hflag info eq_refl). mred. rewrite Hinfo. done.
      * mred. rewrite Hinfo. done.
    + agent_cases; (split; [done|]); (split; [set_solver|]);
        rewrite ?lookup_delete_ne by done; try done.
  - agent_lifecycle. mred. rewrite Hcrashed. mred. cbn [negb]. mred. agent_fields'.
    rewrite Hcrashed. cbn [negb]. mred. agent_fields'.
    split; [done|]. split; [done|]. intros info [_ Hinfo]%lookup_delete_Some. by apply Hflag.
  - agent_lifecycle. mred. rewrite Hcrashed. done.
  - agent_lifecycle. mred. agent_fields'. done.
  - agent_lifecycle. mred. agent_fields'. rewrite Hcrashed. cbn [negb]. mred. agent_fields'.
    split; [done|]. split; [done|]. intros info [_ Hinfo]%lookup_delete_Some. by apply Hflag.
  - agent_lifecycle. mred. rewrite Hcrashed.
    agent_cases; rewrite ?Hcrashed; cbn [negb]; mred; agent_fields'; done.
  - agent_lifecycle. mred. rewrite Hcrashed. mred. done.
  - agent_lifecycle. mred. agent_fields'. done.
Qed.

Lemma run_remembers_bid task_id ops self :
  Forall (fun op => is_crash op = false) ops ->
  remembers_bid task_id self -> remembers_bid task_id (run ops self).
Proof.
  revert self. induction ops as [|op ops IH]; intros self Hops Hself; [done|].
  apply Forall_cons in Hops as [Hop Hops].
  simpl. apply IH; [done|]. by apply perform_remembers_bid.
Qed.

(** X2: once an agent that is not crashed has processed a broadcast for a
    task it does not hold, no later broadcast for that task gets a bid from
    it, whatever its [msg_id] and whatever the agent does in between, as
    long as [crash] is not called in between and no execution of the task
    had been told to stop before.  (After a crash, [recover] empties
    [bid_task_ids] and a cancelled execution takes its task out of it.) *)
Theorem at_most_one_bid_per_task o1 o2 first second task again ops self :
  MessageData.msg_type first = value TASK_BROADCAST ->
  Payload.task (MessageData.payload first) = Some task ->
  truthy (MessageData.msg_id first)
  && in_ids (MessageData.msg_id first) (processed_message_ids self) = false ->
  is_crashed self = false ->
  Task.task_id task ∉ allocated_task_ids self ->
  (forall info, running_tasks self !! Task.task_id task = Some info ->
                stop_flag info = false) ->
  Forall (fun op => is_crash op = false) ops ->
  Payload.task (MessageData.payload second) = Some again ->
  Task.task_id again = Task.task_id task ->
  published_bids
    (events_of (handle_task_broadcast o2 second
                  (run ops (state_of (handle_task_broadcast o1 first self))))) = [].
Proof.
  intros Hty Hfirst Hnew Hcrashed Hfree Hflag Hops Hsecond Hsame.
  apply (no_bid_for_known_task o2 second again); [done|].
  rewrite Hsame. apply elem_of_union_l.
  apply (run_remembers_bid (Task.task_id task) ops); [done|].
  rewrite handle_task_broadcast_state. cbv zeta.
  rewrite Hty, String.eqb_refl, Hnew, Hcrashed, Hfirst. cbn [negb].
  rewrite (bool_decide_eq_false_2 (Task.task_id task ∈ allocated_task_ids self)) by done.
  rewrite orb_false_r.
  destruct (bool_decide (Task.task_id task ∈ bid_task_ids self)) eqn:Hbid;
    destruct (truthy _); unfold remembers_bid; agent_fields';
    (split; [done|]); (split; [|done]).
  1,2: by apply bool_decide_eq_true_1 in Hbid.
  1,2: set_solver.
Qed.

End agent_lifecycle.

(** ** The coordinator: log, bids and allocation *)

Ltac coordinator_fields' :=
  cbn [Coordinator.tasks Coordinator.pending_tasks Coordinator.allocated_tasks
       Coordinator.agent_tasks Coordinator.agent_heartbeats Coordinator.agent_streams
       Coordinator.failed_agents Coordinator.heartbeat_timeout
       Coordinator.monitoring_active Coordinator.activity_log
       Coordinator.max_activity_log Coordinator.processed_events Coordinator.task_bids
       Coordinator.completed_task_ids Coordinator.cancelled_task_ids
       Coordinator.set_tasks Coordinator.set_pending_tasks Coordinator.set_allocated_tasks
       Coordinator.set_agent_tasks Coordinator.set_activity_log Coordinator.set_task_bids
       Coordinator.set_processed_events Coordinator.set_completed_task_ids
       Coordinator.set_cancelled_task_ids Coordinator.set_agent_heartbeats
       Coordinator.set_failed_agents] in *.

Section coordinator_further.
Import Coordinator.

Lemma tail_length {A} (l : list A) : length (tail l) = pred (length l).
Proof. by destruct l. Qed.

Lemma filter_none {A} (P : A -> Prop) `{!forall x, Decision (P x)} (l : list A) :
  (forall x, x ∈ l -> ~ P x) -> filter P l = [].
Proof.
  induction l as [|x l IH]; intros Hnone; [done|].
  rewrite filter_cons_False by (apply Hnone; by left).
  apply IH. intros y Hy. apply Hnone. by right.
Qed.

Lemma logged_length (log : list Activity) activity (bound : nat) :
  (length log <= bound)%nat ->
  (length (if (bound <? length (log ++ [activity]))%nat
           then tail (log ++ [activity]) else log ++ [activity]) <= bound)%nat.
Proof.
  intros Hlen. destruct (Nat.ltb_spec bound (length (log ++ [activity]))) as [Hlt|Hge].
  - rewrite tail_length, length_app. simpl. lia.
  - done.
Qed.

(** X12: [_log_activity] keeps the log within [max_activity_log].  The
    new entry goes to the end; as long as there is room nothing leaves, and
    when the log is full the oldest entry, and no other, is the one that
    leaves.  Nothing else in the coordinator changes and nothing is
    published. *)
Theorem _log_activity_bounded activity self :
  (length (activity_log self) <= max_activity_log self)%nat ->
  exists log',
    _log_activity activity self = (Ret tt, set_activity_log log' self, [])
    /\ (length log' <= max_activity_log self)%nat
    /\ log' `suffix_of` (activity_log self ++ [activity])
    /\ ((length (activity_log self) < max_activity_log self)%nat ->
        log' = activity_log self ++ [activity])
    /\ (forall oldest others,
          length (activity_log self) = max_activity_log self ->
          activity_log self = oldest :: others ->
          log' = others ++ [activity])
    /\ (max_activity_log self = 0%nat -> log' = [])
    /\ ((0 < max_activity_log self)%nat -> last log' = Some activity).
Proof.
  intros Hlen. rewrite _log_activity_spec. eexists. split; [reflexivity|].
  split; [by apply logged_length|].
  destruct (Nat.ltb_spec (max_activity_log self) (length (activity_log self ++ [activity])))
    as [Hlt|Hge]; rewrite length_app in *; simpl in *.
  - split; [|split; [lia|split; [|split]]].
    + destruct (activity_log self) as [|first log]; simpl.
      * by exists [activity].
      * by exists [first].
    + intros oldest others _ ->. reflexivity.
    + intros Hzero. destruct (activity_log self) as [|first log]; simpl in *; [done|lia].
    + intros Hpos. destruct (activity_log self) as [|first log]; simpl in *; [lia|].
      by rewrite last_snoc.
  - split; [done|]. split; [done|]. split; [|split].
    + intros oldest others Hfull. lia.
    + intros Hzero. lia.
    + intros _. by rewrite last_snoc.
Qed.

(** A second bid of an agent for a task it has already bid for is
    ignored: the coordinator does not change and nothing is logged. *)
Lemma duplicate_bid_is_ignored o message_data bid_data task_info earlier self :
  Payload.bid (MessageData.payload message_data) = Some bid_data ->
  pending_tasks self !! Bid.task_id bid_data = Some task_info ->
  earlier ∈ bids task_info ->
  Bid.agent_id earlier = Bid.agent_id bid_data ->
  handle_bid o message_data self = (Ret tt, self, []).
Proof.
  intros Hbid Hpending Hin Hsame. unfold handle_bid.
  destruct (negb _); [reflexivity|]. mred. rewrite Hbid, Hpending.
  rewrite bool_decide_eq_false_2; [reflexivity|].
  intros Hnil. assert (earlier ∈ filter (fun b => Bid.agent_id b = Bid.agent_id bid_data)
                                  (bids task_info)) as Hf by (by apply list_elem_of_filter).
  rewrite Hnil in Hf. by apply not_elem_of_nil in Hf.
Qed.

(** X14: the first bid of an agent for a pending task is put at the end of
    the bids of the task, which stay one per agent, and is logged; nothing
    is published and no other entry of [pending_tasks] changes. *)
Theorem new_bid_is_appended o message_data bid_data task_info self :
  MessageData.msg_type message_data = value BID ->
  Payload.bid (MessageData.payload message_data) = Some bid_data ->
  pending_tasks self !! Bid.task_id bid_data = Some task_info ->
  (forall earlier, earlier ∈ bids task_info ->
                   Bid.agent_id earlier ≠ Bid.agent_id bid_data) ->
  exists self',
    handle_bid o message_data self = (Ret tt, self', [])
    /\ pending_tasks self'
       = <[ Bid.task_id bid_data :=
              {| task := task task_info; bids := bids task_info ++ [bid_data];
                 broadcast_at := broadcast_at task_info |} ]> (pending_tasks self)
    /\ (one_bid_per_agent (bids task_info) ->
        one_bid_per_agent (bids task_info ++ [bid_data]))
    /\ task_bids self' = task_bids self
    /\ activity_log self'
       = activity_log
           (state_of (_log_activity
                        (bid (Bid.agent_id bid_data) (Bid.task_id bid_data)
                           (Bid.bid_value bid_data) (time_time o)) self)).
Proof.
  intros Hty Hbid Hpending Hfresh.
  assert (one_bid_per_agent (bids task_info) ->
          one_bid_per_agent (bids task_info ++ [bid_data])) as Hone.
  { unfold one_bid_per_agent. intros Hnodup. rewrite fmap_app. simpl.
    apply NoDup_app. split; [done|]. split; [|apply NoDup_singleton].
    intros a Ha Hin. apply list_elem_of_singleton in Hin. subst a.
    apply list_elem_of_fmap in Ha as (b & Hname & Hb). by apply (Hfresh b). }
  unfold handle_bid.
  rewrite Hty, String.eqb_refl. cbn [negb]. mred. rewrite Hbid, Hpending.
  rewrite bool_decide_eq_true_2.
  2:{ apply filter_none. intros b Hb. by apply Hfresh. }
  cbn [negb]. mred. rewrite !_log_activity_spec. coordinator_fields'.
  eexists. split; [reflexivity|]. coordinator_fields'. done.
Qed.

End coordinator_further.

(** ** The coordinator: what its operations keep *)

Ltac mred' :=
  cbv beta iota zeta delta
    [mbind mret M_mbind M_mret M_bind M_ret get modify emit raise block when subscript index
     state_of events_of outcome_of fst snd].

Ltac coordinator_ops :=
  unfold Coordinator.perform, Coordinator.broadcast_task, Coordinator.handle_bid,
    Coordinator.allocate_task, Coordinator._send_allocation, Coordinator.handle_heartbeat,
    Coordinator.handle_agent_event.

Ltac coordinator_cases :=
  repeat (first [rewrite _log_activity_spec | mcase]; mred'; coordinator_fields').

Section coordinator_invariants.
Import Coordinator.

Lemma perform_coordinator_bounded op self :
  coordinator_bounded self -> coordinator_bounded (state_of (perform op self)).
Proof.
  intros [Hlog Hevents]. unfold coordinator_bounded.
  destruct op; coordinator_ops; mred'; coordinator_fields'; coordinator_cases.
  all: split; try done; try (by apply logged_length).
  all: try (rewrite size_empty; lia).
  all: try match goal with
         | H : (1000 <? _)%nat = false |- _ => by apply Nat.ltb_ge in H
         end.
  all: try match goal with
         | |- (length (tail _) <= _)%nat => rewrite tail_length, length_app; simpl; lia
         | H : (?m <? ?n)%nat = false |- (?n <= ?m)%nat => by apply Nat.ltb_ge in H
         end.
Qed.

(** X13: the coordinator keeps its memory bounded under the operations
    modelled: whatever the broadcasts, bids, allocations, heartbeats and
    agent events it handles, its activity log never holds more than
    [max_activity_log] (100) entries and its set of processed events never
    more than 1000. *)
Theorem coordinator_stays_bounded ops :
  let self := run ops init in
  (length (activity_log self) <= 100)%nat /\ (size (processed_events self) <= 1000)%nat.
Proof.
  cbv zeta.
  assert (forall self, coordinator_bounded self -> max_activity_log self = 100%nat ->
                       coordinator_bounded (run ops self)
                       /\ max_activity_log (run ops self) = 100%nat) as Hrun.
  { induction ops as [|op ops IH]; intros self Hb Hmax; [done|].
    simpl. apply IH; [by apply perform_coordinator_bounded|].
    clear IH Hb. destruct op; coordinator_ops; mred'; coordinator_fields';
      coordinator_cases; done. }
  destruct (Hrun init) as [[Hlog Hev] Hmax].
  - unfold coordinator_bounded.
    cbn [init activity_log max_activity_log processed_events length].
    split; [lia|]. rewrite size_empty. lia.
  - reflexivity.
  - by rewrite Hmax in Hlog.
Qed.

(** An entry of [pending_tasks] after an operation is an entry from before,
    a new entry without bids, or an entry from before with one more bid,
    of an agent that had none. *)
Lemma perform_pending_tasks op self task_id task_info :
  pending_tasks (state_of (perform op self)) !! task_id = Some task_info ->
  pending_tasks self !! task_id = Some task_info
  \/ bids task_info = []
  \/ exists before new_bid,
       pending_tasks self !! task_id = Some before
       /\ bids task_info = bids before ++ [new_bid]
       /\ forall earlier, earlier ∈ bids before ->
                          Bid.agent_id earlier ≠ Bid.agent_id new_bid.
Proof.
  destruct op as [o new_task reliable|o md|o id|o md|o md].
  - coordinator_ops. mred'. coordinator_fields'. coordinator_cases.
    all: destruct (decide (Task.task_id new_task = task_id)) as [->|Hne].
    all: rewrite ?lookup_insert_eq, ?lookup_insert_ne by done.
    all: try (intros [= <-]; right; by left).
    all: by left.
  - coordinator_ops. mred'. coordinator_fields'.
    destruct (negb _); [by left|]. mred'.
    destruct (Payload.bid _) as [bid_data|]; mred'; [|by left].
    destruct (pending_tasks self !! Bid.task_id bid_data) as [before|] eqn:Hbefore;
      [|by left].
    destruct (bool_decide_reflect
                (filter (fun b => Bid.agent_id b = Bid.agent_id bid_data) (bids before) = []))
      as [Hnone|Hsome]; cbn [negb]; mred'; [|by left].
    rewrite _log_activity_spec. coordinator_fields'.
    destruct (decide (Bid.task_id bid_data = task_id)) as [<-|Hne].
    + rewrite lookup_insert_eq. intros [= <-]. right. right.
      exists before, bid_data. split; [done|]. split; [done|].
      intros earlier Hin Hsame.
      by apply (filter_nil_not_elem_of _ _ earlier Hnone).
    + rewrite lookup_insert_ne by done. by left.
  - coordinator_ops. mred'. coordinator_fields'. coordinator_cases.
    all: try (by left).
    all: intros Hl; left; by apply lookup_delete_Some in Hl as [_ Hl].
  - coordinator_ops. mred'. coordinator_fields'. coordinator_cases. all: by left.
  - coordinator_ops. mred'. coordinator_fields'. coordinator_cases. all: by left.
Qed.

Lemma perform_one_bid_per_agent op self :
  auctions_one_bid_per_agent self ->
  auctions_one_bid_per_agent (state_of (perform op self)).
Proof.
  intros Hinv task_id task_info Hafter.
  destruct (perform_pending_tasks op self task_id task_info Hafter)
    as [Hsame|[Hnone|(before & new_bid & Hbefore & Hbids & Hfresh)]].
  - by apply (Hinv task_id).
  - unfold one_bid_per_agent. rewrite Hnone. constructor.
  - unfold one_bid_per_agent. rewrite Hbids, fmap_app. simpl.
    apply NoDup_app. split; [by apply (Hinv task_id)|]. split; [|apply NoDup_singleton].
    intros a Ha Hin. apply list_elem_of_singleton in Hin. subst a.
    apply list_elem_of_fmap in Ha as (b & Hname & Hb). by apply (Hfresh b).
Qed.

(** X15: whatever broadcasts, bids, allocations, heartbeats and agent
    events the coordinator handles, every pending auction holds at most one
    bid per agent. *)
Theorem one_bid_per_agent_in_every_auction ops task_id task_info :
  pending_tasks (run ops init) !! task_id = Some task_info ->
  one_bid_per_agent (bids task_info).
Proof.
  assert (forall self, auctions_one_bid_per_agent self ->
                       auctions_one_bid_per_agent (run ops self)) as Hrun.
  { induction ops as [|op ops IH]; intros self Hinv; [done|].
    simpl. apply IH. by apply perform_one_bid_per_agent. }
  apply Hrun. intros t e Hl. cbn [init pending_tasks] in Hl. by rewrite lookup_empty in Hl.
Qed.

End coordinator_invariants.

(** ** The coordinator: finished tasks, recovery and queries *)

Section coordinator_queries.
Import Coordinator.

Lemma set_pending_tasks_same self : set_pending_tasks (pending_tasks self) self = self.
Proof. by destruct self. Qed.

(** X16: [allocate_task] never allocates a task that is in
    [completed_task_ids] or in [cancelled_task_ids]: it only removes the
    task from [pending_tasks], if it is there, and publishes nothing,
    whatever bids the task has. *)
Theorem allocate_task_drops_finished_task o task_id self :
  task_id ∈ completed_task_ids self ∪ cancelled_task_ids self ->
  allocate_task o task_id self
  = (Ret tt, set_pending_tasks (delete task_id (pending_tasks self)) self, []).
Proof.
  intros Hfinished. unfold allocate_task. mred'.
  destruct (pending_tasks self !! task_id) as [task_info|] eqn:Hpending.
  - destruct (bool_decide_reflect (task_id ∈ completed_task_ids self)) as [Hc|Hc];
      [reflexivity|].
    rewrite bool_decide_eq_true_2; [reflexivity|].
    by apply elem_of_union in Hfinished as [H|H].
  - rewrite delete_id by done. by rewrite set_pending_tasks_same.
Qed.

(** X17: the books of an allocation.  When [allocate_task] allocates a
    task, it appends to [allocated_tasks] a record of the task, the winner
    and the winning value, and appends the task to the winner's list in
    [agent_tasks], leaving the lists of the other agents alone; the entry it
    logs counts all the bids received, those of failed agents included. *)
Theorem allocation_bookkeeping o task_id task_info winning_bid others self :
  pending_tasks self !! task_id = Some task_info ->
  task_id ∉ completed_task_ids self ->
  task_id ∉ cancelled_task_ids self ->
  sorted_by_bid_value (valid_bids_of self (bids task_info)) = winning_bid :: others ->
  let after := state_of (allocate_task o task_id self) in
  let winner := Bid.agent_id winning_bid in
  allocated_tasks after
  = allocated_tasks self
    ++ [{| alloc_task := task task_info; agent := winner;
           bid_value := Bid.bid_value winning_bid; allocated_at := time_time o |}]
  /\ agent_tasks after !! winner
     = Some (default [] (agent_tasks self !! winner) ++ [Task.task_id (task task_info)])
  /\ (forall other, other ≠ winner -> agent_tasks after !! other = agent_tasks self !! other)
  /\ activity_log after
     = activity_log
         (state_of (_log_activity
                      (allocation (Task.task_id (task task_info)) winner
                         (Bid.bid_value winning_bid) (length (bids task_info))
                         (time_time o)) self)).
Proof.
  intros Hpending Hcompleted Hcancelled Hsorted.
  assert (valid_bids_of self (bids task_info) ≠ []) as Hvalid.
  { intros Hnil. by rewrite Hnil in Hsorted. }
  cbv zeta. unfold allocate_task, _send_allocation. mred'. rewrite Hpending.
  rewrite !bool_decide_eq_false_2 by done.
  rewrite Hsorted. cbn [lookup list_lookup]. mred'.
  rewrite !_log_activity_spec. coordinator_fields'.
  split; [done|]. split; [apply lookup_insert_eq|]. split; [|done].
  intros other Hother. by apply lookup_insert_ne.
Qed.

(** X18: a heartbeat of an agent records the time, takes the agent out of
    [failed_agents] and leaves the other failed agents in; from then on the
    bids of that agent count again at allocation.  Nothing is published and
    no auction changes. *)
Theorem heartbeat_clears_failure o message_data heartbeat_data self :
  MessageData.msg_type message_data = value HEARTBEAT ->
  Payload.heartbeat (MessageData.payload message_data) = Some heartbeat_data ->
  Heartbeat.agent_id heartbeat_data ≠ "" ->
  let agent_id := Heartbeat.agent_id heartbeat_data in
  let after := state_of (handle_heartbeat o message_data self) in
  events_of (handle_heartbeat o message_data self) = []
  /\ agent_heartbeats after !! agent_id = Some (time_time o)
  /\ failed_agents after = failed_agents self ∖ {[ agent_id ]}
  /\ pending_tasks after = pending_tasks self
  /\ (forall all_bids b, b ∈ all_bids -> Bid.agent_id b = agent_id ->
                         b ∈ valid_bids_of after all_bids).
Proof.
  intros Hty Hhb Hname. cbv zeta.
  assert (failed_agents (state_of (handle_heartbeat o message_data self))
          = failed_agents self ∖ {[ Heartbeat.agent_id heartbeat_data ]}) as Hfailed.
  { unfold handle_heartbeat. rewrite Hty, String.eqb_refl, Hhb. cbn [negb].
    rewrite (proj2 (truthy_Some _) Hname). mred'. coordinator_fields'.
    destruct (bool_decide_reflect (Heartbeat.agent_id heartbeat_data ∈ failed_agents self))
      as [Hin|Hnotin]; mred'; rewrite ?_log_activity_spec; coordinator_fields'; [done|].
    apply set_eq. intros x. rewrite elem_of_difference, elem_of_singleton.
    split; [|by intros [? _]]. intros Hx. split; [done|]. by intros ->. }
  split; [|split; [|split; [|split]]].
  - unfold handle_heartbeat. rewrite Hty, String.eqb_refl, Hhb. cbn [negb].
    rewrite (proj2 (truthy_Some _) Hname). mred'. coordinator_fields'.
    destruct (bool_decide _); mred'; rewrite ?_log_activity_spec; reflexivity.
  - unfold handle_heartbeat. rewrite Hty, String.eqb_refl, Hhb. cbn [negb].
    rewrite (proj2 (truthy_Some _) Hname). mred'. coordinator_fields'.
    destruct (bool_decide _); mred'; rewrite ?_log_activity_spec; coordinator_fields';
      apply lookup_insert_eq.
  - exact Hfailed.
  - unfold handle_heartbeat. rewrite Hty, String.eqb_refl, Hhb. cbn [negb].
    rewrite (proj2 (truthy_Some _) Hname). mred'. coordinator_fields'.
    destruct (bool_decide _); mred'; rewrite ?_log_activity_spec; reflexivity.
  - intros all_bids b Hb Hagent. unfold valid_bids_of.
    apply list_elem_of_filter. split; [|done].
    rewrite Hfailed, Hagent. intros [_ Hne]%elem_of_difference.
    apply Hne. by apply elem_of_singleton.
Qed.

(** X19: once a [task_completed] event for a task has been handled, the
    task is in [completed_task_ids], its stored bids are gone, and
    [allocate_task] does not allocate it any more: it publishes nothing and
    leaves the task out of [pending_tasks] and of [task_bids]. *)
Theorem completed_task_is_not_allocated o1 o2 message_data task_id self :
  Payload.event_type (MessageData.payload message_data) = Some "task_completed" ->
  data_task_id (Payload.data (MessageData.payload message_data)) = Some task_id ->
  task_id ≠ "" ->
  let reported := state_of (handle_agent_event o1 message_data self) in
  let after := allocate_task o2 task_id reported in
  task_id ∈ completed_task_ids reported
  /\ task_bids reported !! task_id = None
  /\ events_of after = []
  /\ pending_tasks (state_of after) !! task_id = None
  /\ task_bids (state_of after) !! task_id = None.
Proof.
  intros Hty Hdata Hname. cbv zeta.
  assert (task_id ∈ completed_task_ids (state_of (handle_agent_event o1 message_data self))
          /\ task_bids (state_of (handle_agent_event o1 message_data self)) !! task_id = None)
    as [Hcompleted Hbids].
  { unfold handle_agent_event. rewrite Hty, Hdata.
    rewrite (proj2 (truthy_Some _) Hname).
    rewrite (bool_decide_eq_true_2 (Some "task_completed" = Some "task_completed")) by done.
    mred'. coordinator_fields'.
    coordinator_cases; cbn [add_id default];
      (split; [apply elem_of_union; left; by apply elem_of_singleton
                               |apply lookup_delete_eq]). }
  split; [done|]. split; [done|].
  rewrite allocate_task_drops_finished_task by (apply elem_of_union; by left).
  coordinator_fields'. split; [done|]. split; [apply lookup_delete_eq|done].
Qed.

(** X20: [_find_task] finds nothing exactly when [tasks] holds no task
    with that id, and otherwise returns the earliest task of [tasks] that
    has the id: no task before it in the list has it.  After
    [broadcast_task] has announced a task, the search for its id gives the
    task that it gave before, if it gave one, and the new task otherwise. *)
Theorem find_task_finds_broadcast_tasks o new_task reliable task_id self :
  (_find_task task_id self = None <->
   forall known, known ∈ tasks self -> Task.task_id known ≠ task_id)
  /\ (forall found, _find_task task_id self = Some found ->
        Task.task_id found = task_id
        /\ exists before after,
             tasks self = before ++ found :: after
             /\ forall known, known ∈ before -> Task.task_id known ≠ task_id)
  /\ _find_task (Task.task_id new_task) (state_of (broadcast_task o new_task reliable self))
     = Some (default new_task (_find_task (Task.task_id new_task) self)).
Proof.
  unfold _find_task. split; [|split].
  - split.
    + intros Hnone known Hin Hid.
      apply list_elem_of_In in Hin.
      apply (find_none _ _ Hnone) in Hin. by rewrite Hid, String.eqb_refl in Hin.
    + intros Habsent. destruct (find _ _) as [found|] eqn:Hfound; [|done].
      apply find_some in Hfound as [Hin Hid]. apply String.eqb_eq in Hid.
      apply list_elem_of_In in Hin. by destruct (Habsent found Hin).
  - induction (tasks self) as [|first rest IH]; intros found; simpl; [done|].
    destruct (String.eqb_spec (Task.task_id first) task_id) as [Hid|Hne].
    + intros [= <-]. split; [done|]. exists [], rest. split; [done|].
      intros known Hin. by apply elem_of_nil in Hin.
    + intros Hfound. destruct (IH found Hfound) as (Hid & before & after & -> & Hbefore).
      split; [done|]. exists (first :: before), after. split; [done|].
      intros known [->|Hin]%elem_of_cons; [done|by apply Hbefore].
  - assert (tasks (state_of (broadcast_task o new_task reliable self))
            = tasks self ++ [new_task]) as ->.
    { unfold broadcast_task. mred'. rewrite _log_activity_spec. reflexivity. }
    induction (tasks self) as [|first rest IH]; simpl.
    + by rewrite String.eqb_refl.
    + destruct (String.eqb_spec (Task.task_id first) (Task.task_id new_task)) as [Hid|Hne].
      * reflexivity.
      * exact IH.
Qed.

Lemma slice_from_last {A} (n : Z) (l : list A) :
  (0 < n)%Z -> slice_from (- n) l = drop (length l - Z.to_nat n) l.
Proof.
  intros Hn. unfold slice_from.
  destruct (Z.ltb_spec (- n) 0) as [_|Hge]; [|lia].
  f_equal. lia.
Qed.

(** X21: [get_recent_activity(limit)] with a positive limit returns the
    last entries of the log, [limit] of them or the whole log if it is
    shorter; with a limit of 0 it returns the whole log, not the empty
    list. *)
Theorem get_recent_activity_slices limit self :
  ((0 < limit)%Z ->
   get_recent_activity limit self
   = drop (length (activity_log self) - Z.to_nat limit) (activity_log self)
   /\ length (get_recent_activity limit self)
      = Nat.min (Z.to_nat limit) (length (activity_log self)))
  /\ get_recent_activity 0 self = activity_log self.
Proof.
  unfold get_recent_activity. split.
  - intros Hpos.
    destruct (bool_decide_reflect (activity_log self = [])) as [->|Hne];
      [split; [by rewrite drop_nil|simpl; lia]|].
    rewrite slice_from_last by done. split; [done|]. rewrite length_drop. lia.
  - destruct (bool_decide_reflect (activity_log self = [])) as [->|Hne]; [done|].
    reflexivity.
Qed.

End coordinator_queries.

(** ** ReliableBroker on Redis: bounded retransmission *)

Ltac redis_fields :=
  cbn [ReliableBroker.use_redis ReliableBroker.subscribers ReliableBroker.pending_acks
       ReliableBroker.ack_timeout ReliableBroker.max_retries ReliableBroker.running
       ReliableBroker.broker ReliableBroker.set_subscribers
       ReliableBroker.set_pending_acks ReliableBroker.set_running
       ReliableBroker.set_broker] in *.

Section redis_retransmission.
Import ReliableBroker.

Lemma redis_set_pending_acks_same self : set_pending_acks (pending_acks self) self = self.
Proof. by destruct self. Qed.

(** One turn of the loop, connection up or down. *)
Lemma redis_check_timeout_of_entry o redis_up m info self :
  pending_acks self !! Some m = Some info ->
  exists self',
    check_timeout_of o redis_up (Some m, info) self
    = (Ret tt, self',
       entry_events (time_time o) (ack_timeout self) (max_retries self) redis_up
         (Some m, info))
    /\ same_settings self self'
    /\ pending_acks self' !! Some m
       = entry_after_check (time_time o) (ack_timeout self) (max_retries self) redis_up
           (Some info)
    /\ forall k, k ≠ Some m -> pending_acks self' !! k = pending_acks self !! k.
Proof.
  intros Hlookup.
  unfold check_timeout_of, redis_client_publish, try_except, entry_events,
    entry_after_check, verdict_of.
  mred'. cbn [fst snd].
  destruct (Qgtb _ _).
  2:{ exists self. by repeat split. }
  destruct (_ <? _)%Z; cbn [slice8]; mred'.
  - destruct redis_up; mred'.
    + eexists. split; [reflexivity|]. redis_fields.
      split; [by repeat split|]. split.
      * rewrite lookup_alter_eq, Hlookup. reflexivity.
      * intros k Hk. by rewrite lookup_alter_ne.
    + exists self. by repeat split.
  - eexists. split; [reflexivity|]. redis_fields.
    split; [by repeat split|]. split.
    + apply lookup_delete_eq.
    + intros k Hk. by rewrite lookup_delete_ne.
Qed.

Lemma same_settings_trans self1 self2 self3 :
  same_settings self1 self2 -> same_settings self2 self3 -> same_settings self1 self3.
Proof.
  unfold same_settings. intros (?&?&?&?&?&?) (?&?&?&?&?&?). repeat split; congruence.
Qed.

(** The loop over a snapshot of the table whose keys are distinct ids. *)
Lemma for_each_redis o redis_up entries self :
  NoDup entries.*1 ->
  Forall (fun entry => is_Some entry.1) entries ->
  (forall k info, (k, info) ∈ entries -> pending_acks self !! k = Some info) ->
  exists self',
    for_each entries (check_timeout_of o redis_up) self
    = (Ret tt, self',
       flat_map (entry_events (time_time o) (ack_timeout self) (max_retries self) redis_up)
         entries)
    /\ same_settings self self'
    /\ forall k,
         pending_acks self' !! k
         = if bool_decide (k ∈ entries.*1)
           then entry_after_check (time_time o) (ack_timeout self) (max_retries self)
                  redis_up (pending_acks self !! k)
           else pending_acks self !! k.
Proof.
  revert self. induction entries as [|[k0 info0] entries IH]; intros self Hnodup Hkeys Hsnap.
  - exists self. split; [reflexivity|]. split; [by repeat split|].
    intros k. rewrite bool_decide_eq_false_2; [done|]. apply not_elem_of_nil.
  - rewrite fmap_cons in Hnodup. cbn [fst] in Hnodup.
    apply NoDup_cons in Hnodup as [Hfresh Hnodup].
    apply Forall_cons in Hkeys as [[m Hm] Hkeys]. cbn [fst] in Hm. subst k0.
    destruct (redis_check_timeout_of_entry o redis_up m info0 self)
      as (self1 & Hbody & Hsame1 & Hat & Hother).
    { apply Hsnap. by left. }
    destruct (IH self1 Hnodup Hkeys) as (self' & Hloop & Hsame2 & Hlookups).
    { intros k info Hin. rewrite Hother; [apply Hsnap; by right|].
      intros ->. apply Hfresh. by apply (list_elem_of_fmap_2 fst _ (Some m, info)). }
    pose proof Hsame1 as (_ & _ & Hto & Hmax & _).
    exists self'. split; [|split; [by eapply same_settings_trans|]].
    + cbn [for_each flat_map]. mred'. rewrite Hbody, Hloop, Hto, Hmax. reflexivity.
    + intros k. rewrite Hlookups, Hto, Hmax. rewrite fmap_cons. cbn [fst].
      destruct (decide (k = Some m)) as [->|Hne].
      * rewrite (bool_decide_eq_false_2 _ Hfresh).
        rewrite (bool_decide_eq_true_2 (Some m ∈ Some m :: entries.*1)) by by left.
        rewrite Hat. rewrite (Hsnap (Some m) info0) by by left. reflexivity.
      * rewrite Hother by done.
        destruct (bool_decide_reflect (k ∈ entries.*1)) as [Hin|Hnotin].
        -- rewrite bool_decide_eq_true_2 by by right. reflexivity.
        -- rewrite bool_decide_eq_false_2; [done|].
           by intros [?|?]%elem_of_cons.
Qed.

(** X22: one check of the Redis branch.  On a listening broker whose table
    is keyed by message ids, [check_timeouts] returns, and every entry has
    met its fate: an entry that has not waited longer than [ack_timeout] is
    as it was; one that has, with retries left, has been handed to Redis
    and has one more retry and the time of the check as [sent_at] (or is as
    it was, if the client raised); one that has used up [max_retries] is
    gone. *)
Theorem redis_check_timeouts_spec o redis_up self :
  use_redis self = true ->
  running self = true ->
  (forall k, is_Some (pending_acks self !! k) -> is_Some k) ->
  exists self',
    check_timeouts o redis_up self
    = (Ret tt, self',
       flat_map (entry_events (time_time o) (ack_timeout self) (max_retries self) redis_up)
         (map_to_list (pending_acks self)))
    /\ same_settings self self'
    /\ forall k,
         pending_acks self' !! k
         = entry_after_check (time_time o) (ack_timeout self) (max_retries self) redis_up
             (pending_acks self !! k).
Proof.
  intros Hredis Hrunning Hkeys.
  destruct (for_each_redis o redis_up (map_to_list (pending_acks self)) self)
    as (self' & Hloop & Hsame & Hlookups).
  - apply NoDup_fst_map_to_list.
  - apply Forall_forall. intros [k info] Hin. apply Hkeys.
    apply elem_of_map_to_list in Hin. by eexists.
  - intros k info Hin. by apply elem_of_map_to_list.
  - exists self'. split; [|split; [done|]].
    + unfold check_timeouts. mred'. rewrite Hredis, Hrunning. cbn [negb].
      by rewrite Hloop.
    + intros k. rewrite Hlookups.
      destruct (bool_decide_reflect (k ∈ (map_to_list (pending_acks self)).*1))
        as [Hin|Hnotin]; [done|].
      destruct (pending_acks self !! k) as [info|] eqn:Hk; [|done].
      exfalso. apply Hnotin.
      apply (list_elem_of_fmap_2 fst _ (k, info)). by apply elem_of_map_to_list.
Qed.

(** *** Counting the retransmissions of one message *)

Lemma retransmissions_of_app m events1 events2 :
  retransmissions_of m (events1 ++ events2)
  = (retransmissions_of m events1 + retransmissions_of m events2)%nat.
Proof.
  unfold retransmissions_of, redis_publications.
  by rewrite omap_app, filter_app, length_app.
Qed.

Lemma retransmissions_of_entry now timeout limit redis_up m k info :
  MessageData.msg_id (InMemoryBroker.message info) = k ->
  retransmissions_of m (entry_events now timeout limit redis_up (k, info))
  = match verdict_of now timeout limit info with
    | Resend => if redis_up && bool_decide (k = Some m) then 1%nat else 0%nat
    | _ => 0%nat
    end.
Proof.
  intros Hid. unfold retransmissions_of, redis_publications, entry_events. cbn [fst snd].
  destruct k as [m'|]; [|by destruct (verdict_of _ _ _ _), redis_up].
  destruct (verdict_of _ _ _ _); try reflexivity.
  destruct redis_up; [|reflexivity]. cbn [omap list_omap andb].
  destruct (bool_decide_reflect (Some m' = Some m)) as [Heq|Hne].
  - rewrite filter_cons_True by congruence. reflexivity.
  - rewrite filter_cons_False by congruence. reflexivity.
Qed.

Lemma retransmissions_of_others now timeout limit redis_up m
    (entries : list (option string * InMemoryBroker.PendingAck)) :
  Some m ∉ entries.*1 ->
  (forall k info, (k, info) ∈ entries ->
                  MessageData.msg_id (InMemoryBroker.message info) = k) ->
  retransmissions_of m (flat_map (entry_events now timeout limit redis_up) entries) = 0%nat.
Proof.
  induction entries as [|[k info] entries IH]; intros Habsent Hids; [done|].
  cbn [flat_map]. rewrite retransmissions_of_app.
  rewrite fmap_cons in Habsent. cbn [fst] in Habsent.
  apply not_elem_of_cons in Habsent as [Hk Habsent].
  rewrite IH; [|done|intros k' info' Hin; apply Hids; by right].
  rewrite retransmissions_of_entry by (apply Hids; by left).
  rewrite (bool_decide_eq_false_2 (k = Some m)) by congruence.
  rewrite andb_false_r. by destruct (verdict_of _ _ _ _).
Qed.

Lemma retransmissions_of_entries now timeout limit redis_up m info
    (entries : list (option string * InMemoryBroker.PendingAck)) :
  NoDup entries.*1 ->
  (forall k info, (k, info) ∈ entries ->
                  MessageData.msg_id (InMemoryBroker.message info) = k) ->
  (Some m, info) ∈ entries ->
  retransmissions_of m (flat_map (entry_events now timeout limit redis_up) entries)
  = match verdict_of now timeout limit info with
    | Resend => if redis_up then 1%nat else 0%nat
    | _ => 0%nat
    end.
Proof.
  induction entries as [|[k info'] entries IH]; intros Hnodup Hids Hin.
  { by apply not_elem_of_nil in Hin. }
  rewrite fmap_cons in Hnodup. cbn [fst] in Hnodup.
  apply NoDup_cons in Hnodup as [Hfresh Hnodup].
  cbn [flat_map]. rewrite retransmissions_of_app.
  rewrite retransmissions_of_entry by (apply Hids; by left).
  apply elem_of_cons in Hin as [Hhead|Htail].
  - inversion Hhead; subst k info'.
    rewrite retransmissions_of_others; [|done|intros k' i' Hi; apply Hids; by right].
    rewrite bool_decide_eq_true_2 by done. rewrite andb_true_r.
    destruct (verdict_of _ _ _ _); lia.
  - rewrite IH; [|done|intros k' i' Hi; apply Hids; by right|done].
    assert (k ≠ Some m) as Hk.
    { intros ->. apply Hfresh. by apply (list_elem_of_fmap_2 fst _ (Some m, info)). }
    rewrite (bool_decide_eq_false_2 (k = Some m)) by done. rewrite andb_false_r.
    by destruct (verdict_of now timeout limit info').
Qed.

(** What a single check costs: each retransmission of a message uses up one
    of the retries its entry has left. *)
Lemma check_timeouts_uses_retries o redis_up m self :
  use_redis self = true ->
  running self = true ->
  redis_table_wf self ->
  let r := check_timeouts o redis_up self in
  outcome_of r = Ret tt
  /\ use_redis (state_of r) = true
  /\ running (state_of r) = true
  /\ redis_table_wf (state_of r)
  /\ max_retries (state_of r) = max_retries self
  /\ (retransmissions_of m (events_of r) + retries_left m (state_of r)
      <= retries_left m self)%nat.
Proof.
  intros Hredis Hrunning Hwf. cbv zeta.
  destruct (redis_check_timeouts_spec o redis_up self Hredis Hrunning)
    as (self' & -> & (Hredis' & Hrunning' & _ & Hmax & _) & Hlookups).
  { intros k [info Hk]. by apply (Hwf k info). }
  cbn [outcome_of state_of events_of fst snd].
  split; [done|]. split; [congruence|]. split; [congruence|].
  split; [|split; [done|]].
  - intros k info' Hk. rewrite Hlookups in Hk.
    destruct (pending_acks self !! k) as [info|] eqn:Hbefore; [|done].
    destruct (Hwf k info Hbefore) as [Hid Hsome]. cbn [entry_after_check] in Hk.
    destruct (verdict_of _ _ _ info); [..|done]; try destruct redis_up;
      by inversion Hk; subst info'.
  - unfold retries_left. rewrite Hlookups, Hmax.
    destruct (pending_acks self !! Some m) as [info|] eqn:Hbefore.
    + rewrite (retransmissions_of_entries _ _ _ _ m info).
      * cbn [entry_after_check]. unfold verdict_of.
        destruct (Qgtb _ _); [|lia].
        destruct (Z.ltb_spec (InMemoryBroker.retries info) (max_retries self));
          [|lia].
        destruct redis_up; cbn [resent InMemoryBroker.retries]; lia.
      * apply NoDup_fst_map_to_list.
      * intros k i Hin. apply elem_of_map_to_list in Hin. by apply (Hwf k i).
      * by apply elem_of_map_to_list.
    + cbn [entry_after_check]. rewrite retransmissions_of_others; [lia| |].
      * intros Hin. apply list_elem_of_fmap_1 in Hin as ([k i] & Hk & Hin).
        cbn [fst] in Hk. subst k. apply elem_of_map_to_list in Hin. congruence.
      * intros k i Hin. apply elem_of_map_to_list in Hin. by apply (Hwf k i).
Qed.

(** X23: on the Redis branch a message is never sent again more often than
    its entry has retries left: whatever the times of the checks, and
    whether the connection is up or down at each of them, the broker hands
    the message to Redis at most [max_retries - retries] times, which is at
    most [max_retries] times for an entry whose [retries] is not negative. *)
Theorem redis_retransmissions_bounded checks m self :
  use_redis self = true ->
  running self = true ->
  redis_table_wf self ->
  (retransmissions_of m (check_timeouts_run checks self).2 <= retries_left m self)%nat
  /\ ((forall info, pending_acks self !! Some m = Some info ->
                    (0 <= InMemoryBroker.retries info)%Z) ->
      (retransmissions_of m (check_timeouts_run checks self).2
       <= Z.to_nat (max_retries self))%nat).
Proof.
  intros Hredis Hrunning Hwf.
  assert (retransmissions_of m (check_timeouts_run checks self).2 <= retries_left m self)%nat
    as Hbound.
  { revert self Hredis Hrunning Hwf.
    induction checks as [|[o redis_up] checks IH]; intros self Hredis Hrunning Hwf.
    - cbn. lia.
    - cbn [check_timeouts_run].
      destruct (check_timeouts_uses_retries o redis_up m self Hredis Hrunning Hwf)
        as (_ & Hredis' & Hrunning' & Hwf' & _ & Hcost).
      specialize (IH _ Hredis' Hrunning' Hwf').
      destruct (check_timeouts_run checks _) as [self' events]. cbn [snd] in *.
      rewrite retransmissions_of_app. lia. }
  split; [done|]. intros Hretries.
  etrans; [exact Hbound|]. unfold retries_left.
  destruct (pending_acks self !! Some m) as [info|] eqn:Hk; [|lia].
  specialize (Hretries info eq_refl). lia.
Qed.

End redis_retransmission.

(** ** The in-memory broker: publication, delivery, acknowledgment *)

Ltac broker_fields' :=
  cbn [InMemoryBroker.subscribers InMemoryBroker.message_queues InMemoryBroker.pending_acks
       InMemoryBroker.ack_timeout InMemoryBroker.max_retries InMemoryBroker.running
       InMemoryBroker.lock InMemoryBroker.set_subscribers
       InMemoryBroker.set_message_queues InMemoryBroker.set_pending_acks
       InMemoryBroker.set_running InMemoryBroker.set_lock] in *.

Section broker_further.
Import InMemoryBroker.

(** X24: a broker that is not listening drops what it is given: on a new
    broker before [listen()], and on any broker after [stop()], [publish]
    changes nothing, reliable or not; a broker that is not running does not
    check its timeouts either. *)
Theorem publish_needs_a_listening_broker o to_channel msg reliable self :
  publish o to_channel msg reliable init = (Ret tt, init, [])
  /\ publish o to_channel msg reliable (state_of (stop self))
     = (Ret tt, state_of (stop self), [])
  /\ check_timeouts o (state_of (stop self)) = (Ret tt, state_of (stop self), [])
  /\ running (state_of (listen self)) = true.
Proof.
  split; [reflexivity|].
  unfold publish, check_timeouts, stop, listen. mred'.
  destruct (running self) eqn:Hrunning; cbn [negb]; mred'; broker_fields';
    rewrite ?Hrunning; by repeat split.
Qed.

(** X25: delivery is first in, first out, to every subscriber.  On a
    listening broker a message that needs no entry in the table goes to the
    end of the queue of its channel; and a turn of the listener takes the
    message at the head of the queue, hands it to each subscriber of the
    channel in the order of registration, and leaves the rest queued. *)
Theorem delivery_is_fifo o to_channel msg reliable head rest self :
  running self = true ->
  lock self = false ->
  reliable && MessageData.requires_ack msg = false ->
  (publish o to_channel msg reliable self
   = (Ret tt,
      set_message_queues
        (<[ to_channel := queue_of to_channel self ++ [queued to_channel msg] ]>
           (message_queues self)) self,
      []))
  /\ (queue_of to_channel self = queued to_channel head :: rest ->
      to_channel ≠ "acks" ->
      is_acknowledgment head = false ->
      exists self' events,
        listen_channel_iteration to_channel self = (Ret tt, self', events)
        /\ calls events = (fun callback => (callback, head)) <$> subscribers_of to_channel self
        /\ queue_of to_channel self' = rest
        /\ pending_acks self' = pending_acks self
        /\ lock self' = false).
Proof.
  intros Hrunning Hlock Hplain. split.
  - unfold publish. mred'. rewrite Hrunning, Hplain. reflexivity.
  - unfold queue_of, subscribers_of, is_acknowledgment.
    intros Hqueue Hchannel Hack.
    unfold listen_channel_iteration, try_except, with_lock. mred'.
    rewrite Hqueue. mred'. broker_fields'. cbn [queued item_type data].
    rewrite (proj2 (String.eqb_neq _ _) Hchannel), Hack, String.eqb_refl. cbn [orb].
    mred'. broker_fields'. rewrite Hlock. mred'. broker_fields'.
    assert (forall (callbacks : list string) (s : t),
              exists events,
                for_each callbacks
                  (fun (callback : string) (s0 : t) => (Ret tt, s0, [Call callback head])) s
                = (Ret tt, s, events)
                /\ calls events = (fun callback => (callback, head)) <$> callbacks) as Hcalls.
    { induction callbacks as [|callback callbacks IH]; intros s.
      - by exists [].
      - destruct (IH s) as (events & Hloop & Hevents).
        exists (Call callback head :: events). cbn [for_each]. mred'.
        cbv beta. rewrite Hloop. split; [reflexivity|]. cbn. by rewrite <- Hevents. }
    destruct (Hcalls (default [] (subscribers self !! to_channel))
                (set_lock false
                   (set_lock true
                      (set_message_queues (<[to_channel:=rest]> (message_queues self)) self))))
      as (events & Hloop & Hevents).
    rewrite Hloop.
    eexists _, events. split; [reflexivity|]. broker_fields'.
    split; [done|]. split; [by rewrite lookup_insert_eq|]. done.
Qed.

(** X26: acknowledgments are consumed by the broker.  A message of type
    [acknowledgment] at the head of a queue is not handed to any
    subscriber; it removes the entry of the id it names from the table; and
    on the channel ["acks"] no message at all reaches a subscriber.  The
    turn ends normally in every case. *)
Theorem acknowledgments_are_consumed to_channel head rest self :
  lock self = false ->
  queue_of to_channel self = queued to_channel head :: rest ->
  to_channel = "acks" \/ is_acknowledgment head = true ->
  exists self' events,
    listen_channel_iteration to_channel self = (Ret tt, self', events)
    /\ calls events = []
    /\ queue_of to_channel self' = rest
    /\ (is_acknowledgment head = false -> pending_acks self' = pending_acks self)
    /\ (forall m, is_acknowledgment head = true -> MessageData.ack_for head = Some m ->
                  pending_acks self' = delete (Some m) (pending_acks self)).
Proof.
  unfold queue_of, is_acknowledgment. intros Hlock Hqueue Hacks.
  unfold listen_channel_iteration, try_except. mred'.
  rewrite Hqueue. mred'. broker_fields'. cbn [queued item_type data].
  rewrite String.eqb_refl.
  assert (String.eqb to_channel "acks"
          || String.eqb (MessageData.msg_type head) "acknowledgment" = true) as ->.
  { destruct Hacks as [Hc | Ha]; [by rewrite Hc|rewrite Ha; apply orb_true_r]. }
  destruct (String.eqb (MessageData.msg_type head) "acknowledgment") eqn:Hack; mred'.
  - rewrite handle_ack_spec by done. broker_fields'.
    destruct (pending_acks self !! MessageData.ack_for head) as [info|] eqn:Hpending;
      [destruct (MessageData.ack_for head) as [m|] eqn:Hfor|].
    + eexists _, _. split; [reflexivity|]. broker_fields'.
      split; [done|]. split; [by rewrite lookup_insert_eq|]. split; [done|].
      by intros m' _ [= <-].
    + eexists _, _. split; [reflexivity|]. broker_fields'.
      split; [done|]. split; [by rewrite lookup_insert_eq|]. split; [done|]. done.
    + eexists _, _. split; [reflexivity|]. broker_fields'.
      split; [done|]. split; [by rewrite lookup_insert_eq|]. split; [done|].
      intros m _ Hfor. rewrite Hfor in Hpending. by rewrite delete_id.
  - eexists _, _. split; [reflexivity|]. broker_fields'.
    split; [done|]. split; [by rewrite lookup_insert_eq|]. split; [done|]. done.
Qed.

End broker_further.

(** ** The brokers: reliable publication *)

Section broker_reliable.
Import InMemoryBroker.

(** X27: reliable publication and acknowledgment undo each other.  On a
    listening broker with its mutex free, publishing reliably a message
    that carries an id and asks for an acknowledgment queues the message
    and records it under its id with [retries = 0] and the time of the
    call, replacing any earlier entry of that id; the acknowledgment of
    that id then removes the entry, which gives back the table as it was if
    the id was not pending before. *)
Theorem reliable_publish_then_ack o to_channel msg m self :
  running self = true ->
  lock self = false ->
  MessageData.msg_id msg = Some m ->
  MessageData.requires_ack msg = true ->
  let published := state_of (publish o to_channel msg true self) in
  let acked := state_of (handle_ack (Some m) published) in
  outcome_of (publish o to_channel msg true self) = Ret tt
  /\ pending_acks published
     = <[ Some m := {| channel := to_channel; message := msg;
                       sent_at := time_time o; retries := 0 |} ]> (pending_acks self)
  /\ queue_of to_channel published = queue_of to_channel self ++ [queued to_channel msg]
  /\ lock published = false
  /\ outcome_of (handle_ack (Some m) published) = Ret tt
  /\ pending_acks acked = delete (Some m) (pending_acks self)
  /\ (pending_acks self !! Some m = None -> pending_acks acked = pending_acks self).
Proof.
  intros Hrunning Hlock Hid Hack. cbv zeta.
  assert (publish o to_channel msg true self
          = (Ret tt,
             set_message_queues
               (<[ to_channel := queue_of to_channel self ++ [queued to_channel msg] ]>
                  (message_queues self))
               (set_pending_acks
                  (<[ Some m := {| channel := to_channel; message := msg;
                                   sent_at := time_time o; retries := 0 |} ]>
                     (pending_acks self)) self),
             [Log (sent_reliable (substring 0 8 m) to_channel)])) as Hpublish.
  { unfold publish, with_lock, queue_of, queued. mred'.
    rewrite Hrunning, Hack. cbn [negb andb]. mred'. rewrite Hlock. mred'. broker_fields'.
    rewrite Hid. cbn [slice8]. mred'. broker_fields'.
    destruct self. broker_fields'. subst. reflexivity. }
  rewrite Hpublish. cbn [outcome_of state_of fst snd].
  rewrite handle_ack_spec by done. broker_fields'. rewrite lookup_insert_eq.
  cbn [outcome_of state_of fst snd]. broker_fields'. unfold queue_of. broker_fields'.
  rewrite lookup_insert_eq, delete_insert_eq.
  repeat split; try done.
  intros Hnone. by apply delete_id.
Qed.

(** X28: while no entry has waited longer than [ack_timeout],
    [check_timeouts] changes nothing, sends nothing and gives the mutex
    back. *)
Theorem check_timeouts_before_any_timeout o self :
  lock self = false ->
  (forall k info, pending_acks self !! k = Some info ->
                  Qgtb (time_time o - sent_at info) (ack_timeout self) = false) ->
  check_timeouts o self = (Ret tt, self, []).
Proof.
  intros Hlock Hearly. unfold check_timeouts. mred'.
  destruct (running self); cbn [negb]; [|reflexivity].
  unfold with_lock. rewrite Hlock. mred'. broker_fields'.
  assert (forall entries (s : t),
            ack_timeout s = ack_timeout self ->
            Forall (fun entry => Qgtb (time_time o - sent_at entry.2) (ack_timeout self)
                                 = false) entries ->
            for_each entries (check_timeout_of o) s = (Ret tt, s, [])) as Hloop.
  { induction entries as [|[k info] entries IH]; intros s Hto Hall; [reflexivity|].
    apply Forall_cons in Hall as [Hhead Hall]. cbn [snd] in Hhead.
    assert (check_timeout_of o (k, info) s = (Ret tt, s, [])) as Hbody.
    { unfold check_timeout_of. mred'. by rewrite Hto, Hhead. }
    cbn [for_each]. mred'. rewrite Hbody. by rewrite IH. }
  rewrite Hloop; [by rewrite unlock_locked|done|].
  apply Forall_forall. intros [k info] Hin. apply elem_of_map_to_list in Hin.
  by apply (Hearly k info).
Qed.

(** X29: [subscribe] puts the callback at the end of the subscribers of
    the channel, so that a callback registered twice is called twice, and
    starts the listener thread of the channel exactly when the channel had
    no entry yet; the other channels keep their subscribers. *)
Theorem subscribe_appends to_channel callback self :
  lock self = false ->
  exists self' events,
    subscribe to_channel callback self = (Ret tt, self', events)
    /\ subscribers_of to_channel self' = subscribers_of to_channel self ++ [callback]
    /\ (forall other, other ≠ to_channel ->
                      subscribers self' !! other = subscribers self !! other)
    /\ (ThreadStart to_channel ∈ events <-> subscribers self !! to_channel = None)
    /\ message_queues self' = message_queues self
    /\ pending_acks self' = pending_acks self
    /\ lock self' = false.
Proof.
  intros Hlock. unfold subscribe, with_lock, subscribers_of. rewrite Hlock. mred'.
  broker_fields'.
  destruct (subscribers self !! to_channel) as [callbacks|] eqn:Hsubscribers.
  - rewrite bool_decide_eq_false_2 by done. mred'. broker_fields'.
    rewrite Hsubscribers. eexists _, _. split; [reflexivity|]. broker_fields'.
    rewrite lookup_insert_eq. split; [done|].
    split; [intros other Hother; by rewrite lookup_insert_ne|].
    split; [|done].
    split; [|done]. intros Hin.
    apply elem_of_cons in Hin as [Hin|Hin]; [done|]. by apply not_elem_of_nil in Hin.
  - rewrite bool_decide_eq_true_2 by done. mred'. broker_fields'.
    rewrite !lookup_insert_eq. eexists _, _. split; [reflexivity|]. broker_fields'.
    rewrite lookup_insert_eq. split; [done|].
    split; [intros other Hother; by rewrite !lookup_insert_ne|].
    split; [|done].
    split; [done|]. intros _. apply elem_of_cons. right. apply elem_of_cons. by left.
Qed.

End broker_reliable.

Section redis_publish.
Import ReliableBroker.

(** X30: on the Redis branch an error of the transport does not reach the
    caller of [publish].  A listening broker records a reliable message
    that carries an id under that id, with [retries = 0], whether or not
    the client accepts it; it hands the message to Redis exactly when the
    connection is up; and it returns normally in both cases. *)
Theorem redis_publish_survives_transport_errors o redis_up to_channel msg m self :
  use_redis self = true ->
  running self = true ->
  MessageData.msg_id msg = Some m ->
  MessageData.requires_ack msg = true ->
  let r := publish o redis_up to_channel msg true self in
  outcome_of r = Ret tt
  /\ pending_acks (state_of r)
     = <[ Some m := {| InMemoryBroker.channel := to_channel;
                       InMemoryBroker.message := msg;
                       InMemoryBroker.sent_at := time_time o;
                       InMemoryBroker.retries := 0 |} ]> (pending_acks self)
  /\ redis_publications (events_of r) = (if redis_up then [msg] else [])
  /\ same_settings self (state_of r).
Proof.
  intros Hredis Hrunning Hid Hack. cbv zeta.
  unfold publish, redis_client_publish, try_except. mred'.
  rewrite Hredis, Hrunning, Hack, Hid. cbn [negb andb slice8]. mred'.
  destruct redis_up; mred'; redis_fields; by repeat split.
Qed.

End redis_publish.

(** ** The further properties at concrete states *)

Ltac decide_it := refine (bool_decide_unpack _ _); vm_compute; exact I.

Lemma no_bid_when_crashed_or_full_witness :
  published_bids
    (events_of (Agent.handle_task_broadcast noon (task_broadcast_message "b-t1" "t1")
                  crashed_agent)) = [].
Proof.
  apply (no_bid_when_crashed_or_full noon _ crashed_agent). left. reflexivity.
Defined.

Lemma at_most_one_bid_per_task_witness :
  published_bids
    (events_of (Agent.handle_task_broadcast noon second_broadcast_t1
                  (Agent.run [Agent.op_handle_task_allocation noon allocation_a_t1;
                              Agent.op_execute_task_begin noon (sample_task "t1");
                              Agent.op_execute_task_slice noon (sample_task "t1") 0;
                              Agent.op_execute_task_end noon (sample_task "t1") 0]
                     (state_of (Agent.handle_task_broadcast noon
                                  (task_broadcast_message "b-t1" "t1") fresh_agent))))) = [].
Proof.
  apply (at_most_one_bid_per_task noon noon (task_broadcast_message "b-t1" "t1")
           second_broadcast_t1 (sample_task "t1") (sample_task "t1")
           [Agent.op_handle_task_allocation noon allocation_a_t1;
            Agent.op_execute_task_begin noon (sample_task "t1");
            Agent.op_execute_task_slice noon (sample_task "t1") 0;
            Agent.op_execute_task_end noon (sample_task "t1") 0]
           fresh_agent).
  - reflexivity.
  - reflexivity.
  - reflexivity.
  - reflexivity.
  - apply not_elem_of_empty.
  - intros info Hinfo. vm_compute in Hinfo. discriminate.
  - repeat constructor.
  - reflexivity.
  - reflexivity.
Defined.

Lemma bid_for_new_task_witness :
  published_bids
    (events_of (Agent.handle_task_broadcast noon (task_broadcast_message "b-t1" "t1")
                  fresh_agent))
  = [{| Bid.agent_id := "agent_1"; Bid.task_id := "t1";
        Bid.bid_value := (inject_Z (0 * 10) + 1)%Q; Bid.current_load := 0;
        Bid.estimated_completion_time := 1 |}].
Proof.
  rewrite (bid_for_new_task noon (task_broadcast_message "b-t1" "t1") (sample_task "t1")
             fresh_agent).
  - reflexivity.
  - reflexivity.
  - reflexivity.
  - reflexivity.
  - reflexivity.
  - reflexivity.
  - decide_it.
  - decide_it.
  - reflexivity.
Defined.

Lemma allocation_accepted_witness :
  Agent.current_load (state_of (Agent.handle_task_allocation noon allocation_a_t1 fresh_agent))
  = (Agent.current_load fresh_agent + 1)%Z.
Proof.
  rewrite (allocation_accepted noon allocation_a_t1 (sample_task "t1") fresh_agent).
  - reflexivity.
  - reflexivity.
  - reflexivity.
  - reflexivity.
  - reflexivity.
  - reflexivity.
  - decide_it.
  - reflexivity.
Defined.

Lemma allocation_refused_when_crashed_witness :
  exists self',
    Agent.handle_task_allocation noon allocation_a_t1 crashed_agent
    = (Ret tt, self', acks_for noon crashed_agent allocation_a_t1)
    /\ Agent.current_load self' = Agent.current_load crashed_agent
    /\ Agent.assigned_tasks self' = [sample_task "t1"].
Proof.
  destruct (allocation_refused_when_crashed noon allocation_a_t1 (sample_task "t1")
              crashed_agent)
    as (self' & Hrun & Hload & _ & _ & _ & Hassigned & _).
  - reflexivity.
  - reflexivity.
  - reflexivity.
  - reflexivity.
  - reflexivity.
  - decide_it.
  - reflexivity.
  - exists self'. split; [exact Hrun|]. split; [exact Hload|exact Hassigned].
Defined.

Lemma accepted_task_runs_to_completion_witness :
  Agent.current_load
    (Agent.run [Agent.op_handle_task_allocation noon allocation_a_t1;
                Agent.op_execute_task_begin noon (sample_task "t1");
                Agent.op_execute_task_slice noon (sample_task "t1") 0;
                Agent.op_execute_task_end noon (sample_task "t1") 0] fresh_agent)
  = Agent.current_load fresh_agent.
Proof.
  apply (accepted_task_runs_to_completion noon allocation_a_t1 (sample_task "t1") 0
           fresh_agent).
  - reflexivity.
  - reflexivity.
  - reflexivity.
  - reflexivity.
  - reflexivity.
  - decide_it.
  - reflexivity.
Defined.

Lemma crash_is_tested_before_completion_witness :
  published_event_types
    (events_of (Agent.execute_task_final_check noon (sample_task "t1") crashed_agent))
  = ["task_cancelled"]
  /\ published_event_types
       (events_of (Agent.execute_task_complete noon (sample_task "t1") 0
                     (state_of (Agent.crash noon None agent_running_t1))))
     = ["task_completed"].
Proof.
  split.
  - refine (proj1 (proj2 (proj2 (proj2
              (proj1 (crash_is_tested_before_completion noon noon noon None
                        (sample_task "t1") 0 0 crashed_agent) _))))).
    reflexivity.
  - refine (proj1 (proj2 (proj2
              (proj2 (crash_is_tested_before_completion noon noon noon None
                        (sample_task "t1") 0 0 agent_running_t1) _)))).
    reflexivity.
Defined.

Lemma running_task_is_cancelled_after_recovery_witness :
  outcome_of
    (Agent.execute_task_slice noon (sample_task "t1") 1
       (state_of (Agent.recover noon (state_of (Agent.crash noon None agent_running_t1)))))
  = Ret true.
Proof.
  apply (running_task_is_cancelled_after_recovery noon noon noon None (sample_task "t1") 1
           {| Agent.start_time := 0; Agent.stop_flag := false |} agent_running_t1).
  reflexivity.
Defined.

Lemma no_heartbeat_while_crashed_witness :
  Agent.heartbeat_loop_iteration (seconds_later 3600) agent_crashed_for_good
  = (Ret tt, agent_crashed_for_good, [])
  /\ Agent.heartbeat_loop_iteration (seconds_later 5) agent_crashed_at_one
     = (Ret tt, agent_crashed_at_one, []).
Proof.
  split.
  - apply (no_heartbeat_while_crashed (seconds_later 3600) agent_crashed_for_good).
    + reflexivity.
    + intros since _ Henabled. vm_compute in Henabled. discriminate.
  - apply (no_heartbeat_while_crashed (seconds_later 5) agent_crashed_at_one).
    + reflexivity.
    + intros since Hsince _. vm_compute in Hsince. inversion Hsince. reflexivity.
Defined.

Lemma auto_recovery_when_due_witness :
  exists self' events,
    Agent.heartbeat_loop_iteration (seconds_later 12) agent_crashed_at_one
    = (Ret tt, self', events)
    /\ Agent.is_crashed self' = false.
Proof.
  destruct (auto_recovery_when_due (seconds_later 12) 1 agent_crashed_at_one)
    as (self' & events & Hrun & Hrecovered & _).
  - reflexivity.
  - reflexivity.
  - reflexivity.
  - reflexivity.
  - reflexivity.
  - exists self', events. split; [exact Hrun|exact Hrecovered].
Defined.

Lemma _log_activity_bounded_witness :
  exists log',
    Coordinator._log_activity (Coordinator.bid "agent_1" "t1" 1 0) coordinator_without_bids
    = (Ret tt, Coordinator.set_activity_log log' coordinator_without_bids, [])
    /\ (length log' <= 100)%nat.
Proof.
  destruct (_log_activity_bounded (Coordinator.bid "agent_1" "t1" 1 0)
              coordinator_without_bids)
    as (log' & Hrun & Hlen & _).
  - vm_compute. lia.
  - exists log'. split; [exact Hrun|exact Hlen].
Defined.

Lemma new_bid_is_appended_witness :
  exists self',
    Coordinator.handle_bid noon (bid_message "agent_1" "t1" 1) coordinator_without_bids
    = (Ret tt, self', [])
    /\ Coordinator.bids <$> Coordinator.pending_tasks self' !! "t1"
       = Some [sample_bid "agent_1" "t1" 1].
Proof.
  destruct (new_bid_is_appended noon (bid_message "agent_1" "t1" 1)
              (sample_bid "agent_1" "t1" 1)
              {| Coordinator.task := sample_task "t1"; Coordinator.bids := [];
                 Coordinator.broadcast_at := 0 |}
              coordinator_without_bids)
    as (self' & Hrun & Hpending & _).
  - reflexivity.
  - reflexivity.
  - reflexivity.
  - intros earlier Hin. by apply not_elem_of_nil in Hin.
  - exists self'. split; [exact Hrun|]. rewrite Hpending. reflexivity.
Defined.

Lemma one_bid_per_agent_in_every_auction_witness :
  one_bid_per_agent
    [sample_bid "agent_1" "t1" 12; sample_bid "agent_2" "t1" 3; sample_bid "agent_3" "t1" 3].
Proof.
  apply (one_bid_per_agent_in_every_auction three_bids_run "t1"
           {| Coordinator.task := sample_task "t1";
              Coordinator.bids :=
                [sample_bid "agent_1" "t1" 12; sample_bid "agent_2" "t1" 3;
                 sample_bid "agent_3" "t1" 3];
              Coordinator.broadcast_at := 0 |}).
  reflexivity.
Defined.

Lemma allocate_task_drops_finished_task_witness :
  events_of (Coordinator.allocate_task noon "t1" coordinator_task_completed) = [].
Proof.
  rewrite (allocate_task_drops_finished_task noon "t1" coordinator_task_completed).
  - reflexivity.
  - decide_it.
Defined.

Lemma allocation_bookkeeping_witness :
  Coordinator.agent_tasks
    (state_of (Coordinator.allocate_task noon "t1" coordinator_with_three_bids)) !! "agent_2"
  = Some ["t1"].
Proof.
  apply (allocation_bookkeeping noon "t1"
           {| Coordinator.task := sample_task "t1";
              Coordinator.bids :=
                [sample_bid "agent_1" "t1" 12; sample_bid "agent_2" "t1" 3;
                 sample_bid "agent_3" "t1" 3];
              Coordinator.broadcast_at := 0 |}
           (sample_bid "agent_2" "t1" 3)
           [sample_bid "agent_3" "t1" 3; sample_bid "agent_1" "t1" 12]
           coordinator_with_three_bids).
  - reflexivity.
  - decide_it.
  - decide_it.
  - reflexivity.
Defined.

Lemma heartbeat_clears_failure_witness :
  Coordinator.failed_agents
    (state_of (Coordinator.handle_heartbeat noon (heartbeat_message "agent_1")
                 coordinator_bidder_failed))
  = Coordinator.failed_agents coordinator_bidder_failed ∖ {[ "agent_1" ]}.
Proof.
  apply (heartbeat_clears_failure noon (heartbeat_message "agent_1")
           {| Heartbeat.agent_id := "agent_1"; Heartbeat.timestamp := 0;
              Heartbeat.status := "idle"; Heartbeat.current_load := 0;
              Heartbeat.max_load := 5 |}
           coordinator_bidder_failed).
  - reflexivity.
  - reflexivity.
  - discriminate.
Defined.

Lemma completed_task_is_not_allocated_witness :
  events_of (Coordinator.allocate_task noon "t1"
               (state_of (Coordinator.handle_agent_event noon
                            (task_completed_message "agent_2" "t1") coordinator_with_bid)))
  = [].
Proof.
  apply (completed_task_is_not_allocated noon noon (task_completed_message "agent_2" "t1")
           "t1" coordinator_with_bid).
  - reflexivity.
  - reflexivity.
  - discriminate.
Defined.

Lemma find_task_finds_broadcast_tasks_witness :
  Task.task_id (sample_task "t1") = "t1"
  /\ exists before after,
       Coordinator.tasks coordinator_without_bids = before ++ sample_task "t1" :: after
       /\ forall known, known ∈ before -> Task.task_id known ≠ "t1".
Proof.
  apply (find_task_finds_broadcast_tasks noon (sample_task "t1") true "t1"
           coordinator_without_bids).
  reflexivity.
Defined.

Lemma get_recent_activity_slices_witness :
  Coordinator.get_recent_activity 1 coordinator_with_bid
  = [Coordinator.bid "agent_1" "t1" 1 0]
  /\ Coordinator.get_recent_activity 0 coordinator_with_bid
     = Coordinator.activity_log coordinator_with_bid.
Proof.
  destruct (get_recent_activity_slices 1 coordinator_with_bid) as [Hlast _].
  destruct (Hlast ltac:(lia)) as [Hdrop _].
  split.
  - rewrite Hdrop. reflexivity.
  - apply (get_recent_activity_slices 1 coordinator_with_bid).
Defined.

Lemma delivery_is_fifo_witness :
  exists self' events,
    InMemoryBroker.listen_channel_iteration "tasks" broker_with_queued_broadcast
    = (Ret tt, self', events)
    /\ calls events
       = [("agent_1.handle_task_broadcast", plain_broadcast_t1);
          ("agent_2.handle_task_broadcast", plain_broadcast_t1)]
    /\ queue_of "tasks" self' = [].
Proof.
  destruct (delivery_is_fifo noon "tasks" plain_broadcast_t1 false plain_broadcast_t1 []
              broker_with_queued_broadcast)
    as [_ Hturn]; [reflexivity|reflexivity|reflexivity|].
  destruct Hturn as (self' & events & Hrun & Hcalls & Hqueue & _).
  - reflexivity.
  - discriminate.
  - reflexivity.
  - exists self', events. split; [exact Hrun|]. split; [|exact Hqueue].
    rewrite Hcalls. reflexivity.
Defined.

Lemma acknowledgments_are_consumed_witness :
  exists self' events,
    InMemoryBroker.listen_channel_iteration "acks" broker_with_queued_ack
    = (Ret tt, self', events)
    /\ calls events = []
    /\ InMemoryBroker.pending_acks self' !! Some "a-t1" = None.
Proof.
  destruct (acknowledgments_are_consumed "acks" ack_of_a_t1 [] broker_with_queued_ack)
    as (self' & events & Hrun & Hcalls & _ & _ & Hacked).
  - reflexivity.
  - reflexivity.
  - left. reflexivity.
  - exists self', events. split; [exact Hrun|]. split; [exact Hcalls|].
    rewrite (Hacked "a-t1") by reflexivity. apply lookup_delete_eq.
Defined.

Lemma reliable_publish_then_ack_witness :
  InMemoryBroker.pending_acks
    (state_of (InMemoryBroker.handle_ack (Some "a-t1")
                 (state_of (InMemoryBroker.publish noon "allocations" allocation_a_t1 true
                              listening_broker))))
  = InMemoryBroker.pending_acks listening_broker.
Proof.
  apply (reliable_publish_then_ack noon "allocations" allocation_a_t1 "a-t1"
           listening_broker); reflexivity.
Defined.

Lemma check_timeouts_before_any_timeout_witness :
  InMemoryBroker.check_timeouts (seconds_later 3) broker_with_pending
  = (Ret tt, broker_with_pending, []).
Proof.
  apply (check_timeouts_before_any_timeout (seconds_later 3) broker_with_pending).
  - reflexivity.
  - intros k info Hk.
    assert (InMemoryBroker.pending_acks broker_with_pending
            = {[ Some "a-t1" :=
                   {| InMemoryBroker.channel := "allocations";
                      InMemoryBroker.message := allocation_a_t1;
                      InMemoryBroker.sent_at := 0; InMemoryBroker.retries := 0 |} ]})
      as Htable by reflexivity.
    rewrite Htable in Hk. apply lookup_singleton_Some in Hk as [_ <-]. reflexivity.
Defined.

Lemma subscribe_appends_witness :
  exists self' events,
    InMemoryBroker.subscribe "tasks" "agent_1.handle_task_broadcast" listening_broker
    = (Ret tt, self', events)
    /\ subscribers_of "tasks" self'
       = ["agent_1.handle_task_broadcast"; "agent_2.handle_task_broadcast";
          "agent_1.handle_task_broadcast"].
Proof.
  destruct (subscribe_appends "tasks" "agent_1.handle_task_broadcast" listening_broker)
    as (self' & events & Hrun & Hsubscribers & _).
  - reflexivity.
  - exists self', events. split; [exact Hrun|]. rewrite Hsubscribers. reflexivity.
Defined.

Lemma reliable_broker_table_wf : redis_table_wf (reliable_broker_with_pending true).
Proof.
  intros k info Hk.
  assert (ReliableBroker.pending_acks (reliable_broker_with_pending true)
          = {[ Some "a-t1" :=
                 {| InMemoryBroker.channel := "allocations";
                    InMemoryBroker.message := allocation_a_t1;
                    InMemoryBroker.sent_at := 0; InMemoryBroker.retries := 0 |} ]})
    as Htable by reflexivity.
  rewrite Htable in Hk. apply lookup_singleton_Some in Hk as [<- <-].
  split; [reflexivity|by eexists].
Qed.

Lemma redis_check_timeouts_spec_witness :
  exists self',
    outcome_of (ReliableBroker.check_timeouts (seconds_later 6) true
                  (reliable_broker_with_pending true)) = Ret tt
    /\ state_of (ReliableBroker.check_timeouts (seconds_later 6) true
                   (reliable_broker_with_pending true)) = self'
    /\ InMemoryBroker.retries <$> ReliableBroker.pending_acks self' !! Some "a-t1" = Some 1%Z.
Proof.
  destruct (redis_check_timeouts_spec (seconds_later 6) true
              (reliable_broker_with_pending true))
    as (self' & Hrun & _ & Hlookups).
  - reflexivity.
  - reflexivity.
  - intros k [info Hk]. by apply (reliable_broker_table_wf k info).
  - exists self'. rewrite Hrun. split; [reflexivity|]. split; [reflexivity|].
    rewrite Hlookups. reflexivity.
Defined.

Lemma redis_retransmissions_bounded_witness :
  (retransmissions_of "a-t1"
     (check_timeouts_run five_checks (reliable_broker_with_pending true)).2 <= 3)%nat.
Proof.
  refine (proj1 (redis_retransmissions_bounded five_checks "a-t1"
                   (reliable_broker_with_pending true) _ _ _)).
  - reflexivity.
  - reflexivity.
  - apply reliable_broker_table_wf.
Defined.

Lemma redis_publish_survives_transport_errors_witness :
  outcome_of (ReliableBroker.publish noon false "allocations" allocation_a_t1 true
                (state_of (ReliableBroker.listen (ReliableBroker.init true)))) = Ret tt.
Proof.
  apply (redis_publish_survives_transport_errors noon false "allocations" allocation_a_t1
           "a-t1" (state_of (ReliableBroker.listen (ReliableBroker.init true))));
    reflexivity.
Defined.
